(** * github-webhook-server: the label-driven reconciliation engine

    A shallow embedding of [webhook_server_container/libs/github_api.py]
    (class [GitHubApi]) and the properties of its label handling, reviewer
    tracking, merge-eligibility evaluation and cherry-pick recovery.

    Python [str] values are modelled as Rocq [string]s whose characters are
    read as the code points 0..255; [int] values as [Z]; lists as [list];
    the ordered dictionaries of [constants.py] as association lists; the
    dictionary [_final_statuses] as a [gmap].  Calls on PyGithub objects are
    recorded in a trace and applied to an explicit model of the remote
    repository, so that "no call reaches GitHub" is a statement about the
    trace. *)

From Stdlib Require Import ZArith Ascii String DecimalString.
From stdpp Require Import gmap strings list.
From Equations Require Import Equations.

Local Open Scope string_scope.
Local Open Scope Z_scope.

(** ** Python string methods *)

Module Py.

(** [str.isspace] on the code points below 256. *)
Definition isspace (c : ascii) : bool :=
  let n := N_of_ascii c in
  ((9 <=? n) && (n <=? 13) || (28 <=? n) && (n <=? 32)
   || (n =? 133) || (n =? 160))%N.

(** [str.lower] on one code point below 256. *)
Definition lower_char (c : ascii) : ascii :=
  let n := N_of_ascii c in
  (if (65 <=? n) && (n <=? 90) then ascii_of_N (n + 32)
   else if (192 <=? n) && (n <=? 222) && negb (n =? 215)
        then ascii_of_N (n + 32)
        else c)%N.

Fixpoint lower (s : string) : string :=
  match s with
  | EmptyString => EmptyString
  | String c t => String (lower_char c) (lower t)
  end.

(** [s.startswith(p)] *)
Definition startswith (s p : string) : bool := String.prefix p s.

(** [sub in s] *)
Fixpoint contains (sub s : string) : bool :=
  String.prefix sub s
  || match s with
     | EmptyString => false
     | String _ t => contains sub t
     end.

Fixpoint lstrip (s : string) : string :=
  match s with
  | EmptyString => EmptyString
  | String c t => if isspace c then lstrip t else s
  end.

Fixpoint rstrip (s : string) : string :=
  match s with
  | EmptyString => EmptyString
  | String c t =>
      match rstrip t with
      | EmptyString => if isspace c then EmptyString else String c EmptyString
      | t' => String c t'
      end
  end.

(** [s.strip()] *)
Definition strip (s : string) : string := lstrip (rstrip s).

(** No character of [s] is whitespace. *)
Fixpoint nospace (s : string) : bool :=
  match s with
  | EmptyString => true
  | String c t => negb (isspace c) && nospace t
  end.

(** [s[n:]] *)
Fixpoint drop (n : nat) (s : string) : string :=
  match n, s with
  | O, _ => s
  | S _, EmptyString => EmptyString
  | S k, String _ t => drop k t
  end.

(** [s.replace("", new)]: [new] goes before every character and at the end. *)
Fixpoint replace_empty (new s : string) : string :=
  match s with
  | EmptyString => new
  | String c t => new ++ String c (replace_empty new t)
  end.

(** [s.replace(old, new)] for a non-empty [old]: the leftmost occurrence is
    replaced, and the scan resumes after it. *)
Equations? replace_scan (old new s : string) : string
  by wf (String.length s) lt :=
  replace_scan old new EmptyString := EmptyString;
  replace_scan old new (String c t) with String.prefix old (String c t) => {
    | true := new ++ replace_scan old new (drop (String.length old - 1) t);
    | false := String c (replace_scan old new t) }.
Proof.
  all: simpl; try lia.
  assert (Hdrop : forall n u, (String.length (drop n u) <= String.length u)%nat).
  { induction n as [|n IH]; intros [|a u]; simpl; try lia.
    specialize (IH u); lia. }
  specialize (Hdrop (String.length old - 1)%nat t); lia.
Qed.

(** [s.replace(old, new)] *)
Definition replace (s old new : string) : string :=
  if String.eqb old EmptyString then replace_empty new s
  else replace_scan old new s.

(** [s.split(sep)] for a one-character separator. *)
Fixpoint split (sep : ascii) (s : string) : list string :=
  match s with
  | EmptyString => [EmptyString]
  | String c t =>
      if Ascii.eqb c sep then EmptyString :: split sep t
      else match split sep t with
           | x :: xs => String c x :: xs
           | [] => [String c EmptyString]
           end
  end.

(** [s.split(sep, 1)] for a one-character separator. *)
Fixpoint split1 (sep : ascii) (s : string) : list string :=
  match s with
  | EmptyString => [EmptyString]
  | String c t =>
      if Ascii.eqb c sep then [EmptyString; t]
      else match split1 sep t with
           | x :: xs => String c x :: xs
           | [] => [String c EmptyString]
           end
  end.

(** [l[-1]] of a list of strings known to be non-empty. *)
Definition last (l : list string) : string := List.last l EmptyString.

(** [s[:n]] *)
Fixpoint take (n : nat) (s : string) : string :=
  match n, s with
  | S k, String c t => String c (take k t)
  | _, _ => EmptyString
  end.

(** [str.upper] on the letters a..z; it is applied to ASCII constants only. *)
Definition upper_char (c : ascii) : ascii :=
  let n := N_of_ascii c in
  (if (97 <=? n) && (n <=? 122) then ascii_of_N (n - 32) else c)%N.

Fixpoint upper (s : string) : string :=
  match s with
  | EmptyString => EmptyString
  | String c t => String (upper_char c) (upper t)
  end.

(** [str(n)] for an [int]. *)
Definition str_of_int (n : Z) : string := NilEmpty.string_of_int (Z.to_int n).

(** [" ".join(l)] *)
Fixpoint join (sep : string) (l : list string) : string :=
  match l with
  | [] => EmptyString
  | [x] => x
  | x :: xs => x ++ sep ++ join sep xs
  end.

End Py.

(** ** Constants of [webhook_server_container.utils.constants] *)

(** Modelled from the spec: [utils/constants.py] is not among the sources.
    The label names and prefixes are the exact strings of the label taxonomy
    and the commit states those of the status contexts (section 6). *)
Definition VERIFIED_LABEL_STR : string := "verified".
Definition HOLD_LABEL_STR : string := "hold".
Definition WIP_STR : string := "wip".
Definition LGTM_STR : string := "lgtm".
Definition NEEDS_REBASE_LABEL_STR : string := "needs-rebase".
Definition CAN_BE_MERGED_STR : string := "can-be-merged".
Definition CHERRY_PICKED_LABEL_PREFIX : string := "cherry-picked".
Definition CHERRY_PICK_LABEL_PREFIX : string := "cherry-pick-".
Definition APPROVED_BY_LABEL_PREFIX : string := "Approved-By-".
Definition CHANGED_REQUESTED_BY_LABEL_PREFIX : string := "Changes-requested-By-".
Definition COMMENTED_BY_LABEL_PREFIX : string := "Commented-By-".
Definition SUCCESS_STR : string := "success".
Definition PENDING_STR : string := "pending".
Definition FAILURE_STR : string := "failure".

(** The two values of the [action] argument, [ADD_STR] and [DELETE_STR]. *)
Inductive action := ADD_STR | DELETE_STR.

(** The tables of [constants.py] whose contents the sources do not show:
    dictionaries from label name (or label prefix) to colour, in insertion
    order, and the reaction name [REACTIONS.ok]. *)
Class Constants := {
  USER_LABELS_DICT : list (string * string);
  STATIC_LABELS_DICT : list (string * string);
  DYNAMIC_LABELS_DICT : list (string * string);
  REACTIONS_ok : string
}.

(** [key in d] for a dictionary. *)
Definition dict_has (d : list (string * string)) (k : string) : bool :=
  existsb (fun kv => String.eqb kv.1 k) d.

(** ** The remote repository and the host process *)

(** One commit status as [last_commit.get_statuses()] yields it. *)
Record Status := {
  context : string;
  state : string;
  updated_at : Z
}.

(** The requests the class sends through PyGithub objects. *)
Inductive call :=
| add_to_labels (label : string)
| remove_from_labels (label : string)
| get_label_edit (name color : string)
| create_label (name color : string)
| create_status (st description ctx : string)
| create_issue_comment (body : string)
| create_reaction (issue_comment_id : Z) (reaction : string)
| pull_request_edit (new_title : string).

Inductive level := INFO | WARNING | ERROR.

Record world := {
  pr_labels : list string                  (* labels on the pull request at GitHub *);
  repo_labels : list (string * string)     (* labels of the repository, with colour *);
  commit_statuses : list Status            (* statuses of the last commit, newest first *);
  check_runs : list (option string)        (* conclusions of its check runs *);
  branches : list string                   (* branches of the repository *);
  environ_GITHUB_TOKEN : option string     (* os.environ.get("GITHUB_TOKEN") *);
  cwd : string                             (* os.getcwd() *);
  ran : list string                        (* commands given to run_command, oldest first *);
  uuids : nat                              (* shortuuid.uuid() calls so far *);
  clock : Z                                (* timestamp of the next status *);
  calls : list call                        (* requests sent, oldest first *);
  log : list (level * string)              (* app.logger records, oldest first *)
}.

Definition set_pr_labels (v : list string) (w : world) : world :=
  {| pr_labels := v;
     repo_labels := repo_labels w;
     commit_statuses := commit_statuses w;
     check_runs := check_runs w;
     branches := branches w;
     environ_GITHUB_TOKEN := environ_GITHUB_TOKEN w;
     cwd := cwd w;
     ran := ran w;
     uuids := uuids w;
     clock := clock w;
     calls := calls w;
     log := log w |}.

Definition set_repo_labels (v : list (string * string)) (w : world) : world :=
  {| pr_labels := pr_labels w;
     repo_labels := v;
     commit_statuses := commit_statuses w;
     check_runs := check_runs w;
     branches := branches w;
     environ_GITHUB_TOKEN := environ_GITHUB_TOKEN w;
     cwd := cwd w;
     ran := ran w;
     uuids := uuids w;
     clock := clock w;
     calls := calls w;
     log := log w |}.

Definition push_status (s : Status) (w : world) : world :=
  {| pr_labels := pr_labels w;
     repo_labels := repo_labels w;
     commit_statuses := s :: commit_statuses w;
     check_runs := check_runs w;
     branches := branches w;
     environ_GITHUB_TOKEN := environ_GITHUB_TOKEN w;
     cwd := cwd w;
     ran := ran w;
     uuids := uuids w;
     clock := clock w + 1;
     calls := calls w;
     log := log w |}.

Definition set_environ (v : option string) (w : world) : world :=
  {| pr_labels := pr_labels w;
     repo_labels := repo_labels w;
     commit_statuses := commit_statuses w;
     check_runs := check_runs w;
     branches := branches w;
     environ_GITHUB_TOKEN := v;
     cwd := cwd w;
     ran := ran w;
     uuids := uuids w;
     clock := clock w;
     calls := calls w;
     log := log w |}.

Definition set_cwd (v : string) (w : world) : world :=
  {| pr_labels := pr_labels w;
     repo_labels := repo_labels w;
     commit_statuses := commit_statuses w;
     check_runs := check_runs w;
     branches := branches w;
     environ_GITHUB_TOKEN := environ_GITHUB_TOKEN w;
     cwd := v;
     ran := ran w;
     uuids := uuids w;
     clock := clock w;
     calls := calls w;
     log := log w |}.

Definition push_ran (cmd : string) (w : world) : world :=
  {| pr_labels := pr_labels w;
     repo_labels := repo_labels w;
     commit_statuses := commit_statuses w;
     check_runs := check_runs w;
     branches := branches w;
     environ_GITHUB_TOKEN := environ_GITHUB_TOKEN w;
     cwd := cwd w;
     ran := ran w ++ [cmd];
     uuids := uuids w;
     clock := clock w;
     calls := calls w;
     log := log w |}.

Definition next_uuid (w : world) : world :=
  {| pr_labels := pr_labels w;
     repo_labels := repo_labels w;
     commit_statuses := commit_statuses w;
     check_runs := check_runs w;
     branches := branches w;
     environ_GITHUB_TOKEN := environ_GITHUB_TOKEN w;
     cwd := cwd w;
     ran := ran w;
     uuids := S (uuids w);
     clock := clock w;
     calls := calls w;
     log := log w |}.

Definition push_call (c : call) (w : world) : world :=
  {| pr_labels := pr_labels w;
     repo_labels := repo_labels w;
     commit_statuses := commit_statuses w;
     check_runs := check_runs w;
     branches := branches w;
     environ_GITHUB_TOKEN := environ_GITHUB_TOKEN w;
     cwd := cwd w;
     ran := ran w;
     uuids := uuids w;
     clock := clock w;
     calls := calls w ++ [c];
     log := log w |}.

Definition push_log (l : level) (msg : string) (w : world) : world :=
  {| pr_labels := pr_labels w;
     repo_labels := repo_labels w;
     commit_statuses := commit_statuses w;
     check_runs := check_runs w;
     branches := branches w;
     environ_GITHUB_TOKEN := environ_GITHUB_TOKEN w;
     cwd := cwd w;
     ran := ran w;
     uuids := uuids w;
     clock := clock w;
     calls := calls w;
     log := log w ++ [(l, msg)] |}.

(** Modelled from the spec: GitHub itself is a collaborator outside the
    sources.  Adding a label that is present and removing one that is absent
    change nothing (section 6: both idempotent); a label that is added goes
    last and is created in the repository when it is new there; a status is
    listed first and stamped with the clock. *)
Definition remote (c : call) (w : world) : world :=
  match c with
  | add_to_labels l =>
      let w1 := if bool_decide (l ∈ pr_labels w) then w
                else set_pr_labels (pr_labels w ++ [l]) w in
      if dict_has (repo_labels w1) l then w1
      else set_repo_labels (repo_labels w1 ++ [(l, "ededed")]) w1
  | remove_from_labels l =>
      set_pr_labels (filter (fun x => x ≠ l) (pr_labels w)) w
  | get_label_edit n col =>
      set_repo_labels
        (map (fun kv => if String.eqb kv.1 n then (n, col) else kv)
             (repo_labels w)) w
  | create_label n col =>
      if dict_has (repo_labels w) n then w
      else set_repo_labels (repo_labels w ++ [(n, col)]) w
  | create_status st _ ctx =>
      push_status {| context := ctx; state := st; updated_at := clock w |} w
  | create_issue_comment _ | create_reaction _ _ | pull_request_edit _ => w
  end.

(** ** Computations: state, exceptions, and waiting for another thread *)

Inductive outcome (A : Type) :=
| Return (a : A)
| Raise (ex : string)
| Blocked.
Arguments Return {A} a.
Arguments Raise {A} ex.
Arguments Blocked {A}.

Definition M (A : Type) : Type := world -> outcome A * world.

Definition ret {A} (a : A) : M A := fun w => (Return a, w).

Definition bind {A B} (m : M A) (k : A -> M B) : M B :=
  fun w =>
    match m w with
    | (Return a, w') => k a w'
    | (Raise ex, w') => (Raise ex, w')
    | (Blocked, w') => (Blocked, w')
    end.

Declare Scope py_scope.
Delimit Scope py_scope with py.
Notation "x <- m ;; k" := (bind m (fun x => k))
  (at level 100, m at next level, right associativity) : py_scope.
Notation "m ;; k" := (bind m (fun _ => k))
  (at level 100, right associativity) : py_scope.
Local Open Scope py_scope.

Definition raise {A} (ex : string) : M A := fun w => (Raise ex, w).

(** [try: body  except Exception as ex: handler(str(ex))] *)
Definition try_except {A} (body : M A) (handler : string -> M A) : M A :=
  fun w =>
    match body w with
    | (Raise ex, w') => handler ex w'
    | r => r
    end.

(** [self.app.logger.info / warning / error] *)
Definition logger (l : level) (msg : string) : M unit :=
  fun w => (Return tt, push_log l msg w).

(** A request through PyGithub: recorded, then applied to the repository. *)
Definition request (c : call) : M unit :=
  fun w => (Return tt, remote c (push_call c w)).

(** The first colour of [name] among the repository's labels, if any:
    [repository.get_label(name)] raises [UnknownObjectException] otherwise. *)
Definition get_label (name : string) : M bool :=
  fun w => (Return (dict_has (repo_labels w) name), w).

Definition get_statuses : M (list Status) :=
  fun w => (Return (commit_statuses w), w).

Definition get_check_runs : M (list (option string)) :=
  fun w => (Return (check_runs w), w).

(** What [helpers.run_command] does with one command. *)
Inductive cmd_outcome :=
| Completed (rc : bool) (out err : string)
| Failed (ex : string).


(** ** The class [GitHubApi] *)

(** The attributes of the PyGithub pull request object that the class reads.
    They are those of the moment the object was fetched: PyGithub does not
    refresh [labels] when a label is added or removed through the object. *)
Record PullRequest := {
  number : Z;
  title : string;
  labels : list string;
  mergeable_state : string;
  additions : Z;
  deletions : Z;
  merge_commit_sha : string;
  head_ref : string;
  html_url : string;
  user_login : string
}.

Record GitHubApi := {
  repository_name : string;      (* hook_data["repository"]["name"] *)
  repository_full_name : string;
  repository_dot_name : string;  (* self.repository.name *)
  clone_url : string;            (* self.repository.clone_url *)
  owner_login : string;          (* self.repository.owner.login *)
  owner_email : string;          (* self.repository.owner.email *)
  token : string;
  verified_job : bool;           (* data.get("verified_job", True) *)
  approvers : list string;       (* the approvers of the OWNERS file *)
  hook_data_user_login : string; (* hook_data["issue" or "pull_request"]["user"]["login"] *)
  pull_request : PullRequest
}.

(** The instance with the labels of its pull request object replaced. *)
Definition with_labels (self : GitHubApi) (ls : list string) : GitHubApi :=
  let pr := pull_request self in
  {| repository_name := repository_name self;
     repository_full_name := repository_full_name self;
     repository_dot_name := repository_dot_name self;
     clone_url := clone_url self;
     owner_login := owner_login self;
     owner_email := owner_email self;
     token := token self;
     verified_job := verified_job self;
     approvers := approvers self;
     hook_data_user_login := hook_data_user_login self;
     pull_request :=
       {| number := number pr; title := title pr;
          labels := ls;
          mergeable_state := mergeable_state pr;
          additions := additions pr; deletions := deletions pr;
          merge_commit_sha := merge_commit_sha pr;
          head_ref := head_ref pr; html_url := html_url pr;
          user_login := user_login pr |} |}.

Definition LF : string := String (ascii_of_nat 10) EmptyString.

(** Python truthiness of an optional string. *)
Definition truthy (o : option string) : bool :=
  match o with
  | Some s => negb (String.eqb s EmptyString)
  | None => false
  end.

(** What the sources import or start but do not contain: the result of
    [helpers.run_command] on a command, given the commands run before it; the
    stream of [shortuuid.uuid()] values; and the two comment commands that
    start test runs, container builds and pushes ([retest] and [cherry-pick]
    once their argument is known to be present, and
    [build-and-push-container]), which stay abstract here. *)
Class Helpers := {
  run_command_outcome : list string -> string -> cmd_outcome;
  shortuuid_uuid : nat -> string;
  available_command :
    GitHubApi -> string -> string -> string -> Z -> M unit;
  build_and_push_container_command : GitHubApi -> Z -> M unit
}.

Section Methods.
Context `{K : Constants} `{H : Helpers}.

(** [run_command(command=cmd, **self.run_command_kwargs)] *)
Definition run_command (cmd : string) : M (bool * string * string) :=
  fun w =>
    match run_command_outcome (ran w) cmd with
    | Completed rc out err => (Return (rc, out, err), push_ran cmd w)
    | Failed ex => (Raise ex, push_ran cmd w)
    end.

(** [shortuuid.uuid()] *)
Definition uuid : M string :=
  fun w => (Return (shortuuid_uuid (uuids w)), next_uuid w).

Definition supported_user_labels_str : string :=
  Py.join "" (map (fun kv => " * " ++ kv.1 ++ LF) USER_LABELS_DICT).

(** The property [log_prefix], for an instance whose pull request is set. *)
Definition log_prefix (self : GitHubApi) : string :=
  repository_name self ++ "[PR "
    ++ Py.str_of_int (number (pull_request self)) ++ "]:".

Definition hash_token (self : GitHubApi) (message : string) : string :=
  let hashed_message := Py.replace message (token self) "*****" in
  hashed_message.

Definition app_logger_info (self : GitHubApi) (message : string) : M unit :=
  let hashed_message := hash_token self message in
  logger INFO hashed_message.

Definition app_logger_error (self : GitHubApi) (message : string) : M unit :=
  let hashed_message := hash_token self message in
  logger ERROR hashed_message.

(** [self.pull_request = self._get_pull_request()]: a new object, with the
    labels the pull request has at GitHub now. *)
Definition _get_pull_request (self : GitHubApi) : M GitHubApi :=
  fun w => (Return (with_labels self (pr_labels w)), w).

Definition pull_request_labels_names (self : GitHubApi) : list string :=
  labels (pull_request self).

(** [any(lb for lb in names if lb == label)]: the elements equal to [label]
    are tested for truth, so the empty name never counts as present. *)
Definition label_exists_in_pull_request (self : GitHubApi) (label : string) : bool :=
  existsb (fun lb => negb (String.eqb lb EmptyString))
          (filter (fun lb => lb = label) (pull_request_labels_names self)).

Definition _remove_label (self : GitHubApi) (label : string) : M unit :=
  if label_exists_in_pull_request self label then
    logger INFO (log_prefix self ++ " Removing label " ++ label);;
    request (remove_from_labels label)
  else
    logger WARNING
      (log_prefix self ++ " Label " ++ label ++ " not found and cannot be removed").

Definition _add_label (self : GitHubApi) (label : string) : M unit :=
  let label := Py.strip label in
  if (49 <? Z.of_nat (String.length label)) then
    logger WARNING (label ++ " is to long, not adding.")
  else if label_exists_in_pull_request self label then
    logger INFO
      (log_prefix self ++ " Label " ++ label ++ " already assign to PR "
         ++ Py.str_of_int (number (pull_request self)))
  else if dict_has STATIC_LABELS_DICT label then
    logger INFO
      (log_prefix self ++ " Adding pull request label " ++ label ++ " to "
         ++ Py.str_of_int (number (pull_request self)));;
    request (add_to_labels label)
  else
    let _color :=
      map snd (filter (fun kv => Is_true (Py.contains kv.1 label))
                      DYNAMIC_LABELS_DICT) in
    logger INFO
      (log_prefix self ++ " Label " ++ label ++ " was "
         ++ (match _color with [] => "not found" | _ => "found" end)
         ++ " in labels dict");;
    let color := match _color with c :: _ => c | [] => "D4C5F9" end in
    logger INFO
      (log_prefix self ++ " Adding label " ++ label ++ " with color " ++ color);;
    known <- get_label label;;
    (if known : bool then
       request (get_label_edit label color);;
       logger INFO
         (log_prefix self ++ " Edit repository label " ++ label
            ++ " with color " ++ color)
     else
       logger INFO
         (log_prefix self ++ " Add repository label " ++ label
            ++ " with color " ++ color);;
       request (create_label label color));;
    logger INFO
      (log_prefix self ++ " Adding pull request label " ++ label ++ " to "
         ++ Py.str_of_int (number (pull_request self)));;
    request (add_to_labels label).

Definition size_label_prefix : string := "size/".

Definition add_size_label (self : GitHubApi) : M unit :=
  let size := additions (pull_request self) + deletions (pull_request self) in
  let _label :=
    if size <? 20 then "XS"
    else if size <? 50 then "S"
    else if size <? 100 then "M"
    else if size <? 300 then "L"
    else if size <? 500 then "XL"
    else "XXL" in
  _add_label self (size_label_prefix ++ _label).

Definition set_merge_check_pending (self : GitHubApi) : M unit :=
  logger INFO (log_prefix self ++ " Set merge check to pending");;
  request (create_status PENDING_STR "Cannot be merged" CAN_BE_MERGED_STR).

Definition set_merge_check_success (self : GitHubApi) : M unit :=
  logger INFO (log_prefix self ++ " Set merge check to success");;
  request (create_status SUCCESS_STR "Can be merged" CAN_BE_MERGED_STR).

(** [self.pull_request.get_issue_comment(id).create_reaction(reaction)] *)
Definition create_comment_reaction (issue_comment_id : Z) (reaction : string) : M unit :=
  request (create_reaction issue_comment_id reaction).

(** The end of [manage_reviewed_by_label], from [if label_prefix:] on, for
    the values its branches gave to [label_prefix] and [label_to_remove]. *)
Definition manage_reviewed_by_label_tail
    (self : GitHubApi) (review_state : string) (act : action)
    (reviewed_user : string) (label_prefix label_to_remove : option string)
    : M unit :=
  if truthy label_prefix then
    let reviewer_label := default "" label_prefix ++ reviewed_user in
    match act with
    | ADD_STR =>
        _add_label self reviewer_label;;
        if truthy label_to_remove
        then _remove_label self (default "" label_to_remove)
        else ret tt
    | DELETE_STR => _remove_label self reviewer_label
    end
  else
    logger WARNING
      (log_prefix self ++ " PR " ++ Py.str_of_int (number (pull_request self))
         ++ " got unsupported review state: " ++ review_state).

Definition manage_reviewed_by_label
    (self : GitHubApi) (review_state : string) (act : action)
    (reviewed_user : string) : M unit :=
  logger INFO
    (log_prefix self ++ " Processing label for review from " ++ reviewed_user
       ++ ". review_state: " ++ review_state ++ ", action: "
       ++ (match act with ADD_STR => "add" | DELETE_STR => "delete" end));;
  let pull_request_labels := pull_request_labels_names self in
  let finish := manage_reviewed_by_label_tail self review_state act reviewed_user in
  if bool_decide (review_state ∈ ["approved"; LGTM_STR]) then
    let pr_owner := hook_data_user_login self in
    if String.eqb pr_owner reviewed_user then
      logger INFO
        (log_prefix self ++ " PR owner " ++ pr_owner
           ++ " set /lgtm, not adding label.")
    else
      let _remove_label := CHANGED_REQUESTED_BY_LABEL_PREFIX ++ reviewed_user in
      finish (Some APPROVED_BY_LABEL_PREFIX)
             (if bool_decide (_remove_label ∈ pull_request_labels)
              then Some _remove_label else None)
  else if String.eqb review_state "changes_requested" then
    let _remove_label := APPROVED_BY_LABEL_PREFIX ++ reviewed_user in
    finish (Some CHANGED_REQUESTED_BY_LABEL_PREFIX)
           (if bool_decide (_remove_label ∈ pull_request_labels)
            then Some _remove_label else None)
  else if String.eqb review_state "commented" then
    finish (Some COMMENTED_BY_LABEL_PREFIX) None
  else
    finish None None.

(** The loop that fills [_final_statuses]: per context other than
    can-be-merged, the status with the greatest [updated_at] so far, the
    earlier one on equal times. *)
Definition _final_statuses_step
    (_final_statuses : gmap string (Z * string)) (_status : Status)
    : gmap string (Z * string) :=
  if String.eqb (context _status) CAN_BE_MERGED_STR then _final_statuses
  else
    let _status_data := (updated_at _status, state _status) in
    match _final_statuses !! context _status with
    | Some old =>
        if old.1 <? updated_at _status
        then <[context _status := _status_data]> _final_statuses
        else _final_statuses
    | None => <[context _status := _status_data]> _final_statuses
    end.

Definition _final_statuses (statuses : list Status) : gmap string (Z * string) :=
  fold_left _final_statuses_step statuses ∅.

(** The [for _label in _labels] loop of [check_if_can_be_merged]; its result
    is the value of [_can_be_merged] when the loop is left. *)
Fixpoint check_if_can_be_merged_loop (self : GitHubApi) (_labels : list string)
    : M bool :=
  match _labels with
  | [] => ret false
  | _label :: rest =>
      if Py.contains (Py.lower CHANGED_REQUESTED_BY_LABEL_PREFIX) (Py.lower _label)
      then ret false
      else if Py.contains (Py.lower APPROVED_BY_LABEL_PREFIX) (Py.lower _label)
      then
        let approved_user := Py.last (Py.split "-" _label) in
        if bool_decide (approved_user ∈ approvers self) then
          _add_label self CAN_BE_MERGED_STR;;
          set_merge_check_success self;;
          ret true
        else check_if_can_be_merged_loop self rest
      else check_if_can_be_merged_loop self rest
  end.

Definition check_if_can_be_merged (self : GitHubApi) : M unit :=
  logger INFO
    (log_prefix self ++ " check if PR "
       ++ Py.str_of_int (number (pull_request self)) ++ " can be merged.");;
  let _labels := pull_request_labels_names self in
  runs <- get_check_runs;;
  let all_check_runs_passed :=
    forallb (fun conclusion => bool_decide (conclusion = Some SUCCESS_STR)) runs in
  statuses <- get_statuses;;
  let _all_statuses_passed :=
    bool_decide (map_Forall (fun _ d => d.2 = SUCCESS_STR)
                            (_final_statuses statuses)) in
  _can_be_merged <-
    (if bool_decide (VERIFIED_LABEL_STR ∈ _labels)
        && negb (String.eqb (mergeable_state (pull_request self)) "behind")
        && all_check_runs_passed
        && _all_statuses_passed
        && negb (bool_decide (HOLD_LABEL_STR ∈ _labels))
     then check_if_can_be_merged_loop self _labels
     else ret false);;
  if negb _can_be_merged then
    _remove_label self CAN_BE_MERGED_STR;;
    set_merge_check_pending self
  else ret tt.

Definition label_by_user_comment
    (self : GitHubApi) (user_request : string) (remove : bool)
    (reviewed_user : string) (issue_comment_id : Z) : M unit :=
  if negb (existsb (fun kv => Py.startswith user_request kv.1) USER_LABELS_DICT)
  then
    logger INFO
      (log_prefix self ++ " Label " ++ user_request
         ++ " is not a predefined one, will not be added / removed.");;
    request
      (create_issue_comment
         (LF ++ "Label " ++ user_request
            ++ " is not a predefined one, will not be added / removed." ++ LF
            ++ "Available labels:" ++ LF ++ LF
            ++ supported_user_labels_str ++ LF))
  else
    logger INFO
      (log_prefix self ++ " " ++ (if remove then "Remove" else "Add")
         ++ " label requested by user " ++ reviewed_user ++ ": " ++ user_request);;
    create_comment_reaction issue_comment_id REACTIONS_ok;;
    (if String.eqb user_request LGTM_STR then
       manage_reviewed_by_label self LGTM_STR
         (if remove then DELETE_STR else ADD_STR) reviewed_user
     else ret tt);;
    let label_func := if remove then _remove_label else _add_label in
    label_func self user_request.

Definition user_commands
    (self : GitHubApi) (command reviewed_user : string) (issue_comment_id : Z)
    : M unit :=
  let available_commands := ["retest"; "cherry-pick"] in
  if Py.contains "sonarsource.github.io" command then
    logger INFO (log_prefix self ++ " command is in ignore list")
  else
    logger INFO
      (log_prefix self ++ " Processing label/user command " ++ command
         ++ " by user " ++ reviewed_user);;
    let command_and_args := Py.split1 " " command in
    let _command := nth 0 command_and_args "" in
    let _args :=
      if (1 <? length command_and_args)%nat then nth 1 command_and_args "" else "" in
    let remove := (1 <? length command_and_args)%nat && String.eqb _args "cancel" in
    (if remove then
       logger INFO
         (log_prefix self ++ " User requested 'cancel' for command " ++ _command)
     else ret tt);;
    if bool_decide (_command ∈ available_commands) then
      if String.eqb _args "" then
        let error_msg := log_prefix self ++ " retest/cherry-pick requires an argument" in
        logger INFO error_msg;;
        request (create_issue_comment error_msg)
      else available_command self _command _args reviewed_user issue_comment_id
    else if String.eqb _command "build-and-push-container" then
      build_and_push_container_command self issue_comment_id
    else if String.eqb _command WIP_STR then
      create_comment_reaction issue_comment_id REACTIONS_ok;;
      let wip_for_title := Py.upper WIP_STR ++ ":" in
      if remove then
        _remove_label self WIP_STR;;
        request (pull_request_edit
                   (Py.replace (title (pull_request self)) wip_for_title ""))
      else
        _add_label self WIP_STR;;
        request (pull_request_edit
                   (wip_for_title ++ " " ++ title (pull_request self)))
    else
      label_by_user_comment self _command remove reviewed_user issue_comment_id.

(** [os.chdir(directory)]: it raises [FileNotFoundError] when the directory
    is not there; [is_dir] tells whether it is. *)
Definition os_chdir (directory : string) (is_dir : bool) : M unit :=
  fun w =>
    if is_dir then (Return tt, set_cwd directory w)
    else (Raise ("[Errno 2] No such file or directory: '" ++ directory ++ "'"), w).

(** [with change_directory(directory, logger): body], for a [directory] that
    is there or not as [is_dir] tells.  The directory to go back to is the
    one the process was in, which is there. *)
Definition change_directory {A}
    (directory : string) (is_dir : bool) (body : M A) : M A :=
  logger INFO ("Changing directory to " ++ directory);;
  old_cwd <- (fun w => (Return (cwd w), w));;
  os_chdir directory is_dir;;
  r <- body;;
  logger INFO ("Changing back to directory " ++ old_cwd);;
  os_chdir old_cwd true;;
  ret r.

Definition clone_repository_path (self : GitHubApi) : string :=
  "/" ++ repository_dot_name self.

(** [with self._clone_repository(path_suffix): body].  The generator has no
    [finally]: an exception in [body] skips what follows the [yield].  There
    is no file system here: the clone path is new, its name ending in a
    fresh uuid, so the directory is there exactly when [git clone] has made
    it, that is when the command reports success; its result is otherwise
    ignored ([check=False]).  The removal of the clone is not modelled. *)
Definition _clone_repository {A}
    (self : GitHubApi) (path_suffix : string) (body : M A) : M A :=
  let _clone_path := "/tmp" ++ clone_repository_path self ++ "-" ++ path_suffix in
  logger INFO
    ("Cloning repository: " ++ repository_full_name self ++ " into " ++ _clone_path);;
  let clone_cmd :=
    "git clone "
      ++ Py.replace (clone_url self) "https://" ("https://" ++ token self ++ "@")
      ++ " " ++ _clone_path in
  let git_user_name_cmd := "git config user.name '" ++ owner_login self ++ "'" in
  let git_email_cmd := "git config user.email '" ++ owner_email self ++ "'" in
  let remote_update_cmd := "git remote update" in
  let fetch_pr_cmd :=
    "git config --local --add remote.origin.fetch +refs/pull/*/head:refs/remotes/origin/pr/*" in
  cloned <- run_command clone_cmd;;
  let '(is_cloned, _, _) := cloned in
  r <- change_directory _clone_path is_cloned
         (run_command git_user_name_cmd;;
          run_command git_email_cmd;;
          run_command fetch_pr_cmd;;
          run_command remote_update_cmd;;
          body);;
  logger INFO (log_prefix self ++ " Removing cloned repository: " ++ _clone_path);;
  ret r.

Definition _checkout_new_branch
    (self : GitHubApi) (source_branch new_branch_name : string) : M unit :=
  logger INFO
    (log_prefix self ++ " Checking out new branch: " ++ new_branch_name
       ++ " from " ++ source_branch);;
  run_command ("git checkout " ++ source_branch);;
  run_command ("git pull origin " ++ source_branch);;
  run_command ("git checkout -b " ++ new_branch_name ++ " origin/" ++ source_branch);;
  ret tt.

(** [@ignore_exceptions()] turns a failing [get_branch] into [None]. *)
Definition is_branch_exists (branch : string) : M bool :=
  fun w => (Return (bool_decide (branch ∈ branches w)), w).

(** [with self.set_os_env_github_token(): body].  While another token holds
    the variable the method polls it; only another thread can clear it, so
    in this sequential model the call does not return. *)
Definition set_os_env_github_token {A} (self : GitHubApi) (body : M A) : M A :=
  fun w =>
    if truthy (environ_GITHUB_TOKEN w)
       && negb (bool_decide (environ_GITHUB_TOKEN w = Some (token self)))
    then (Blocked, w)
    else
      (((fun w => (Return tt, set_environ (Some (token self)) w));;
        r <- body;;
        (fun w => (Return tt, set_environ None w));;
        ret r) w).

(** The inner function [_issue_from_err] of [_cherry_pick]. *)
Definition _issue_from_err
    (self : GitHubApi) (source_branch : string)
    (_out _err _commit_hash _source_branch _step : string) : M bool :=
  logger ERROR
    (log_prefix self ++ " [" ++ _step ++ "] Cherry pick failed: " ++ _out
       ++ " --- " ++ _err);;
  let local_branch_name := head_ref (pull_request self) ++ "-" ++ source_branch in
  request
    (create_issue_comment
       ("**Manual cherry-pick is needed**" ++ LF ++ "Cherry pick failed for "
          ++ _commit_hash ++ " to " ++ _source_branch ++ ":" ++ LF
          ++ "To cherry-pick run:" ++ LF
          ++ "```" ++ LF
          ++ "git checkout " ++ _source_branch ++ LF
          ++ "git pull origin " ++ _source_branch ++ LF
          ++ "git checkout -b " ++ local_branch_name ++ LF
          ++ "git cherry-pick " ++ _commit_hash ++ LF
          ++ "git push origin " ++ local_branch_name ++ LF
          ++ "```"));;
  ret false.

Definition _cherry_pick
    (self : GitHubApi) (source_branch new_branch_name : string) : M bool :=
  let commit_hash := merge_commit_sha (pull_request self) in
  let commit_msg := title (pull_request self) in
  let pull_request_url := html_url (pull_request self) in
  let user_login := user_login (pull_request self) in
  try_except
    (logger INFO
       (log_prefix self ++ " Cherry picking [PR "
          ++ Py.str_of_int (number (pull_request self)) ++ "]" ++ commit_hash
          ++ " into " ++ source_branch ++ ", requested by " ++ user_login);;
     r1 <- run_command ("git cherry-pick " ++ commit_hash);;
     let '(cherry_pick, out, err) := r1 in
     if negb cherry_pick then
       _issue_from_err self source_branch out err commit_hash source_branch
         "git cherry-pick"
     else
       r2 <- run_command ("git push origin " ++ new_branch_name);;
       let '(git_push, out, err) := r2 in
       if negb git_push then
         _issue_from_err self source_branch out err commit_hash source_branch
           "git push"
       else
         r3 <- set_os_env_github_token self
                 (run_command
                    ("hub pull-request -b " ++ source_branch
                       ++ " -h " ++ new_branch_name
                       ++ " -l " ++ CHERRY_PICKED_LABEL_PREFIX
                       ++ " -m '" ++ CHERRY_PICKED_LABEL_PREFIX ++ ": ["
                       ++ source_branch ++ "] " ++ commit_msg ++ "'"
                       ++ " -m 'cherry-pick " ++ pull_request_url ++ " into "
                       ++ source_branch ++ "'"
                       ++ " -m 'requested-by " ++ user_login ++ "'"));;
         let '(pull_request_cmd, out, err) := r3 in
         if negb pull_request_cmd then
           _issue_from_err self source_branch out err commit_hash source_branch
             "create pull request";;
           ret false
         else ret true)
    (fun ex =>
       _issue_from_err self source_branch "" ex commit_hash source_branch "";;
       ret false).

Definition cherry_pick
    (self : GitHubApi) (target_branch : string) (reviewed_user : option string)
    : M unit :=
  logger INFO
    (log_prefix self ++ " Cherry-pick requested by user: "
       ++ (if truthy reviewed_user then default "" reviewed_user
           else "by target-branch label"));;
  u <- uuid;;
  let new_branch_name :=
    CHERRY_PICKED_LABEL_PREFIX ++ "-" ++ head_ref (pull_request self) ++ "-"
      ++ Py.take 5 u in
  found <- is_branch_exists target_branch;;
  if negb found then
    let err_msg := "cherry-pick failed: " ++ target_branch ++ " does not exists" in
    logger ERROR err_msg;;
    request (create_issue_comment err_msg)
  else
    path_suffix <- uuid;;
    _clone_repository self path_suffix
      (_checkout_new_branch self target_branch new_branch_name;;
       picked <- _cherry_pick self target_branch new_branch_name;;
       if picked : bool then
         request
           (create_issue_comment
              ("Cherry-picked PR " ++ title (pull_request self) ++ " into "
                 ++ target_branch))
       else ret tt).

(** The loop over the labels in [process_pull_request_webhook_data], for a
    pull request that was closed by a merge. *)
Fixpoint process_pull_request_webhook_data_cherry_pick
    (self : GitHubApi) (_labels : list string) : M unit :=
  match _labels with
  | [] => ret tt
  | _label_name :: rest =>
      (if Py.startswith _label_name CHERRY_PICK_LABEL_PREFIX then
         cherry_pick self
           (Py.replace _label_name CHERRY_PICK_LABEL_PREFIX "") None
       else ret tt);;
      process_pull_request_webhook_data_cherry_pick self rest
  end.

(** The review handler, once the pull request has been fetched. *)
Definition process_pull_request_review_webhook_data
    (self : GitHubApi) (hook_action review_state review_user_login : string)
    : M unit :=
  self <- _get_pull_request self;;
  (if String.eqb hook_action "submitted" then
     manage_reviewed_by_label self review_state ADD_STR review_user_login
   else ret tt);;
  check_if_can_be_merged self.

(** The last branch of [process_hook]: an event that is neither a comment, a
    pull request, a push nor a review event, and is not ignored. *)
Definition process_hook_other (self : GitHubApi) : M unit :=
  self <- _get_pull_request self;;
  check_if_can_be_merged self.

(** Review events [(review_state, action, reviewed_user)] delivered one after
    another: each delivery builds its own instance, which fetches the pull
    request before [manage_reviewed_by_label] runs. *)
Fixpoint deliver_reviews
    (self : GitHubApi) (events : list (string * action * string)) : M unit :=
  match events with
  | [] => ret tt
  | (review_state, act, reviewed_user) :: rest =>
      fetched <- _get_pull_request self;;
      manage_reviewed_by_label fetched review_state act reviewed_user;;
      deliver_reviews self rest
  end.

End Methods.

(** ** Observations on a run *)

(** The requests sent between two states of the world. *)
Definition new_calls (w w' : world) : list call :=
  List.skipn (length (calls w)) (calls w').

(** The bodies of the comments among some requests. *)
Definition comments_of (cs : list call) : list string :=
  omap (fun c => match c with create_issue_comment b => Some b | _ => None end) cs.

(** The label additions and removals among some requests. *)
Definition is_label_call (c : call) : bool :=
  match c with
  | add_to_labels _ | remove_from_labels _
  | get_label_edit _ _ | create_label _ _ => true
  | _ => false
  end.

(** The labels that some requests attach to the pull request. *)
Definition attached (cs : list call) : list string :=
  omap (fun c => match c with add_to_labels l => Some l | _ => None end) cs.

(** [_add_label] puts a label last unless GitHub has it already. *)
Definition add_if_absent (l : string) (ls : list string) : list string :=
  if bool_decide (l ∈ ls) then ls else ls ++ [l].

(** No reviewer holds both labels. *)
Definition exclusive (ls : list string) : Prop :=
  forall u,
    ~ ((APPROVED_BY_LABEL_PREFIX ++ u) ∈ ls
       /\ (CHANGED_REQUESTED_BY_LABEL_PREFIX ++ u) ∈ ls).

(** The labels at GitHub after the end of [manage_reviewed_by_label] has run
    on a pull request fetched with the labels [L]. *)
Definition labels_after_review
    (L : list string) (act : action) (reviewed_user label_prefix : string)
    (label_to_remove : option string) : list string :=
  let present (l : string) := bool_decide (l ∈ L) && negb (String.eqb l "") in
  match act with
  | ADD_STR =>
      let s := Py.strip (label_prefix ++ reviewed_user) in
      let added :=
        if (49 <? Z.of_nat (String.length s)) || present s then L
        else add_if_absent s L in
      if truthy label_to_remove && present (default "" label_to_remove)
      then filter (fun x => x ≠ default "" label_to_remove) added
      else added
  | DELETE_STR =>
      let s := label_prefix ++ reviewed_user in
      if present s then filter (fun x => x ≠ s) L else L
  end.

(** A label the evaluator reads as a request for changes. *)
Definition is_changes_requested (l : string) : bool :=
  Py.contains (Py.lower CHANGED_REQUESTED_BY_LABEL_PREFIX) (Py.lower l).

(** A label the evaluator reads as the approval of an approver. *)
Definition is_approval (approvers : list string) (l : string) : bool :=
  Py.contains (Py.lower APPROVED_BY_LABEL_PREFIX) (Py.lower l)
  && bool_decide (Py.last (Py.split "-" l) ∈ approvers).

(** The value of [_can_be_merged] when the loop over the labels is left. *)
Fixpoint loop_result (approvers : list string) (ls : list string) : bool :=
  match ls with
  | [] => false
  | l :: rest =>
      if is_changes_requested l then false
      else if is_approval approvers l then true
      else loop_result approvers rest
  end.

(** The value of [_can_be_merged] at the end of [check_if_can_be_merged]. *)
Definition can_be_merged (self : GitHubApi) (w : world) : bool :=
  bool_decide (VERIFIED_LABEL_STR ∈ labels (pull_request self))
  && negb (String.eqb (mergeable_state (pull_request self)) "behind")
  && forallb (fun c => bool_decide (c = Some SUCCESS_STR)) (check_runs w)
  && bool_decide (map_Forall (fun _ d => d.2 = SUCCESS_STR)
                             (_final_statuses (commit_statuses w)))
  && negb (bool_decide (HOLD_LABEL_STR ∈ labels (pull_request self)))
  && loop_result (approvers self) (labels (pull_request self)).

(** The status that counts for its context: the one with the greatest
    timestamp, the first listed among equals. *)
Definition authoritative (statuses : list Status) (s : Status) : Prop :=
  exists i,
    statuses !! i = Some s
    /\ forall j s', statuses !! j = Some s' -> context s' = context s ->
         updated_at s' < updated_at s
         \/ (updated_at s' = updated_at s /\ (i <= j)%nat).

(** The two reports of the evaluator: the label is on the pull request and
    the run ends by writing the success status, or the label is off and the
    run ends by writing the pending status. *)
Definition reports_mergeable (w w' : world) : Prop :=
  CAN_BE_MERGED_STR ∈ pr_labels w'
  /\ exists pre,
       calls w'
       = (calls w ++ pre
            ++ [create_status SUCCESS_STR "Can be merged" CAN_BE_MERGED_STR])%list.

Definition reports_pending (w w' : world) : Prop :=
  (CAN_BE_MERGED_STR ∉ pr_labels w')
  /\ exists pre,
       calls w'
       = (calls w ++ pre
            ++ [create_status PENDING_STR "Cannot be merged" CAN_BE_MERGED_STR])%list.

(** The scan of the labels ends well: a label that the evaluator reads as
    the approval of an approver is listed before every label that it reads
    as a request for changes. *)
Definition approval_comes_first (approvers : list string) (L : list string)
    : Prop :=
  exists i l,
    L !! i = Some l
    /\ is_approval approvers l = true
    /\ forall j l', (j <= i)%nat -> L !! j = Some l' ->
         is_changes_requested l' = false.

(** What the evaluator tests, test by test, on the labels that the pull
    request object lists and the check runs and statuses of the commit. *)
Definition mergeable_as_evaluated (self : GitHubApi) (w : world) : Prop :=
  let L := labels (pull_request self) in
  VERIFIED_LABEL_STR ∈ L
  /\ mergeable_state (pull_request self) <> "behind"
  /\ Forall (fun c => c = Some SUCCESS_STR) (check_runs w)
  /\ (forall s, authoritative (commit_statuses w) s ->
         context s <> CAN_BE_MERGED_STR -> state s = SUCCESS_STR)
  /\ (HOLD_LABEL_STR ∉ L)
  /\ approval_comes_first (approvers self) L.

(** The seven conditions of section 4.4 as the specification words them,
    with the repository's [verified_job] setting as the flag of the first. *)
Definition claimed_eligible (self : GitHubApi) (w : world) : Prop :=
  let L := labels (pull_request self) in
  (VERIFIED_LABEL_STR ∈ L \/ verified_job self = false)
  /\ mergeable_state (pull_request self) <> "behind"
  /\ Forall (fun c => c = Some SUCCESS_STR) (check_runs w)
  /\ (forall s, authoritative (commit_statuses w) s ->
         context s <> CAN_BE_MERGED_STR -> state s = SUCCESS_STR)
  /\ (HOLD_LABEL_STR ∉ L)
  /\ (forall u, (CHANGED_REQUESTED_BY_LABEL_PREFIX ++ u) ∉ L)
  /\ (exists u, (APPROVED_BY_LABEL_PREFIX ++ u) ∈ L /\ u ∈ approvers self).

(** The size table as the specification words it. *)
Definition size_tier (n : Z) (L : string) : Prop :=
  (n < 20 /\ L = "size/XS")
  \/ (20 <= n < 50 /\ L = "size/S")
  \/ (50 <= n < 100 /\ L = "size/M")
  \/ (100 <= n < 300 /\ L = "size/L")
  \/ (300 <= n < 500 /\ L = "size/XL")
  \/ (500 <= n /\ L = "size/XXL").

(** The three commands of [_cherry_pick]; the others prepare the clone. *)
Definition is_step (cmd : string) : bool :=
  Py.startswith cmd "git cherry-pick "
  || Py.startswith cmd "git push origin "
  || Py.startswith cmd "hub pull-request ".

(** No other token holds the environment variable. *)
Definition credential_free (self : GitHubApi) (w : world) : Prop :=
  truthy (environ_GITHUB_TOKEN w)
  && negb (bool_decide (environ_GITHUB_TOKEN w = Some (token self))) = false.

(** The commands of the manual recipe, and the comment that carries them. *)
Definition recovery_recipe (commit_hash target local_branch : string)
    : list string :=
  ["git checkout " ++ target;
   "git pull origin " ++ target;
   "git checkout -b " ++ local_branch;
   "git cherry-pick " ++ commit_hash;
   "git push origin " ++ local_branch].

Definition recovery_comment (commit_hash target local_branch : string) : string :=
  "**Manual cherry-pick is needed**" ++ LF ++ "Cherry pick failed for "
    ++ commit_hash ++ " to " ++ target ++ ":" ++ LF
    ++ "To cherry-pick run:" ++ LF
    ++ "```" ++ LF
    ++ "git checkout " ++ target ++ LF
    ++ "git pull origin " ++ target ++ LF
    ++ "git checkout -b " ++ local_branch ++ LF
    ++ "git cherry-pick " ++ commit_hash ++ LF
    ++ "git push origin " ++ local_branch ++ LF
    ++ "```".







(** ** Further methods of the class *)

(** [str.title] on ASCII text: a letter is put in upper case when the
    character before it is no letter, and in lower case otherwise.  It is
    applied to ASCII constants only. *)
Fixpoint str_title_from (previous_is_cased : bool) (s : string) : string :=
  match s with
  | EmptyString => EmptyString
  | String c t =>
      let n := N_of_ascii c in
      let cased := ((65 <=? n) && (n <=? 90) || (97 <=? n) && (n <=? 122))%N in
      String (if previous_is_cased then Py.lower_char c else Py.upper_char c)
             (str_title_from cased t)
  end.

Definition str_title (s : string) : string := str_title_from false s.

Section MoreMethods.
Context `{K : Constants} `{H : Helpers}.

(** The attribute [welcome_msg] set by [__init__]. *)
Definition welcome_msg : string :=
  Py.join LF
    [""; "Report bugs in [Issues](https://github.com/myakove/github-webhook-server/issues)";
     "";
     "The following are automatically added:";
     " * Add reviewers from OWNER file (in the root of the repository) under reviewers section.";
     " * Set PR size label.";
     " * New issue is created for the PR. (Closed when PR is merged/closed)";
     " * Run [pre-commit](https://pre-commit.ci/) if `.pre-commit-config.yaml` exists in the repo.";
     "";
     "Available user actions:";
     " * To mark PR as WIP comment `/wip` to the PR, To remove it from the PR comment `/wip cancel` to the PR.";
     " * To block merging of PR comment `/hold`, To un-block merging of PR comment `/hold cancel`.";
     " * To mark PR as verified comment `/verified` to the PR, to un-verify comment `/verified cancel` to the PR.";
     "        verified label removed on each new commit push.";
     " * To cherry pick a merged PR comment `/cherry-pick <target branch to cherry-pick to>` in the PR.";
     "    * Multiple target branches can be cherry-picked, separated by spaces. (`/cherry-pick branch1 branch2`)";
     "    * Cherry-pick will be started when PR is merged";
     " * To re-run tox comment `/retest tox` in the PR.";
     " * To re-run build-container command `/retest build-container` in the PR.";
     " * To re-run python-module-install command `/retest python-module-install` in the PR.";
     " * To build and push container image command `/build-and-push-container` in the PR (tag will be the PR number).";
     " * To add a label by comment use `/<label name>`, to remove, use `/<label name> cancel`";
     "<details>";
     "<summary>Supported labels</summary>";
     "";
     supported_user_labels_str;
     "</details>";
     "    "].

Definition reset_verify_label (self : GitHubApi) : M unit :=
  logger INFO
    (log_prefix self ++ " Processing reset verify label on new commit push");;
  _remove_label self VERIFIED_LABEL_STR.

Definition set_verify_check_pending (self : GitHubApi) : M unit :=
  logger INFO (log_prefix self ++ " Processing set verified check pending");;
  request
    (create_status PENDING_STR
       ("Waiting for verification (/" ++ VERIFIED_LABEL_STR ++ ")")
       VERIFIED_LABEL_STR).

Definition set_verify_check_success (self : GitHubApi) : M unit :=
  logger INFO (log_prefix self ++ " Set verified check to success");;
  request
    (create_status SUCCESS_STR (str_title VERIFIED_LABEL_STR) VERIFIED_LABEL_STR).

(** [_process_verified]; the attribute [self.api_user], the login behind the
    token, is given as an argument. *)
Definition _process_verified
    (self : GitHubApi) (api_user parent_committer : string) : M unit :=
  if negb (verified_job self) then ret tt
  else if bool_decide (parent_committer ∈ [api_user; "pre-commit-ci[bot]"]) then
    logger INFO
      (log_prefix self ++ " Committer " ++ parent_committer ++ " == API user "
         ++ parent_committer ++ ", Setting verified label");;
    _add_label self VERIFIED_LABEL_STR;;
    set_verify_check_success self
  else
    reset_verify_label self;;
    set_verify_check_pending self.

(** [needs_rebase], given the [mergeable_state] of the pull requests that
    [repository.get_pulls()] lists; the pause of thirty seconds before each
    is not modelled. *)
Fixpoint needs_rebase (self : GitHubApi) (pulls : list string) : M unit :=
  match pulls with
  | [] => ret tt
  | merge_state :: rest =>
      logger INFO
        (log_prefix self
           ++ " Sleep for 30 seconds before checking if rebase needed");;
      logger INFO (log_prefix self ++ " Mergeable state is " ++ merge_state);;
      (if String.eqb merge_state "behind"
       then _add_label self NEEDS_REBASE_LABEL_STR
       else _remove_label self NEEDS_REBASE_LABEL_STR);;
      needs_rebase self rest
  end.

(** The loop over the reviewers' labels in
    [process_pull_request_webhook_data], for a [synchronize] event. *)
Fixpoint process_pull_request_webhook_data_remove_labels
    (self : GitHubApi) (reviewed_by_labels : list string) : M unit :=
  match reviewed_by_labels with
  | [] => ret tt
  | _reviewed_label :: rest =>
      _remove_label self _reviewed_label;;
      process_pull_request_webhook_data_remove_labels self rest
  end.

Definition process_pull_request_webhook_data_reviewed_by
    (self : GitHubApi) : M unit :=
  let reviewed_by_labels :=
    List.filter (fun name => Py.contains "By-" name)
                (labels (pull_request self)) in
  process_pull_request_webhook_data_remove_labels self reviewed_by_labels.

(** The branch of [process_pull_request_webhook_data] for [labeled] and
    [unlabeled] events, once the pull request has been fetched, from the log
    record on: what precedes it merges a pull request of the API user when
    it gets the can-be-merged label, and returns. *)
Definition process_pull_request_webhook_data_labeled
    (self : GitHubApi) (hook_action label_name : string) : M unit :=
  if bool_decide (hook_action ∈ ["labeled"; "unlabeled"]) then
    let labeled := Py.lower label_name in
    logger INFO
      (log_prefix self ++ " PR " ++ Py.str_of_int (number (pull_request self))
         ++ " " ++ hook_action ++ " with " ++ labeled);;
    (if verified_job self && String.eqb labeled VERIFIED_LABEL_STR then
       (if String.eqb hook_action "labeled"
        then set_verify_check_success self else ret tt);;
       (if String.eqb hook_action "unlabeled"
        then set_verify_check_pending self else ret tt)
     else ret tt);;
    if negb (bool_decide (CAN_BE_MERGED_STR ∈ pull_request_labels_names self))
       || negb (String.eqb labeled CAN_BE_MERGED_STR)
    then check_if_can_be_merged self
    else ret tt
  else ret tt.

(** The loop over the commands of a comment. *)
Fixpoint process_comment_webhook_data_commands
    (self : GitHubApi) (_user_commands : list string) (user_login : string)
    (issue_comment_id : Z) : M unit :=
  match _user_commands with
  | [] => ret tt
  | user_command :: rest =>
      user_commands self user_command user_login issue_comment_id;;
      process_comment_webhook_data_commands self rest user_login issue_comment_id
  end.

(** [process_comment_webhook_data], for hook data whose pull request is
    found.  The first record is logged before the pull request is set, with
    the short form of [log_prefix]. *)
Definition process_comment_webhook_data
    (self : GitHubApi) (hook_action : string) (issue_number : Z)
    (body user_login : string) (issue_comment_id : Z) : M unit :=
  if bool_decide (hook_action ∈ ["action"; "deleted"]) then ret tt
  else
    logger INFO
      (repository_name self ++ ": Processing issue " ++ Py.str_of_int issue_number);;
    self <- _get_pull_request self;;
    if String.eqb body welcome_msg then
      logger INFO
        (log_prefix self ++ " Welcome message found in issue "
           ++ title (pull_request self) ++ ". Not processing")
    else
      let striped_body := Py.strip body in
      let _user_commands :=
        List.filter (fun x => negb (String.eqb x ""))
          (if Py.startswith striped_body "/" then Py.split "/" striped_body
           else []) in
      process_comment_webhook_data_commands self _user_commands user_login
        issue_comment_id;;
      check_if_can_be_merged self.

End MoreMethods.

(** ** Observations on the further methods *)

(** The status writes among some requests. *)
Definition statuses_of (cs : list call) : list (string * string) :=
  omap (fun c => match c with
                 | create_status st _ ctx => Some (ctx, st)
                 | _ => None
                 end) cs.

(** A computation that returns and sends label requests only. *)
Definition only_label_requests (m : M unit) : Prop :=
  forall w, exists w' cs,
    m w = (Return tt, w')
    /\ calls w' = (calls w ++ cs)%list
    /\ Forall (fun c => is_label_call c = true) cs.

(** ** The cherry-pick command *)

(** [s.split()]: the pieces of [s] between runs of whitespace. *)
Fixpoint split_whitespace (s : string) : list string :=
  match s with
  | EmptyString => []
  | String c t =>
      if Py.isspace c then split_whitespace t
      else
        match t with
        | EmptyString => [String c EmptyString]
        | String d _ =>
            if Py.isspace d then String c EmptyString :: split_whitespace t
            else
              match split_whitespace t with
              | x :: xs => String c x :: xs
              | [] => [String c EmptyString]
              end
        end
  end.

(** A Python [set] of strings, filled from a list: the order in which it is
    iterated is not specified; every element comes once. *)
Class PySet := {
  set_iter : list string -> list string;
  set_iter_elem : forall l x, x ∈ set_iter l <-> x ∈ l;
  set_iter_NoDup : forall l, NoDup (set_iter l)
}.

Section CherryPickCommand.
Context `{K : Constants} `{H : Helpers} `{S : PySet}.

(** The loop that looks every target branch up and collects the message
    about those that are missing. *)
Fixpoint user_commands_cherry_pick_lookup
    (_target_branches : list string) (_non_exits_target_branches_msg : string)
    : M string :=
  match _target_branches with
  | [] => ret _non_exits_target_branches_msg
  | _target_branch :: rest =>
      found <- is_branch_exists _target_branch;;
      user_commands_cherry_pick_lookup rest
        (if found : bool then _non_exits_target_branches_msg
         else _non_exits_target_branches_msg ++ "Target branch `"
                ++ _target_branch ++ "` does not exist" ++ LF)
  end.

Fixpoint user_commands_cherry_pick_add_labels
    (self : GitHubApi) (cp_labels : list string) : M unit :=
  match cp_labels with
  | [] => ret tt
  | _cp_label :: rest =>
      _add_label self _cp_label;;
      user_commands_cherry_pick_add_labels self rest
  end.

Fixpoint user_commands_cherry_pick_run
    (self : GitHubApi) (_exits_target_branches : list string)
    (reviewed_user : string) : M unit :=
  match _exits_target_branches with
  | [] => ret tt
  | _exits_target_branch :: rest =>
      cherry_pick self _exits_target_branch (Some reviewed_user);;
      user_commands_cherry_pick_run self rest reviewed_user
  end.

(** The branch of [user_commands] for the command [cherry-pick] with an
    argument; [is_merged] is [self.pull_request.is_merged()].  Every target
    is added to the set of the branches taken to exist, the look-up having
    failed or not. *)
Definition user_commands_cherry_pick
    (self : GitHubApi) (is_merged : bool) (_args reviewed_user : string)
    (issue_comment_id : Z) : M unit :=
  create_comment_reaction issue_comment_id REACTIONS_ok;;
  let _target_branches := split_whitespace _args in
  let _exits_target_branches := set_iter _target_branches in
  _non_exits_target_branches_msg <-
    user_commands_cherry_pick_lookup _target_branches "";;
  (if negb (String.eqb _non_exits_target_branches_msg "") then
     logger INFO (log_prefix self ++ " " ++ _non_exits_target_branches_msg);;
     request (create_issue_comment _non_exits_target_branches_msg)
   else ret tt);;
  match _exits_target_branches with
  | [] => ret tt
  | _ :: _ =>
      if negb is_merged then
        let cp_labels :=
          map (fun _target_branch => CHERRY_PICK_LABEL_PREFIX ++ _target_branch)
              _exits_target_branches in
        let info_msg :=
          LF ++ "Cherry-pick requested for PR: `" ++ title (pull_request self)
             ++ "` by user `" ++ reviewed_user ++ "`" ++ LF
             ++ "Adding label/s `" ++ Py.join " " cp_labels
             ++ "` for automatic cheery-pick once the PR is merged" ++ LF in
        logger INFO (log_prefix self ++ " " ++ info_msg);;
        request (create_issue_comment info_msg);;
        user_commands_cherry_pick_add_labels self cp_labels
      else
        user_commands_cherry_pick_run self _exits_target_branches reviewed_user
  end.

End CherryPickCommand.

(** A set that is iterated in the order of first insertion. *)
Definition example_set : PySet :=
  {| set_iter := remove_dups;
     set_iter_elem := fun l x => elem_of_remove_dups l x;
     set_iter_NoDup := fun l => NoDup_remove_dups l |}.

(** ** A concrete configuration, used to run the code on examples *)

Definition example_constants : Constants :=
  {| USER_LABELS_DICT :=
       [("hold", "B60205"); ("verified", "0E8A16"); ("wip", "B60205");
        ("lgtm", "0E8A16")];
     STATIC_LABELS_DICT :=
       [("hold", "B60205"); ("verified", "0E8A16"); ("wip", "B60205");
        ("lgtm", "0E8A16"); ("cherry-picked", "1D76DB");
        ("needs-rebase", "B60205"); ("can-be-merged", "0E8A17");
        ("size/XS", "ededed"); ("size/S", "0E8A16"); ("size/M", "F09C74");
        ("size/L", "F5621C"); ("size/XL", "D93F0B"); ("size/XXL", "B60205")];
     DYNAMIC_LABELS_DICT :=
       [("Approved-By-", "0E8A16"); ("Changes-requested-By-", "F5621C");
        ("Commented-By-", "BFD4F2"); ("cherry-pick-", "F09C74")];
     REACTIONS_ok := "+1" |}.

(** Helpers under which [git cherry-pick] reports a conflict and every other
    command succeeds. *)
Definition example_helpers : Helpers :=
  {| run_command_outcome := fun _ cmd =>
       if Py.startswith cmd "git cherry-pick "
       then Completed false "" "conflict" else Completed true "" "";
     shortuuid_uuid := fun n => "uuid" ++ Py.str_of_int (Z.of_nat n);
     available_command := fun _ _ _ _ _ => ret tt;
     build_and_push_container_command := fun _ _ => ret tt |}.

(** Helpers under which [git clone] reports a failure and every other
    command succeeds. *)
Definition unreachable_helpers : Helpers :=
  {| run_command_outcome := fun _ cmd =>
       if Py.startswith cmd "git clone "
       then Completed false "" "fatal: unable to access the repository"
       else Completed true "" "";
     shortuuid_uuid := fun n => "uuid" ++ Py.str_of_int (Z.of_nat n);
     available_command := fun _ _ _ _ _ => ret tt;
     build_and_push_container_command := fun _ _ => ret tt |}.





Definition example_pull_request (ls : list string) : PullRequest :=
  {| number := 7; title := "Fix parser"; labels := ls;
     mergeable_state := "clean"; additions := 12; deletions := 3;
     merge_commit_sha := "0a1b2c3"; head_ref := "fix-parser";
     html_url := "https://github.com/org/repo/pull/7"; user_login := "carol" |}.

Definition example_instance (tok : string) (vj : bool) (ls : list string)
    : GitHubApi :=
  {| repository_name := "repo"; repository_full_name := "org/repo";
     repository_dot_name := "repo";
     clone_url := "https://github.com/org/repo.git";
     owner_login := "org"; owner_email := "org@example.com";
     token := tok; verified_job := vj; approvers := ["alice"];
     hook_data_user_login := "carol";
     pull_request := example_pull_request ls |}.

(** The instance with other approvers in its OWNERS file. *)
Definition with_approvers (self : GitHubApi) (names : list string) : GitHubApi :=
  {| repository_name := repository_name self;
     repository_full_name := repository_full_name self;
     repository_dot_name := repository_dot_name self;
     clone_url := clone_url self;
     owner_login := owner_login self;
     owner_email := owner_email self;
     token := token self;
     verified_job := verified_job self;
     approvers := names;
     hook_data_user_login := hook_data_user_login self;
     pull_request := pull_request self |}.

Definition example_self (ls : list string) : GitHubApi :=
  example_instance "t0k3n" true ls.

Definition example_world (ls : list string) : world :=
  {| pr_labels := ls; repo_labels := []; commit_statuses := [];
     check_runs := [Some "success"]; branches := ["main"; "release-1.0"];
     environ_GITHUB_TOKEN := None; cwd := "/"; ran := []; uuids := 0;
     clock := 100; calls := []; log := [] |}.

(** * Properties *)

(** ** Facts about the string methods *)

Section StringFacts.

Lemma prefix_nil_r (p : string) : String.prefix p "" = true -> p = "".
Proof. destruct p; simpl; [reflexivity | discriminate]. Qed.

Lemma prefix_nil_l (s : string) : String.prefix "" s = true.
Proof. destruct s; reflexivity. Qed.

Lemma prefix_cons (a b : ascii) (p s : string) :
  String.prefix (String a p) (String b s) = true <->
  a = b /\ String.prefix p s = true.
Proof.
  simpl. destruct (ascii_dec a b) as [->|Hne]; split.
  - intros Hp; split; [reflexivity | exact Hp].
  - intros [_ Hp]; exact Hp.
  - discriminate.
  - intros [Heq _]; contradiction.
Qed.

Lemma contains_cons (sub : string) (c : ascii) (s : string) :
  Py.contains sub (String c s)
  = String.prefix sub (String c s) || Py.contains sub s.
Proof. reflexivity. Qed.

(** A string without ['*'] that is not empty does not start with one. *)
Lemma star_free_cons (a : ascii) (p : string) :
  Py.contains "*" (String a p) = false ->
  a <> "*"%char /\ Py.contains "*" p = false.
Proof.
  rewrite contains_cons. intros Hc. apply orb_false_elim in Hc as [Hp Hc].
  split; [|exact Hc]. intros Heq; subst a.
  assert (String.prefix "*" (String "*" p) = true) as Hq
    by (apply prefix_cons; split; [reflexivity | apply prefix_nil_l]).
  congruence.
Qed.

Lemma contains_skip_star (tok s : string) :
  tok <> "" -> Py.contains "*" tok = false ->
  Py.contains tok (String "*" s) = Py.contains tok s.
Proof.
  intros Hne Hfree. rewrite contains_cons.
  destruct tok as [|a tok]; [contradiction|].
  apply star_free_cons in Hfree as [Ha _].
  assert (String.prefix (String a tok) (String "*" s) = false) as ->.
  { apply not_true_is_false. intros Hp. apply prefix_cons in Hp as [-> _].
    contradiction. }
  reflexivity.
Qed.

(** The scan keeps a prefix free of ['*'] only where the input had it. *)
Lemma replace_scan_prefix (tok s : string) :
  forall p, Py.contains "*" p = false ->
    String.prefix p (Py.replace_scan tok "*****" s) = true ->
    String.prefix p s = true.
Proof.
  funelim (Py.replace_scan tok "*****" s); intros p Hfree Hp.
  - exact Hp.
  - destruct p as [|a p]; [apply prefix_nil_l|].
    apply star_free_cons in Hfree as [Ha _].
    simpl in Hp. destruct (ascii_dec a "*"); [contradiction | discriminate].
  - destruct p as [|a p]; [apply prefix_nil_l|].
    apply star_free_cons in Hfree as [_ Hfree].
    apply prefix_cons in Hp as [-> Hp]. apply prefix_cons. split; [reflexivity|].
    match goal with IH : forall p, _ -> _ -> String.prefix p t = true |- _ =>
      apply IH; assumption end.
Qed.

(** After the scan no occurrence of a ['*']-free token is left. *)
Lemma replace_scan_hides (tok s : string) :
  tok <> "" -> Py.contains "*" tok = false ->
  Py.contains tok (Py.replace_scan tok "*****" s) = false.
Proof.
  intros Hne Hfree. funelim (Py.replace_scan tok "*****" s).
  - destruct old; [contradiction | reflexivity].
  - change ("*****" ++ ?r) with
      (String "*" (String "*" (String "*" (String "*" (String "*" r))))).
    rewrite !contains_skip_star by assumption. auto.
  - rewrite contains_cons. apply orb_false_intro; [|auto].
    apply not_true_is_false. intros Hp.
    assert (String.prefix old (String c t) = true) as Hin.
    { apply (replace_scan_prefix old); [assumption|].
      simp replace_scan. rewrite Heq. simpl. exact Hp. }
    congruence.
Qed.

End StringFacts.

(** ** Token masking in log messages *)

(** C10 (as amended).  [hash_token] is the message with the token replaced by
    five stars, scanning from the left; [app_logger_info] and
    [app_logger_error] log exactly that text; and when the token is not empty
    and contains no star, the logged text does not contain the token. *)
Theorem C10_hash_token_masks_star_free_token
    (self : GitHubApi) (message : string) (w : world) :
  token self <> "" ->
  Py.contains "*" (token self) = false ->
  hash_token self message = Py.replace message (token self) "*****"
  /\ Py.contains (token self) (hash_token self message) = false
  /\ app_logger_info self message w
     = (Return tt, push_log INFO (hash_token self message) w)
  /\ app_logger_error self message w
     = (Return tt, push_log ERROR (hash_token self message) w).
Proof.
  intros Hne Hfree. repeat split.
  unfold hash_token, Py.replace.
  destruct (String.eqb_spec (token self) "") as [Heq|_]; [contradiction|].
  apply replace_scan_hides; assumption.
Qed.

Lemma C10_hash_token_masks_witness :
  Py.contains "t0k3n" (hash_token (example_self []) "push with t0k3n failed")
  = false.
Proof.
  apply (C10_hash_token_masks_star_free_token (example_self [])
           "push with t0k3n failed" (example_world [])).
  - simpl. discriminate.
  - reflexivity.
Defined.

(** C10 (as stated) fails: a token that is not empty and is not part of
    ["*****"] can show up again where a kept character meets the stars. *)
Lemma C10_hash_token_leaks_starred_token :
  let self := example_instance "a*" true [] in
  token self <> ""
  /\ Py.contains (token self) "*****" = false
  /\ hash_token self "aa*" = "a*****"
  /\ Py.contains (token self) (hash_token self "aa*") = true.
Proof. repeat split. simpl. discriminate. Qed.

(** ** Running the computations *)

(** Unfolds the sequencing of a computation applied to a world. *)
Ltac run :=
  unfold bind, ret, logger, request, get_label, get_statuses, get_check_runs;
  cbn [fst snd pr_labels repo_labels commit_statuses check_runs branches
       environ_GITHUB_TOKEN cwd ran uuids clock calls log
       set_pr_labels set_repo_labels push_status set_environ set_cwd
       push_ran next_uuid push_call push_log].

(** ** Over-long labels *)

(** C7 (as amended).  A label whose name, once [strip] has removed the
    surrounding whitespace, is longer than 49 characters is not submitted:
    [_add_label] logs a warning and returns, no request is sent, and the
    labels of the pull request and of the repository stay as they were. *)
Theorem C7_add_label_rejects_long_label
    `{K : Constants} (self : GitHubApi) (label : string) (w : world) :
  (49 < String.length (Py.strip label))%nat ->
  let r := _add_label self label w in
  r = (Return tt,
       push_log WARNING (Py.strip label ++ " is to long, not adding.") w)
  /\ calls r.2 = calls w
  /\ pr_labels r.2 = pr_labels w
  /\ repo_labels r.2 = repo_labels w.
Proof.
  intros Hlen. unfold _add_label.
  assert ((49 <? Z.of_nat (String.length (Py.strip label))) = true) as ->
    by (apply Z.ltb_lt; lia).
  repeat split.
Qed.

Lemma C7_add_label_rejects_long_label_witness :
  let label := "this-label-name-is-fifty-two-characters-long-in-all!" in
  let r := _add_label (K := example_constants) (example_self []) label
             (example_world []) in
  String.length label = 52%nat /\ calls r.2 = [].
Proof.
  split; [reflexivity|].
  apply (C7_add_label_rejects_long_label (K := example_constants)
           (example_self []) _ (example_world [])).
  vm_compute. lia.
Defined.

(** C7 (as stated) fails: [strip] runs before the length is tested, so a
    name of 52 characters, three of them trailing spaces, is created in the
    repository and attached to the pull request. *)
Lemma C7_add_label_accepts_padded_long_label :
  let label := "aaaaaaaaaaaaaaaaaaaaaaaaaaaaaaaaaaaaaaaaaaaaaaaaa   " in
  let r := _add_label (K := example_constants) (example_self []) label
             (example_world []) in
  String.length label = 52%nat
  /\ calls r.2
     = [create_label "aaaaaaaaaaaaaaaaaaaaaaaaaaaaaaaaaaaaaaaaaaaaaaaaa" "D4C5F9";
        add_to_labels "aaaaaaaaaaaaaaaaaaaaaaaaaaaaaaaaaaaaaaaaaaaaaaaaa"]
  /\ pr_labels r.2 = ["aaaaaaaaaaaaaaaaaaaaaaaaaaaaaaaaaaaaaaaaaaaaaaaaa"].
Proof. repeat split. Qed.

(** ** Self-approval *)

(** C5.  When the reviewer of an [approved] or [lgtm] review is the author of
    the pull request, [manage_reviewed_by_label] returns after logging: it
    sends no request, so no label is added and none is removed.  This holds
    for either action. *)
Theorem C5_self_approval_changes_no_label
    `{K : Constants} (self : GitHubApi) (review_state : string) (act : action)
    (reviewed_user : string) (w : world) :
  review_state = "approved" \/ review_state = LGTM_STR ->
  hook_data_user_login self = reviewed_user ->
  let r := manage_reviewed_by_label self review_state act reviewed_user w in
  r.1 = Return tt
  /\ calls r.2 = calls w
  /\ pr_labels r.2 = pr_labels w.
Proof.
  intros Hstate Howner. unfold manage_reviewed_by_label.
  assert (bool_decide (review_state ∈ ["approved"; LGTM_STR]) = true) as Hin.
  { apply bool_decide_eq_true. destruct Hstate as [-> | ->]; rewrite !elem_of_cons; auto. }
  run. rewrite Hin, Howner, String.eqb_refl. repeat split.
Qed.

Lemma C5_self_approval_witness :
  let ls := ["verified"; "Changes-requested-By-carol"] in
  let r := manage_reviewed_by_label (K := example_constants) (example_self ls)
             "approved" ADD_STR "carol" (example_world ls) in
  r.1 = Return tt /\ calls r.2 = [] /\ pr_labels r.2 = ls.
Proof.
  apply (C5_self_approval_changes_no_label (K := example_constants)
           (example_self ["verified"; "Changes-requested-By-carol"])
           "approved" ADD_STR "carol"
           (example_world ["verified"; "Changes-requested-By-carol"])).
  - left. reflexivity.
  - reflexivity.
Defined.

(** ** Adding and removing one label *)

Lemma new_calls_app (w w' : world) (cs : list call) :
  calls w' = (calls w ++ cs)%list -> new_calls w w' = cs.
Proof.
  intros Hc. unfold new_calls. rewrite Hc.
  rewrite skipn_app, skipn_all, Nat.sub_diag. reflexivity.
Qed.

Lemma new_calls_same (w w' : world) : calls w' = calls w -> new_calls w w' = [].
Proof.
  intros Hc. apply new_calls_app. rewrite Hc, app_nil_r. reflexivity.
Qed.

Lemma label_exists_in_pull_request_spec (self : GitHubApi) (label : string) :
  label_exists_in_pull_request self label
  = bool_decide (label ∈ labels (pull_request self))
    && negb (String.eqb label "").
Proof.
  unfold label_exists_in_pull_request, pull_request_labels_names.
  induction (labels (pull_request self)) as [|lb ls IH].
  - reflexivity.
  - rewrite filter_cons. destruct (decide (lb = label)) as [->|Hne].
    + simpl. rewrite IH.
      rewrite (bool_decide_eq_true_2 (label ∈ label :: ls)) by set_solver.
      destruct (String.eqb label ""); simpl; [|reflexivity].
      rewrite andb_false_r. reflexivity.
    + rewrite IH. f_equal. apply bool_decide_ext.
      rewrite elem_of_cons.
      split; [auto | intros [Heq | Hin]; [congruence | exact Hin]].
Qed.

Lemma _remove_label_run (self : GitHubApi) (label : string) (w : world) :
  exists w',
    _remove_label self label w = (Return tt, w')
    /\ commit_statuses w' = commit_statuses w
    /\ check_runs w' = check_runs w
    /\ repo_labels w' = repo_labels w
    /\ if label_exists_in_pull_request self label
       then pr_labels w' = filter (fun x => x ≠ label) (pr_labels w)
            /\ calls w' = (calls w ++ [remove_from_labels label])%list
       else pr_labels w' = pr_labels w /\ calls w' = calls w.
Proof.
  unfold _remove_label.
  destruct (label_exists_in_pull_request self label); run;
    eexists; (split; [reflexivity|]); repeat split.
Qed.

Lemma _add_label_run `{K : Constants} (self : GitHubApi) (label : string) (w : world) :
  exists w',
    _add_label self label w = (Return tt, w')
    /\ commit_statuses w' = commit_statuses w
    /\ check_runs w' = check_runs w
    /\ if (49 <? Z.of_nat (String.length (Py.strip label)))
          || label_exists_in_pull_request self (Py.strip label)
       then pr_labels w' = pr_labels w /\ calls w' = calls w
            /\ repo_labels w' = repo_labels w
       else pr_labels w' = add_if_absent (Py.strip label) (pr_labels w)
            /\ exists pre,
                 calls w' = (calls w ++ pre ++ [add_to_labels (Py.strip label)])%list
                 /\ Forall (fun c => exists n col,
                              c = get_label_edit n col \/ c = create_label n col)
                           pre.
Proof.
  unfold _add_label, add_if_absent.
  destruct (49 <? Z.of_nat (String.length (Py.strip label))).
  { run. eexists; split; [reflexivity|]. repeat split. }
  destruct (label_exists_in_pull_request self (Py.strip label)).
  { run. eexists; split; [reflexivity|]. repeat split. }
  cbn [orb].
  destruct (dict_has STATIC_LABELS_DICT (Py.strip label)).
  { run. eexists; split; [reflexivity|]. unfold remote. run.
    destruct (bool_decide _); run; destruct (dict_has _ _); run;
      (split; [reflexivity|split; [reflexivity|split; [reflexivity|]]]);
      exists []; (split; [reflexivity|constructor]). }
  run. destruct (dict_has (repo_labels w) (Py.strip label)); run.
  - eexists; split; [reflexivity|]. unfold remote. run.
    destruct (bool_decide _); run; destruct (dict_has _ _); run;
      (split; [reflexivity|split; [reflexivity|split; [reflexivity|]]]);
      eexists [_]; (split; [rewrite <- app_assoc; reflexivity|]);
      repeat constructor; eauto.
  - eexists; split; [reflexivity|]. unfold remote. run.
    destruct (dict_has (repo_labels w) (Py.strip label)); run;
    destruct (bool_decide _); run; destruct (dict_has _ _); run;
      (split; [reflexivity|split; [reflexivity|split; [reflexivity|]]]);
      eexists [_]; (split; [rewrite <- app_assoc; reflexivity|]);
      repeat constructor; eauto.
Qed.

Lemma elem_of_add_if_absent (l : string) (ls : list string) :
  l ∈ add_if_absent l ls.
Proof.
  unfold add_if_absent. destruct (bool_decide (l ∈ ls)) eqn:Hin.
  - apply bool_decide_eq_true in Hin. exact Hin.
  - apply elem_of_app. right. apply list_elem_of_singleton. reflexivity.
Qed.

Lemma elem_of_add_if_absent_keep (l x : string) (ls : list string) :
  l ∈ ls -> l ∈ add_if_absent x ls.
Proof.
  unfold add_if_absent. destruct (bool_decide (x ∈ ls)); [auto|].
  intros Hl. apply elem_of_app. auto.
Qed.

(** ** The size label *)

(** C9 (as amended).  The size label is a total function of
    [additions + deletions]: exactly one name of the table fits a size, and
    [add_size_label] returns having attached that label with one request,
    unless the pull request object already lists it: then it attaches
    nothing.  It attaches no other label and removes none. *)
Theorem C9_add_size_label_attaches_the_tier_label_unless_listed
    `{K : Constants} (self : GitHubApi) (w : world) :
  let n := additions (pull_request self) + deletions (pull_request self) in
  let r := add_size_label self w in
  exists L,
    size_tier n L
    /\ (forall L', size_tier n L' -> L' = L)
    /\ r.1 = Return tt
    /\ attached (new_calls w r.2)
       = (if bool_decide (L ∈ labels (pull_request self)) then [] else [L])
    /\ ((L ∉ labels (pull_request self)) -> L ∈ pr_labels r.2)
    /\ (forall l, l ∈ pr_labels w -> l ∈ pr_labels r.2)
    /\ (forall l, l ∈ pr_labels r.2 -> l ∈ pr_labels w \/ l = L).
Proof.
  intros n r. subst r. unfold add_size_label. fold n.
  assert (exists L,
    (if n <? 20 then "XS" else if n <? 50 then "S" else if n <? 100 then "M"
     else if n <? 300 then "L" else if n <? 500 then "XL" else "XXL")
    = L /\ size_tier n (size_label_prefix ++ L)
    /\ (forall L', size_tier n L' -> L' = size_label_prefix ++ L)
    /\ Py.strip (size_label_prefix ++ L) = size_label_prefix ++ L
    /\ (String.length (size_label_prefix ++ L) <= 49)%nat
    /\ size_label_prefix ++ L <> "") as (L & -> & Htier & Huniq & Hstrip & Hlen & Hne).
  { unfold size_tier.
    destruct (Z.ltb_spec n 20); [|destruct (Z.ltb_spec n 50);
      [|destruct (Z.ltb_spec n 100); [|destruct (Z.ltb_spec n 300);
        [|destruct (Z.ltb_spec n 500)]]]];
      eexists; (split; [reflexivity|]);
      (split; [repeat match goal with
                      | |- _ \/ _ => first [left; split; [lia|reflexivity] | right]
                      end; try (split; [lia|reflexivity])|]);
      (split; [intros L' HL'; intuition (subst; first [lia | reflexivity])|]);
      (split; [reflexivity|]);
      (split; [vm_compute; lia | vm_compute; discriminate]). }
  exists (size_label_prefix ++ L).
  split; [exact Htier|]. split; [exact Huniq|].
  destruct (_add_label_run self (size_label_prefix ++ L) w)
    as (w' & -> & _ & _ & Heff).
  rewrite Hstrip in Heff. cbn [fst snd].
  rewrite label_exists_in_pull_request_spec in Heff.
  assert ((49 <? Z.of_nat (String.length (size_label_prefix ++ L))) = false)
    as Hshort by (apply Z.ltb_ge; lia).
  rewrite Hshort in Heff. cbn [orb] in Heff.
  assert (negb (String.eqb (size_label_prefix ++ L) "") = true) as Hnz.
  { destruct (String.eqb_spec (size_label_prefix ++ L) ""); [contradiction|reflexivity]. }
  rewrite Hnz, andb_true_r in Heff.
  split; [reflexivity|].
  destruct (bool_decide (size_label_prefix ++ L ∈ labels (pull_request self)))
    eqn:Hin.
  - destruct Heff as (Hl & Hc & _). rewrite Hl.
    apply bool_decide_eq_true in Hin.
    split; [rewrite (new_calls_same _ _ Hc); reflexivity|].
    split; [intros Hout; contradiction|]. split; auto.
  - destruct Heff as (Hl & pre & Hc & Hpre). rewrite Hl.
    split.
    { rewrite (new_calls_app _ _ _ Hc). unfold attached.
      rewrite omap_app. cbn.
      assert (omap (fun c => match c with add_to_labels l => Some l | _ => None end) pre
              = []) as ->; [|reflexivity].
      clear Hc. induction Hpre as [|c pre (nm & col & [-> | ->]) _ IH];
        [reflexivity | exact IH | exact IH]. }
    split; [intros _; apply elem_of_add_if_absent|].
    split; [intros l; apply elem_of_add_if_absent_keep|].
    intros l. unfold add_if_absent.
    destruct (bool_decide (size_label_prefix ++ L ∈ pr_labels w)); [auto|].
    intros [Hl' | ->%list_elem_of_singleton]%elem_of_app; auto.
Qed.

(** C9 (as stated) fails twice over.  A pull request of size 15 whose object
    already lists [size/XS] gets no label attached; and one that lists
    [size/L], the label of its former size, ends with two size labels. *)
Lemma C9_listed_label_is_skipped_and_old_tier_stays :
  let r := add_size_label (K := example_constants) (example_self ["size/XS"])
             (example_world ["size/XS"]) in
  let r' := add_size_label (K := example_constants) (example_self ["size/L"])
              (example_world ["size/L"]) in
  additions (example_pull_request []) + deletions (example_pull_request []) = 15
  /\ size_tier 15 "size/XS"
  /\ (r.1 = Return tt
      /\ attached (new_calls (example_world ["size/XS"]) r.2) = []
      /\ calls r.2 = [])
  /\ (r'.1 = Return tt
      /\ attached (new_calls (example_world ["size/L"]) r'.2) = ["size/XS"]
      /\ pr_labels r'.2 = ["size/L"; "size/XS"]).
Proof.
  cbn zeta. split; [reflexivity|].
  split; [left; split; [lia | reflexivity]|].
  split; repeat split; reflexivity.
Qed.

(** ** The merge-eligibility evaluation *)

Lemma check_if_can_be_merged_loop_run
    `{K : Constants} (self : GitHubApi) (ls : list string) (w : world) :
  check_if_can_be_merged_loop self ls w
  = if loop_result (approvers self) ls
    then bind (_add_label self CAN_BE_MERGED_STR)
              (fun _ => bind (set_merge_check_success self) (fun _ => ret true)) w
    else (Return false, w).
Proof.
  induction ls as [|l ls IH]; [reflexivity|].
  cbn [check_if_can_be_merged_loop loop_result].
  unfold is_changes_requested, is_approval.
  destruct (Py.contains _ (Py.lower l)); [reflexivity|].
  destruct (Py.contains _ (Py.lower l)); [|exact IH].
  cbn [andb]. destruct (bool_decide _); [reflexivity | exact IH].
Qed.

(** What one evaluation does, by the value of [_can_be_merged]. *)
Lemma check_if_can_be_merged_run
    `{K : Constants} (self : GitHubApi) (w : world) :
  exists w',
    check_if_can_be_merged self w = (Return tt, w')
    /\ check_runs w' = check_runs w
    /\ (exists s, context s = CAN_BE_MERGED_STR
                  /\ commit_statuses w' = s :: commit_statuses w)
    /\ if can_be_merged self w then
         (exists pre,
            calls w'
            = (calls w ++ pre
                 ++ [create_status SUCCESS_STR "Can be merged" CAN_BE_MERGED_STR])%list
            /\ (label_exists_in_pull_request self CAN_BE_MERGED_STR = true
                -> pre = []))
         /\ pr_labels w'
            = if label_exists_in_pull_request self CAN_BE_MERGED_STR
              then pr_labels w
              else add_if_absent CAN_BE_MERGED_STR (pr_labels w)
       else
         calls w'
         = (calls w
              ++ (if label_exists_in_pull_request self CAN_BE_MERGED_STR
                  then [remove_from_labels CAN_BE_MERGED_STR] else [])
              ++ [create_status PENDING_STR "Cannot be merged" CAN_BE_MERGED_STR])%list
         /\ pr_labels w'
            = if label_exists_in_pull_request self CAN_BE_MERGED_STR
              then filter (fun x => x ≠ CAN_BE_MERGED_STR) (pr_labels w)
              else pr_labels w.
Proof.
  unfold check_if_can_be_merged, can_be_merged, pull_request_labels_names.
  run.
  set (cond := bool_decide (VERIFIED_LABEL_STR ∈ labels (pull_request self))
               && negb (String.eqb (mergeable_state (pull_request self)) "behind")
               && forallb (fun c => bool_decide (c = Some SUCCESS_STR)) (check_runs w)
               && bool_decide (map_Forall (fun _ d => d.2 = SUCCESS_STR)
                                 (_final_statuses (commit_statuses w)))
               && negb (bool_decide (HOLD_LABEL_STR ∈ labels (pull_request self)))).
  assert (forall (A : Type) (b : bool) (x y : M A) (v : world),
            (if b then x else y) v = if b then x v else y v) as Hif
    by (intros A [] x y v; reflexivity).
  rewrite Hif, check_if_can_be_merged_loop_run.
  destruct cond; cbn [andb].
  - destruct (loop_result (approvers self) (labels (pull_request self))).
    + unfold bind at 1.
      match goal with |- context [_add_label self CAN_BE_MERGED_STR ?v] =>
        destruct (_add_label_run self CAN_BE_MERGED_STR v)
          as (w1 & -> & Hst & Hcr & Heff) end.
      change (Py.strip CAN_BE_MERGED_STR) with CAN_BE_MERGED_STR in Heff.
      change (49 <? Z.of_nat (String.length CAN_BE_MERGED_STR)) with false in Heff.
      cbn [orb] in Heff. unfold set_merge_check_success. run.
      eexists; split; [reflexivity|]. unfold remote. run.
      split; [exact Hcr|]. split; [eexists; split; [|rewrite Hst; reflexivity]; reflexivity|].
      destruct (label_exists_in_pull_request self CAN_BE_MERGED_STR).
      * destruct Heff as (Hl & Hc & _). rewrite Hl, Hc. split; [|reflexivity].
        exists []. split; [reflexivity | reflexivity].
      * destruct Heff as (Hl & pre & Hc & _). rewrite Hl, Hc.
        split; [|reflexivity]. exists (pre ++ [add_to_labels CAN_BE_MERGED_STR])%list.
        split; [rewrite <- !app_assoc; reflexivity | discriminate].
    + cbn [negb].
      match goal with |- context [_remove_label self CAN_BE_MERGED_STR ?v] =>
        destruct (_remove_label_run self CAN_BE_MERGED_STR v)
          as (w1 & -> & Hst & Hcr & _ & Heff) end.
      unfold set_merge_check_pending. run.
      eexists; split; [reflexivity|]. unfold remote. run.
      split; [exact Hcr|]. split; [eexists; split; [|rewrite Hst; reflexivity]; reflexivity|].
      destruct (label_exists_in_pull_request self CAN_BE_MERGED_STR);
        destruct Heff as (Hl & Hc); rewrite Hl, Hc;
        (split; [rewrite <- ?app_assoc; reflexivity | reflexivity]).
  - cbn [negb].
    match goal with |- context [_remove_label self CAN_BE_MERGED_STR ?v] =>
      destruct (_remove_label_run self CAN_BE_MERGED_STR v)
        as (w1 & -> & Hst & Hcr & _ & Heff) end.
    unfold set_merge_check_pending. run.
    eexists; split; [reflexivity|]. unfold remote. run.
    split; [exact Hcr|]. split; [eexists; split; [|rewrite Hst; reflexivity]; reflexivity|].
    destruct (label_exists_in_pull_request self CAN_BE_MERGED_STR);
      destruct Heff as (Hl & Hc); rewrite Hl, Hc;
      (split; [rewrite <- ?app_assoc; reflexivity | reflexivity]).
Qed.

(** *** The authoritative status of a context *)

Lemma authoritative_unique (statuses : list Status) (s1 s2 : Status) :
  authoritative statuses s1 -> authoritative statuses s2 ->
  context s1 = context s2 -> s1 = s2.
Proof.
  intros (i1 & Hi1 & H1) (i2 & Hi2 & H2) Hc.
  destruct (H1 i2 s2 Hi2 (eq_sym Hc)) as [?|[? ?]];
    destruct (H2 i1 s1 Hi1 Hc) as [?|[? ?]]; try lia.
  assert (i1 = i2) by lia. subst. congruence.
Qed.

Lemma authoritative_elem (statuses : list Status) (s : Status) :
  authoritative statuses s -> s ∈ statuses.
Proof. intros (i & Hi & _). eapply list_elem_of_lookup_2; eassumption. Qed.

Lemma authoritative_bound (statuses : list Status) (s s' : Status) :
  authoritative statuses s -> s' ∈ statuses -> context s' = context s ->
  updated_at s' <= updated_at s.
Proof.
  intros (i & _ & Hs) (j & Hj)%list_elem_of_lookup_1 Hc.
  destruct (Hs j s' Hj Hc) as [?|[? _]]; lia.
Qed.

Lemma authoritative_snoc_keep (l : list Status) (x s : Status) :
  authoritative l s ->
  (context x = context s -> updated_at x <= updated_at s) ->
  authoritative (l ++ [x]) s.
Proof.
  intros (i & Hi & Hs) Hx. exists i.
  pose proof (lookup_lt_Some _ _ _ Hi) as Hlt.
  split; [rewrite lookup_app_l by exact Hlt; exact Hi|].
  intros j s' Hj Hc. destruct (decide (j < length l)%nat) as [Hjl|Hjl].
  - rewrite lookup_app_l in Hj by exact Hjl. eauto.
  - rewrite lookup_app_r in Hj by lia.
    apply list_lookup_singleton_Some in Hj as [_ <-].
    specialize (Hx Hc). destruct (decide (updated_at x < updated_at s)).
    + left; assumption.
    + right; split; lia.
Qed.

Lemma authoritative_snoc_new (l : list Status) (x : Status) :
  (forall s', s' ∈ l -> context s' = context x -> updated_at s' < updated_at x) ->
  authoritative (l ++ [x]) x.
Proof.
  intros Hx. exists (length l). split.
  - rewrite lookup_app_r by lia. rewrite Nat.sub_diag. reflexivity.
  - intros j s' Hj Hc. destruct (decide (j < length l)%nat) as [Hjl|Hjl].
    + rewrite lookup_app_l in Hj by exact Hjl. left. apply Hx; [|exact Hc].
      eapply list_elem_of_lookup_2; eassumption.
    + rewrite lookup_app_r in Hj by lia.
      apply list_lookup_singleton_Some in Hj as [_ <-]. right; split; lia.
Qed.

(** The dictionary built by the loop holds, for every context but
    can-be-merged, the data of the authoritative status. *)
Lemma _final_statuses_inv (l : list Status) :
  _final_statuses l !! CAN_BE_MERGED_STR = None
  /\ forall c, c <> CAN_BE_MERGED_STR ->
       match _final_statuses l !! c with
       | None => forall s, s ∈ l -> context s <> c
       | Some d =>
           exists s, authoritative l s /\ context s = c
                     /\ d = (updated_at s, state s)
       end.
Proof.
  unfold _final_statuses. induction l as [|x l IH] using rev_ind.
  { split; [reflexivity|]. intros c _. cbn. rewrite lookup_empty.
    intros s Hs. apply elem_of_nil in Hs. contradiction. }
  destruct IH as [IHm IH]. rewrite fold_left_app. cbn [fold_left].
  set (m := fold_left _final_statuses_step l ∅) in *.
  unfold _final_statuses_step.
  destruct (String.eqb_spec (context x) CAN_BE_MERGED_STR) as [Hx|Hx].
  { split; [exact IHm|]. intros c Hc. specialize (IH c Hc).
    destruct (m !! c) as [d|].
    - destruct IH as (s & Hs & Hsc & ->). exists s. split; [|auto].
      apply authoritative_snoc_keep; [exact Hs|]. intros Heq. congruence.
    - intros s [Hs | ->%list_elem_of_singleton]%elem_of_app; [auto | congruence]. }
  assert (forall d, <[context x := d]> m !! CAN_BE_MERGED_STR = None) as Hins.
  { intros d. rewrite lookup_insert_ne by exact Hx. exact IHm. }
  assert (forall c, c <> CAN_BE_MERGED_STR -> c <> context x ->
            match m !! c with
            | None => forall s, s ∈ (l ++ [x])%list -> context s <> c
            | Some d => exists s, authoritative (l ++ [x])%list s /\ context s = c
                                  /\ d = (updated_at s, state s)
            end) as Hother.
  { intros c Hc Hcx. specialize (IH c Hc). destruct (m !! c) as [d|].
    - destruct IH as (s & Hs & Hsc & ->). exists s. split; [|auto].
      apply authoritative_snoc_keep; [exact Hs|]. intros Heq. congruence.
    - intros s [Hs | ->%list_elem_of_singleton]%elem_of_app; [auto | congruence]. }
  pose proof (IH (context x) Hx) as IHx.
  destruct (m !! context x) as [old|] eqn:Hold.
  - destruct IHx as (s0 & Hs0 & Hs0c & ->). cbn [fst].
    destruct (Z.ltb_spec (updated_at s0) (updated_at x)) as [Hlt|Hge].
    + split; [apply Hins|]. intros c Hc.
      destruct (decide (c = context x)) as [->|Hcx].
      * rewrite lookup_insert_eq. exists x. split; [|auto].
        apply authoritative_snoc_new. intros s' Hs' Hs'c.
        pose proof (authoritative_bound l s0 s' Hs0 Hs') as Hb.
        rewrite Hs'c, Hs0c in Hb. specialize (Hb eq_refl). lia.
      * rewrite lookup_insert_ne by auto. apply Hother; assumption.
    + split; [exact IHm|]. intros c Hc.
      destruct (decide (c = context x)) as [->|Hcx].
      * rewrite Hold. exists s0. split; [|auto].
        apply authoritative_snoc_keep; [exact Hs0|]. intros _. exact Hge.
      * apply Hother; assumption.
  - split; [apply Hins|]. intros c Hc.
    destruct (decide (c = context x)) as [->|Hcx].
    + rewrite lookup_insert_eq. exists x. split; [|auto].
      apply authoritative_snoc_new. intros s' Hs' Hs'c.
      exfalso. exact (IHx s' Hs' Hs'c).
    + rewrite lookup_insert_ne by auto. apply Hother; assumption.
Qed.

Lemma _all_statuses_passed_spec (statuses : list Status) :
  map_Forall (fun (_ : string) (d : Z * string) => d.2 = SUCCESS_STR)
             (_final_statuses statuses)
  <-> forall s, authoritative statuses s ->
        context s <> CAN_BE_MERGED_STR -> state s = SUCCESS_STR.
Proof.
  destruct (_final_statuses_inv statuses) as [Hm Hinv]. split.
  - intros Hall s Hs Hc. specialize (Hinv (context s) Hc).
    destruct (_final_statuses statuses !! context s) as [d|] eqn:Hd.
    + destruct Hinv as (s1 & Hs1 & Hs1c & ->).
      assert (s1 = s) as -> by (eapply authoritative_unique; eassumption).
      exact (Hall _ _ Hd).
    + exfalso. exact (Hinv s (authoritative_elem _ _ Hs) eq_refl).
  - intros Hall c d Hd.
    assert (c <> CAN_BE_MERGED_STR) as Hc by (intros ->; congruence).
    specialize (Hinv c Hc). rewrite Hd in Hinv.
    destruct Hinv as (s & Hs & Hsc & ->). cbn [snd]. apply Hall; [exact Hs|].
    congruence.
Qed.

Lemma all_check_runs_passed_spec (runs : list (option string)) :
  forallb (fun c => bool_decide (c = Some SUCCESS_STR)) runs = true
  <-> Forall (fun c => c = Some SUCCESS_STR) runs.
Proof.
  rewrite forallb_forall, Forall_forall. split; intros Hall c Hc.
  - apply list_elem_of_In in Hc. apply Hall in Hc.
    apply bool_decide_eq_true in Hc. exact Hc.
  - apply bool_decide_eq_true. apply Hall. apply list_elem_of_In. exact Hc.
Qed.

(** *** The scan of the labels *)

Lemma loop_result_true_approval (approvers ls : list string) :
  loop_result approvers ls = true ->
  exists l, l ∈ ls /\ is_approval approvers l = true.
Proof.
  induction ls as [|l ls IH]; cbn [loop_result]; [discriminate|].
  destruct (is_changes_requested l); [discriminate|].
  destruct (is_approval approvers l) eqn:Hap.
  - intros _. exists l. split; [apply elem_of_cons; auto | exact Hap].
  - intros (l' & Hin & Hl')%IH. exists l'. split; [apply elem_of_cons; auto | exact Hl'].
Qed.

Lemma loop_result_without_changes_requested (approvers ls : list string) :
  (forall l, l ∈ ls -> is_changes_requested l = false) ->
  (exists l, l ∈ ls /\ is_approval approvers l = true) ->
  loop_result approvers ls = true.
Proof.
  induction ls as [|l ls IH]; intros Hno (l' & Hin & Hl').
  { apply elem_of_nil in Hin. contradiction. }
  cbn [loop_result]. rewrite (Hno l) by (apply elem_of_cons; auto).
  destruct (is_approval approvers l) eqn:Hap; [reflexivity|].
  apply IH.
  - intros l0 Hl0. apply Hno. apply elem_of_cons; auto.
  - apply elem_of_cons in Hin as [->|Hin]; [congruence|]. eauto.
Qed.

Lemma prefix_app (p s : string) : String.prefix p (p ++ s) = true.
Proof.
  induction p as [|a p IH]; [apply prefix_nil_l|].
  apply (prefix_cons a a p (p ++ s)). split; [reflexivity | exact IH].
Qed.

Lemma contains_app_l (p s : string) : Py.contains p (p ++ s) = true.
Proof.
  destruct p as [|a p]; [destruct s; reflexivity|].
  change (String a p ++ s) with (String a (p ++ s)).
  rewrite contains_cons.
  change (String a (p ++ s)) with (String a p ++ s).
  rewrite prefix_app. reflexivity.
Qed.

Lemma lower_app (a b : string) : Py.lower (a ++ b) = Py.lower a ++ Py.lower b.
Proof.
  induction a as [|c a IH]; [reflexivity|].
  change (String c a ++ b) with (String c (a ++ b)). cbn [Py.lower].
  rewrite IH. reflexivity.
Qed.

Lemma split_hyphen_free (sep : ascii) (u : string) :
  Py.contains (String sep "") u = false -> Py.split sep u = [u].
Proof.
  induction u as [|c u IH]; [reflexivity|].
  rewrite contains_cons. intros [Hp Hc]%orb_false_elim.
  cbn [Py.split]. destruct (Ascii.eqb_spec c sep) as [->|Hne].
  - exfalso. rewrite (proj2 (prefix_cons sep sep "" u)) in Hp; [discriminate|].
    split; [reflexivity | apply prefix_nil_l].
  - rewrite (IH Hc). reflexivity.
Qed.

(** Whatever precedes a separator, the last field is the last field of
    what follows it. *)
Lemma last_split_app (sep : ascii) (a u : string) :
  exists x y ys,
    Py.split sep (a ++ String sep u) = x :: y :: ys
    /\ List.last (y :: ys) "" = Py.last (Py.split sep u).
Proof.
  assert (exists y ys, Py.split sep u = y :: ys) as (y0 & ys0 & Hu).
  { destruct u as [|c u]; cbn [Py.split]; [eauto|].
    destruct (Ascii.eqb c sep); [eauto|]. destruct (Py.split sep u); eauto. }
  induction a as [|c a (x & y & ys & Hs & Hl)].
  - change ("" ++ String sep u) with (String sep u). cbn [Py.split].
    rewrite Ascii.eqb_refl, Hu. exists "", y0, ys0. split; reflexivity.
  - change (String c a ++ String sep u) with (String c (a ++ String sep u)).
    cbn [Py.split]. rewrite Hs. destruct (Ascii.eqb c sep).
    + exists "", x, (y :: ys). split; [reflexivity|]. exact Hl.
    + exists (String c x), y, ys. split; [reflexivity | exact Hl].
Qed.

Lemma is_approval_of_approver (approvers : list string) (u : string) :
  u ∈ approvers -> Py.contains "-" u = false ->
  is_approval approvers (APPROVED_BY_LABEL_PREFIX ++ u) = true.
Proof.
  intros Hin Hfree. unfold is_approval. rewrite lower_app, contains_app_l.
  cbn [andb]. apply bool_decide_eq_true.
  change (APPROVED_BY_LABEL_PREFIX ++ u) with ("Approved-By" ++ String "-" u).
  destruct (last_split_app "-" "Approved-By" u) as (x & y & ys & -> & Hl).
  unfold Py.last in *. change (List.last (x :: y :: ys) "") with (List.last (y :: ys) "").
  rewrite Hl, (split_hyphen_free "-" u Hfree). exact Hin.
Qed.

Lemma can_be_merged_true (self : GitHubApi) (w : world) :
  can_be_merged self w = true
  <-> VERIFIED_LABEL_STR ∈ labels (pull_request self)
      /\ mergeable_state (pull_request self) <> "behind"
      /\ Forall (fun c => c = Some SUCCESS_STR) (check_runs w)
      /\ (forall s, authoritative (commit_statuses w) s ->
            context s <> CAN_BE_MERGED_STR -> state s = SUCCESS_STR)
      /\ (HOLD_LABEL_STR ∉ labels (pull_request self))
      /\ loop_result (approvers self) (labels (pull_request self)) = true.
Proof.
  unfold can_be_merged.
  rewrite !andb_true_iff, !negb_true_iff, !bool_decide_eq_true,
    bool_decide_eq_false, all_check_runs_passed_spec, _all_statuses_passed_spec.
  destruct (String.eqb_spec (mergeable_state (pull_request self)) "behind");
    intuition congruence.
Qed.

(** On a pull request fetched from the current state, the evaluation ends
    in one of its two reports, by the value of [_can_be_merged]. *)
Lemma check_if_can_be_merged_reports
    `{K : Constants} (self : GitHubApi) (w : world) :
  labels (pull_request self) = pr_labels w ->
  exists w',
    check_if_can_be_merged self w = (Return tt, w')
    /\ if can_be_merged self w then reports_mergeable w w'
       else reports_pending w w'.
Proof.
  intros Hfresh.
  destruct (check_if_can_be_merged_run self w) as (w' & Hrun & _ & _ & Heff).
  exists w'. split; [exact Hrun|].
  rewrite label_exists_in_pull_request_spec, Hfresh in Heff.
  change (negb (String.eqb CAN_BE_MERGED_STR "")) with true in Heff.
  rewrite andb_true_r in Heff.
  destruct (can_be_merged self w).
  - destruct Heff as ((pre & Hc & _) & Hl). split; [|eauto].
    rewrite Hl. destruct (bool_decide (CAN_BE_MERGED_STR ∈ pr_labels w)) eqn:Hin.
    + apply bool_decide_eq_true in Hin. exact Hin.
    + apply elem_of_add_if_absent.
  - destruct Heff as (Hc & Hl). split; [|eauto].
    rewrite Hl. destruct (bool_decide (CAN_BE_MERGED_STR ∈ pr_labels w)) eqn:Hin.
    + intros [Hne _]%list_elem_of_filter. apply Hne. reflexivity.
    + apply bool_decide_eq_false in Hin. exact Hin.
Qed.

Lemma loop_result_spec (approvers ls : list string) :
  loop_result approvers ls = true <-> approval_comes_first approvers ls.
Proof.
  unfold approval_comes_first. induction ls as [|l0 rest IH].
  { split; [discriminate|]. intros (i & l & Hi & _). destruct i; discriminate Hi. }
  cbn [loop_result]. destruct (is_changes_requested l0) eqn:Hcr.
  { split; [discriminate|]. intros (i & l & _ & _ & Hbefore).
    rewrite (Hbefore 0%nat l0) in Hcr by (try reflexivity; lia).
    discriminate Hcr. }
  destruct (is_approval approvers l0) eqn:Hap.
  { split; [|reflexivity]. intros _. exists 0%nat, l0.
    split; [reflexivity|]. split; [exact Hap|].
    intros j l' Hj Hl'. assert (j = 0%nat) as -> by lia.
    injection Hl' as <-. exact Hcr. }
  rewrite IH. split.
  - intros (i & l & Hi & Hl & Hbefore). exists (S i), l.
    split; [exact Hi|]. split; [exact Hl|].
    intros [|j] l' Hj Hl'.
    + injection Hl' as <-. exact Hcr.
    + apply (Hbefore j l'); [lia | exact Hl'].
  - intros (i & l & Hi & Hl & Hbefore). destruct i as [|i].
    + injection Hi as <-. congruence.
    + exists i, l. split; [exact Hi|]. split; [exact Hl|].
      intros j l' Hj Hl'. apply (Hbefore (S j) l'); [lia | exact Hl'].
Qed.

Lemma reports_exclude_each_other (w w' : world) :
  reports_mergeable w w' -> reports_pending w w' -> False.
Proof. intros [Hin _] [Hout _]. contradiction. Qed.

(** X25.  What the evaluation tests.  On a pull request fetched from the
    current state it returns with one of its two reports, and it reports
    mergeable exactly when: the verified label is listed (the setting
    [verified_job] is not consulted); [mergeable_state] is not behind; every
    check run concluded success; the latest status of every context but
    can-be-merged, the first listed among equal timestamps, is success; the
    hold label is not listed; and, in the order in which the labels are
    listed, a label that contains [approved-by-], whatever the letter case,
    and whose text after the last hyphen is an approver comes before every
    label that contains [changes-requested-by-]. *)
Theorem check_if_can_be_merged_reports_what_it_tests
    `{K : Constants} (self : GitHubApi) (w : world) :
  labels (pull_request self) = pr_labels w ->
  let r := check_if_can_be_merged self w in
  r.1 = Return tt
  /\ (reports_mergeable w r.2 <-> mergeable_as_evaluated self w)
  /\ (reports_pending w r.2 <-> ~ mergeable_as_evaluated self w).
Proof.
  intros Hfresh r. subst r.
  destruct (check_if_can_be_merged_reports self w Hfresh) as (w' & -> & Hrep).
  cbn [fst snd]. split; [reflexivity|].
  assert (can_be_merged self w = true <-> mergeable_as_evaluated self w) as Hiff.
  { rewrite can_be_merged_true. unfold mergeable_as_evaluated.
    rewrite loop_result_spec. reflexivity. }
  destruct (can_be_merged self w).
  - assert (mergeable_as_evaluated self w) as Hyes by (apply Hiff; reflexivity).
    split; [tauto|]. split; [|tauto].
    intros Hpending. exfalso.
    exact (reports_exclude_each_other _ _ Hrep Hpending).
  - assert (~ mergeable_as_evaluated self w) as Hno.
    { intros Hyes. apply Hiff in Hyes. discriminate Hyes. }
    split; [|tauto]. split; [|tauto].
    intros Hmergeable. exfalso.
    exact (reports_exclude_each_other _ _ Hmergeable Hrep).
Qed.

Lemma check_if_can_be_merged_reports_what_it_tests_witness :
  let ls := ["verified"; "Changes-requested-By-bob"; "Approved-By-alice"] in
  let self := example_self ls in
  let w := example_world ls in
  let r := check_if_can_be_merged (K := example_constants) self w in
  labels (pull_request self) = pr_labels w
  /\ r.1 = Return tt
  /\ reports_pending w r.2.
Proof.
  cbn zeta. split; [reflexivity|].
  destruct (check_if_can_be_merged_reports_what_it_tests
              (K := example_constants)
              (example_self
                 ["verified"; "Changes-requested-By-bob"; "Approved-By-alice"])
              (example_world
                 ["verified"; "Changes-requested-By-bob"; "Approved-By-alice"]))
    as (Hret & _ & Hpending); [reflexivity|].
  split; [exact Hret|]. apply Hpending.
  intros (_ & _ & _ & _ & _ & Hfirst).
  apply loop_result_spec in Hfirst. discriminate Hfirst.
Defined.


(** C1.  The code at the failing inputs.  With the approver [dev-lead] and
    the labels verified and [Approved-By-dev-lead], all seven conditions of
    the specification hold, yet the evaluation reports pending: the approver
    is looked up by the text after the last hyphen of the label, here
    [lead].  For the same reason the label [Approved-By-x-alice], which is
    the approval of [x-alice], counts as the approval of the approver
    [alice]: the seventh condition fails, yet the evaluation attaches
    can-be-merged and reports success. *)
Theorem C1_approver_is_looked_up_by_the_last_field :
  let ls := ["verified"; "Approved-By-dev-lead"] in
  let self := with_approvers (example_self ls) ["dev-lead"] in
  let w := example_world ls in
  let r := check_if_can_be_merged (K := example_constants) self w in
  let ls' := ["verified"; "Approved-By-x-alice"] in
  let self' := example_self ls' in
  let w' := example_world ls' in
  let r' := check_if_can_be_merged (K := example_constants) self' w' in
  (labels (pull_request self) = pr_labels w
   /\ claimed_eligible self w
   /\ r.1 = Return tt
   /\ calls r.2 = [create_status "pending" "Cannot be merged" "can-be-merged"]
   /\ pr_labels r.2 = ls
   /\ reports_pending w r.2
   /\ ~ reports_mergeable w r.2)
  /\ (labels (pull_request self') = pr_labels w'
      /\ approvers self' = ["alice"]
      /\ ~ claimed_eligible self' w'
      /\ r'.1 = Return tt
      /\ calls r'.2
         = [add_to_labels "can-be-merged";
            create_status "success" "Can be merged" "can-be-merged"]
      /\ reports_mergeable w' r'.2).
Proof.
  cbn zeta. split.
  - split; [reflexivity|]. split; [|split; [reflexivity|]].
    + unfold claimed_eligible. cbn.
      split; [left; apply elem_of_cons; left; reflexivity|].
      split; [discriminate|].
      split; [repeat constructor|]. split.
      { intros s (i & Hi & _). destruct i; discriminate. }
      split.
      { rewrite !elem_of_cons, elem_of_nil.
        intros [Heq|[Heq|[]]]; discriminate Heq. }
      split.
      { intros u. rewrite !elem_of_cons, elem_of_nil.
        intros [Heq|[Heq|[]]]; discriminate Heq. }
      exists "dev-lead". split; [|apply elem_of_cons; left; reflexivity].
      rewrite !elem_of_cons. right. left. reflexivity.
    + split; [reflexivity|]. split; [reflexivity|].
      assert (CAN_BE_MERGED_STR ∉ ["verified"; "Approved-By-dev-lead"]) as Hout.
      { rewrite !elem_of_cons, elem_of_nil.
        intros [Heq|[Heq|[]]]; discriminate Heq. }
      split.
      * split; [exact Hout | exists []; reflexivity].
      * intros [Hin _]. exact (Hout Hin).
  - split; [reflexivity|]. split; [reflexivity|]. split; [|split; [reflexivity|]].
    + unfold claimed_eligible. cbn.
      intros (_ & _ & _ & _ & _ & _ & u & Hin & Hu).
      rewrite !elem_of_cons, elem_of_nil in Hin.
      rewrite !elem_of_cons, elem_of_nil in Hu.
      destruct Hu as [-> | []].
      destruct Hin as [Heq|[Heq|[]]]; discriminate Heq.
    + split; [reflexivity|]. split.
      * change (pr_labels _)
          with ["verified"; "Approved-By-x-alice"; "can-be-merged"].
        rewrite !elem_of_cons. auto.
      * exists [add_to_labels "can-be-merged"]. reflexivity.
Qed.

(** C2.  The code at the failing input: an approver's approval listed before
    a request for changes ends the scan, so the evaluation attaches
    can-be-merged and writes the success status although a
    Changes-requested-By label is present. *)
Theorem C2_approval_listed_first_hides_changes_request :
  let ls := ["verified"; "Approved-By-alice"; "Changes-requested-By-bob"] in
  let r := check_if_can_be_merged (K := example_constants) (example_self ls)
             (example_world ls) in
  r.1 = Return tt
  /\ calls r.2
     = [add_to_labels "can-be-merged";
        create_status "success" "Can be merged" "can-be-merged"]
  /\ pr_labels r.2
     = ["verified"; "Approved-By-alice"; "Changes-requested-By-bob";
        "can-be-merged"].
Proof. repeat split. Qed.

(** *** Running the evaluation again *)

Lemma loop_result_app_true (approvers ls extra : list string) :
  loop_result approvers ls = true ->
  loop_result approvers (ls ++ extra) = true.
Proof.
  induction ls as [|l ls IH]; cbn [loop_result app]; [discriminate|].
  destruct (is_changes_requested l); [discriminate|].
  destruct (is_approval approvers l); [reflexivity | exact IH].
Qed.

Lemma loop_result_filter_can_be_merged (approvers ls : list string) :
  loop_result approvers (filter (fun x => x ≠ CAN_BE_MERGED_STR) ls)
  = loop_result approvers ls.
Proof.
  induction ls as [|l ls IH]; [reflexivity|].
  rewrite filter_cons. destruct (decide (l ≠ CAN_BE_MERGED_STR)) as [Hne|Heq].
  - cbn [loop_result]. rewrite IH. reflexivity.
  - apply dec_stable in Heq. subst l. rewrite IH. cbn [loop_result].
    change (is_changes_requested CAN_BE_MERGED_STR) with false.
    unfold is_approval.
    change (Py.contains (Py.lower APPROVED_BY_LABEL_PREFIX)
              (Py.lower CAN_BE_MERGED_STR)) with false.
    reflexivity.
Qed.

Lemma _final_statuses_skip (s : Status) (statuses : list Status) :
  context s = CAN_BE_MERGED_STR ->
  _final_statuses (s :: statuses) = _final_statuses statuses.
Proof.
  intros Hc. unfold _final_statuses. cbn [fold_left].
  unfold _final_statuses_step at 2. rewrite Hc. reflexivity.
Qed.

Lemma can_be_merged_with_labels
    (self : GitHubApi) (L L' : list string) (w w1 : world) :
  check_runs w1 = check_runs w ->
  _final_statuses (commit_statuses w1) = _final_statuses (commit_statuses w) ->
  (VERIFIED_LABEL_STR ∈ L' <-> VERIFIED_LABEL_STR ∈ L) ->
  (HOLD_LABEL_STR ∈ L' <-> HOLD_LABEL_STR ∈ L) ->
  loop_result (approvers self) L' = loop_result (approvers self) L ->
  can_be_merged (with_labels self L') w1 = can_be_merged (with_labels self L) w.
Proof.
  intros Hr Hs Hv Hh Hl. unfold can_be_merged.
  cbn [with_labels pull_request labels mergeable_state approvers].
  rewrite Hr, Hs, Hl, (bool_decide_ext _ _ Hv), (bool_decide_ext _ _ Hh).
  reflexivity.
Qed.

(** C4 (as amended).  When the evaluation runs twice in a row, each time on
    the pull request as fetched, the second run sends exactly one request:
    the status write that ended the first run, written again.  It adds and
    removes no label, and the labels stay as the first run left them. *)
Theorem C4_second_evaluation_rewrites_the_status
    `{K : Constants} (self : GitHubApi) (w : world) :
  let r1 := process_hook_other self w in
  let r2 := process_hook_other self r1.2 in
  r1.1 = Return tt
  /\ r2.1 = Return tt
  /\ (exists st description,
        new_calls r1.2 r2.2 = [create_status st description CAN_BE_MERGED_STR]
        /\ List.last (calls r1.2) (create_label "" "")
           = create_status st description CAN_BE_MERGED_STR)
  /\ pr_labels r2.2 = pr_labels r1.2.
Proof.
  cbn zeta. unfold process_hook_other, _get_pull_request. run.
  set (self1 := with_labels self (pr_labels w)).
  destruct (check_if_can_be_merged_run self1 w)
    as (w1 & -> & Hr1 & (s1 & Hs1c & Hs1) & Heff1).
  run. set (self2 := with_labels self (pr_labels w1)).
  destruct (check_if_can_be_merged_run self2 w1)
    as (w2 & -> & _ & _ & Heff2).
  run. split; [reflexivity|]. split; [reflexivity|].
  rewrite label_exists_in_pull_request_spec in Heff1, Heff2.
  change (negb (String.eqb CAN_BE_MERGED_STR "")) with true in Heff1, Heff2.
  rewrite andb_true_r in Heff1, Heff2.
  cbn [self1 self2 with_labels pull_request labels] in Heff1, Heff2.
  assert (_final_statuses (commit_statuses w1) = _final_statuses (commit_statuses w))
    as Hfs by (rewrite Hs1; apply _final_statuses_skip; exact Hs1c).
  destruct (can_be_merged self1 w) eqn:Hd1.
  - destruct Heff1 as ((pre1 & Hc1 & _) & Hl1).
    assert (can_be_merged self2 w1 = true) as Hd2.
    { rewrite <- Hd1. apply can_be_merged_with_labels; try assumption.
      - rewrite Hl1. unfold add_if_absent.
        destruct (bool_decide _); [reflexivity|].
        rewrite elem_of_app, list_elem_of_singleton.
        split; [intros [?|?]; [assumption | discriminate] | auto].
      - rewrite Hl1. unfold add_if_absent.
        destruct (bool_decide _); [reflexivity|].
        rewrite elem_of_app, list_elem_of_singleton.
        split; [intros [?|?]; [assumption | discriminate] | auto].
      - apply can_be_merged_true in Hd1 as (_ & _ & _ & _ & _ & Hloop).
        cbn [self1 with_labels pull_request labels approvers] in Hloop.
        rewrite Hloop, Hl1. unfold add_if_absent.
        destruct (bool_decide _); [exact Hloop|].
        apply loop_result_app_true. exact Hloop. }
    rewrite Hd2 in Heff2.
    assert (bool_decide (CAN_BE_MERGED_STR ∈ pr_labels w1) = true) as Hin.
    { apply bool_decide_eq_true. rewrite Hl1.
      destruct (bool_decide (CAN_BE_MERGED_STR ∈ pr_labels w)) eqn:Hin0.
      - apply bool_decide_eq_true in Hin0. exact Hin0.
      - apply elem_of_add_if_absent. }
    rewrite Hin in Heff2. destruct Heff2 as ((pre2 & Hc2 & Hpre2) & Hl2).
    rewrite (Hpre2 eq_refl) in Hc2. split; [|exact Hl2].
    exists SUCCESS_STR, "Can be merged". split.
    + apply new_calls_app. exact Hc2.
    + rewrite Hc1, !app_assoc. apply last_last.
  - destruct Heff1 as (Hc1 & Hl1).
    assert (can_be_merged self2 w1 = false) as Hd2.
    { rewrite <- Hd1. apply can_be_merged_with_labels; try assumption.
      - rewrite Hl1. destruct (bool_decide _); [|reflexivity].
        rewrite list_elem_of_filter. split; [tauto|]. intros Hv. split; [discriminate | exact Hv].
      - rewrite Hl1. destruct (bool_decide _); [|reflexivity].
        rewrite list_elem_of_filter. split; [tauto|]. intros Hv. split; [discriminate | exact Hv].
      - rewrite Hl1. cbn [self1 with_labels approvers].
        destruct (bool_decide _); [|reflexivity].
        apply loop_result_filter_can_be_merged. }
    rewrite Hd2 in Heff2.
    assert (bool_decide (CAN_BE_MERGED_STR ∈ pr_labels w1) = false) as Hin.
    { apply bool_decide_eq_false. rewrite Hl1.
      destruct (bool_decide (CAN_BE_MERGED_STR ∈ pr_labels w)) eqn:Hin0.
      - intros [Hne _]%list_elem_of_filter. apply Hne. reflexivity.
      - apply bool_decide_eq_false in Hin0. exact Hin0. }
    rewrite Hin in Heff2. destruct Heff2 as (Hc2 & Hl2).
    split; [|exact Hl2].
    exists PENDING_STR, "Cannot be merged". split.
    + apply new_calls_app. exact Hc2.
    + rewrite Hc1, !app_assoc. apply last_last.
Qed.

(** C4 (as stated) fails: the second of two evaluations on unchanged inputs
    writes the merge status once more. *)
Lemma C4_second_evaluation_writes_a_status :
  let ls := ["verified"] in
  let r1 := process_hook_other (K := example_constants) (example_self ls)
              (example_world ls) in
  let r2 := process_hook_other (K := example_constants) (example_self ls) r1.2 in
  pr_labels r1.2 = pr_labels (example_world ls)
  /\ new_calls r1.2 r2.2
     = [create_status "pending" "Cannot be merged" "can-be-merged"]
  /\ new_calls r1.2 r2.2 <> [].
Proof. repeat split. discriminate. Qed.

(** ** The reviewer state tracker *)

Lemma rstrip_nospace (s : string) : Py.nospace s = true -> Py.rstrip s = s.
Proof.
  induction s as [|c t IH]; [reflexivity|].
  cbn [Py.nospace Py.rstrip]. intros [Hc Ht]%andb_true_iff.
  rewrite (IH Ht). apply negb_true_iff in Hc. rewrite Hc.
  destruct t; reflexivity.
Qed.

Lemma strip_nospace (s : string) : Py.nospace s = true -> Py.strip s = s.
Proof.
  intros Hs. unfold Py.strip. rewrite (rstrip_nospace s Hs).
  destruct s as [|c t]; [reflexivity|].
  cbn [Py.nospace] in Hs. apply andb_true_iff in Hs as [Hc _].
  apply negb_true_iff in Hc. cbn [Py.lstrip]. rewrite Hc. reflexivity.
Qed.

Lemma nospace_app (a b : string) :
  Py.nospace (a ++ b) = Py.nospace a && Py.nospace b.
Proof.
  induction a as [|c a IH]; [reflexivity|].
  change (String c a ++ b) with (String c (a ++ b)). cbn [Py.nospace].
  rewrite IH, andb_assoc. reflexivity.
Qed.

Lemma append_inv_head (p a b : string) : p ++ a = p ++ b -> a = b.
Proof.
  induction p as [|c p IH]; [auto|].
  change (String c p ++ a) with (String c (p ++ a)).
  change (String c p ++ b) with (String c (p ++ b)).
  intros Heq. injection Heq as Heq. auto.
Qed.

Lemma approved_is_not_changes_requested (u v : string) :
  APPROVED_BY_LABEL_PREFIX ++ u <> CHANGED_REQUESTED_BY_LABEL_PREFIX ++ v.
Proof. intros Heq. cbv [APPROVED_BY_LABEL_PREFIX CHANGED_REQUESTED_BY_LABEL_PREFIX String.append] in Heq. discriminate. Qed.

Lemma commented_is_not_approved (u v : string) :
  COMMENTED_BY_LABEL_PREFIX ++ u <> APPROVED_BY_LABEL_PREFIX ++ v.
Proof. intros Heq. cbv [APPROVED_BY_LABEL_PREFIX COMMENTED_BY_LABEL_PREFIX String.append] in Heq. discriminate. Qed.

Lemma commented_is_not_changes_requested (u v : string) :
  COMMENTED_BY_LABEL_PREFIX ++ u <> CHANGED_REQUESTED_BY_LABEL_PREFIX ++ v.
Proof. intros Heq. cbv [CHANGED_REQUESTED_BY_LABEL_PREFIX COMMENTED_BY_LABEL_PREFIX String.append] in Heq. discriminate. Qed.

Lemma elem_of_add_if_absent_inv (l x : string) (ls : list string) :
  l ∈ add_if_absent x ls -> l ∈ ls \/ l = x.
Proof.
  unfold add_if_absent. destruct (bool_decide (x ∈ ls)); [auto|].
  intros [Hl | ->%list_elem_of_singleton]%elem_of_app; auto.
Qed.

(** Every label afterwards was there before or is the reviewer's label. *)
Lemma labels_after_review_inv
    (L : list string) (act : action) (v pfx : string) (rm : option string)
    (l : string) :
  l ∈ labels_after_review L act v pfx rm ->
  l ∈ L \/ (act = ADD_STR /\ l = Py.strip (pfx ++ v)).
Proof.
  unfold labels_after_review. destruct act.
  - assert (l ∈ (if (49 <? Z.of_nat (String.length (Py.strip (pfx ++ v))))
                     || bool_decide (Py.strip (pfx ++ v) ∈ L)
                        && negb (String.eqb (Py.strip (pfx ++ v)) "")
                  then L else add_if_absent (Py.strip (pfx ++ v)) L)
            -> l ∈ L \/ (ADD_STR = ADD_STR /\ l = Py.strip (pfx ++ v))) as Hadded.
    { destruct (_ || _); [auto|]. intros [?|?]%elem_of_add_if_absent_inv; auto. }
    destruct (truthy rm && _); [|exact Hadded].
    intros [_ Hl]%list_elem_of_filter. auto.
  - destruct (_ && _); [|auto]. intros [_ Hl]%list_elem_of_filter. auto.
Qed.

(** A label to remove that was fetched is gone afterwards. *)
Lemma labels_after_review_removed
    (L : list string) (v pfx x : string) :
  x ∈ L -> x <> "" ->
  x ∉ labels_after_review L ADD_STR v pfx (Some x).
Proof.
  intros Hx Hne. unfold labels_after_review.
  change (default "" (Some x)) with x. cbn [truthy].
  rewrite (bool_decide_eq_true_2 _ Hx).
  destruct (String.eqb_spec x "") as [|_]; [contradiction|]. cbn [negb andb].
  intros [Hxx _]%list_elem_of_filter. apply Hxx. reflexivity.
Qed.

(** A label that is neither removed nor deleted stays. *)
Lemma labels_after_review_keep
    (L : list string) (act : action) (v pfx : string) (rm : option string)
    (l : string) :
  l ∈ L -> rm <> Some l -> (act = DELETE_STR -> l <> pfx ++ v) ->
  l ∈ labels_after_review L act v pfx rm.
Proof.
  intros Hl Hrm Hdel. unfold labels_after_review. destruct act.
  - assert (l ∈ (if (49 <? Z.of_nat (String.length (Py.strip (pfx ++ v))))
                     || bool_decide (Py.strip (pfx ++ v) ∈ L)
                        && negb (String.eqb (Py.strip (pfx ++ v)) "")
                  then L else add_if_absent (Py.strip (pfx ++ v)) L)) as Hadded.
    { destruct (_ || _); [exact Hl|]. apply elem_of_add_if_absent_keep. exact Hl. }
    destruct (truthy rm && _) eqn:Hrmb; [|exact Hadded].
    apply list_elem_of_filter. split; [|exact Hadded].
    destruct rm as [x|]; [change (default "" (Some x)) with x; congruence|].
    cbn in Hrmb. discriminate.
  - destruct (_ && _); [|exact Hl]. apply list_elem_of_filter.
    split; [|exact Hl]. apply Hdel. reflexivity.
Qed.

(** A reviewer's label that fits is there afterwards. *)
Lemma labels_after_review_added
    (L : list string) (v pfx : string) (rm : option string) :
  (String.length (Py.strip (pfx ++ v)) <= 49)%nat ->
  Py.strip (pfx ++ v) <> "" ->
  rm <> Some (Py.strip (pfx ++ v)) ->
  Py.strip (pfx ++ v) ∈ labels_after_review L ADD_STR v pfx rm.
Proof.
  intros Hlen Hne Hrm. unfold labels_after_review.
  set (s := Py.strip (pfx ++ v)) in *.
  assert ((49 <? Z.of_nat (String.length s)) = false) as ->
    by (apply Z.ltb_ge; lia).
  destruct (String.eqb_spec s "") as [|_]; [contradiction|].
  cbn [orb negb]. rewrite andb_true_r.
  assert (s ∈ (if bool_decide (s ∈ L) then L else add_if_absent s L)) as Hadded.
  { destruct (bool_decide (s ∈ L)) eqn:Hin.
    - apply bool_decide_eq_true in Hin. exact Hin.
    - apply elem_of_add_if_absent. }
  destruct (truthy rm && _) eqn:Hrmb; [|exact Hadded].
  apply list_elem_of_filter. split; [|exact Hadded].
  destruct rm as [x|]; [change (default "" (Some x)) with x; congruence|].
  cbn in Hrmb. discriminate.
Qed.

Lemma manage_reviewed_by_label_tail_run
    `{K : Constants} (self : GitHubApi) (st : string) (act : action)
    (v pfx : string) (rm : option string) (w : world) :
  labels (pull_request self) = pr_labels w -> pfx <> "" ->
  exists w',
    manage_reviewed_by_label_tail self st act v (Some pfx) rm w = (Return tt, w')
    /\ pr_labels w' = labels_after_review (pr_labels w) act v pfx rm.
Proof.
  intros Hfresh Hpfx. unfold manage_reviewed_by_label_tail, labels_after_review.
  change (default "" (Some pfx)) with pfx. cbn [truthy].
  destruct (String.eqb_spec pfx "") as [|_]; [contradiction|]. cbn [negb].
  destruct act.
  - unfold bind.
    destruct (_add_label_run self (pfx ++ v) w) as (w1 & -> & _ & _ & Heff).
    rewrite label_exists_in_pull_request_spec, Hfresh in Heff.
    assert (pr_labels w1
            = if (49 <? Z.of_nat (String.length (Py.strip (pfx ++ v))))
                 || bool_decide (Py.strip (pfx ++ v) ∈ pr_labels w)
                    && negb (String.eqb (Py.strip (pfx ++ v)) "")
              then pr_labels w
              else add_if_absent (Py.strip (pfx ++ v)) (pr_labels w)) as Hl1.
    { destruct (_ || _); [destruct Heff as (? & _) | destruct Heff as (? & _)];
        assumption. }
    clear Heff. destruct (truthy rm); cbn [andb].
    + destruct (_remove_label_run self (default "" rm) w1)
        as (w' & -> & _ & _ & _ & Hrem).
      rewrite label_exists_in_pull_request_spec, Hfresh in Hrem.
      exists w'. split; [reflexivity|]. rewrite <- Hl1.
      destruct (bool_decide (default "" rm ∈ pr_labels w)
                && negb (String.eqb (default "" rm) ""));
        destruct Hrem as (? & _); assumption.
    + unfold ret. exists w1. split; [reflexivity | exact Hl1].
  - destruct (_remove_label_run self (pfx ++ v) w) as (w' & -> & _ & _ & _ & Hrem).
    rewrite label_exists_in_pull_request_spec, Hfresh in Hrem.
    exists w'. split; [reflexivity|].
    destruct (bool_decide (pfx ++ v ∈ pr_labels w) && negb (String.eqb (pfx ++ v) ""));
      destruct Hrem as (? & _); assumption.
Qed.

(** The labels after one review on a pull request fetched from the current
    state. *)
Lemma manage_reviewed_by_label_run
    `{K : Constants} (self : GitHubApi) (st : string) (act : action)
    (v : string) (w : world) :
  labels (pull_request self) = pr_labels w ->
  exists w',
    manage_reviewed_by_label self st act v w = (Return tt, w')
    /\ pr_labels w'
       = if bool_decide (st ∈ ["approved"; LGTM_STR]) then
           if String.eqb (hook_data_user_login self) v then pr_labels w
           else labels_after_review (pr_labels w) act v APPROVED_BY_LABEL_PREFIX
                  (if bool_decide
                        ((CHANGED_REQUESTED_BY_LABEL_PREFIX ++ v) ∈ pr_labels w)
                   then Some (CHANGED_REQUESTED_BY_LABEL_PREFIX ++ v) else None)
         else if String.eqb st "changes_requested" then
           labels_after_review (pr_labels w) act v CHANGED_REQUESTED_BY_LABEL_PREFIX
             (if bool_decide ((APPROVED_BY_LABEL_PREFIX ++ v) ∈ pr_labels w)
              then Some (APPROVED_BY_LABEL_PREFIX ++ v) else None)
         else if String.eqb st "commented" then
           labels_after_review (pr_labels w) act v COMMENTED_BY_LABEL_PREFIX None
         else pr_labels w.
Proof.
  intros Hfresh. unfold manage_reviewed_by_label, pull_request_labels_names.
  rewrite Hfresh. unfold bind at 1. unfold logger at 1.
  set (w0 := push_log _ _ w).
  assert (labels (pull_request self) = pr_labels w0) as Hfresh0 by exact Hfresh.
  change (pr_labels w) with (pr_labels w0).
  destruct (bool_decide (st ∈ ["approved"; LGTM_STR])).
  { destruct (String.eqb (hook_data_user_login self) v).
    - unfold logger. eexists; split; reflexivity.
    - apply manage_reviewed_by_label_tail_run; [exact Hfresh0 | discriminate]. }
  destruct (String.eqb st "changes_requested").
  { apply manage_reviewed_by_label_tail_run; [exact Hfresh0 | discriminate]. }
  destruct (String.eqb st "commented").
  { apply manage_reviewed_by_label_tail_run; [exact Hfresh0 | discriminate]. }
  unfold manage_reviewed_by_label_tail. cbn [truthy]. unfold logger.
  eexists; split; reflexivity.
Qed.

Lemma rstrip_cons_nonspace (c : ascii) (t : string) :
  Py.isspace c = false -> Py.rstrip (String c t) = String c (Py.rstrip t).
Proof.
  intros Hc. cbn [Py.rstrip]. rewrite Hc. destruct (Py.rstrip t); reflexivity.
Qed.

Lemma strip_cons_nonspace (c : ascii) (t : string) :
  Py.isspace c = false -> Py.strip (String c t) = String c (Py.rstrip t).
Proof.
  intros Hc. unfold Py.strip. rewrite (rstrip_cons_nonspace c t Hc).
  cbn [Py.lstrip]. rewrite Hc. reflexivity.
Qed.

Lemma strip_approved_is_not_changes_requested (u v : string) :
  Py.strip (APPROVED_BY_LABEL_PREFIX ++ u)
  <> CHANGED_REQUESTED_BY_LABEL_PREFIX ++ v.
Proof.
  change (APPROVED_BY_LABEL_PREFIX ++ u) with (String "A" ("pproved-By-" ++ u)).
  rewrite strip_cons_nonspace by reflexivity.
  change (CHANGED_REQUESTED_BY_LABEL_PREFIX ++ v)
    with (String "C" ("hanges-requested-By-" ++ v)).
  discriminate.
Qed.

Lemma strip_changes_requested_is_not_approved (u v : string) :
  Py.strip (CHANGED_REQUESTED_BY_LABEL_PREFIX ++ u)
  <> APPROVED_BY_LABEL_PREFIX ++ v.
Proof.
  change (CHANGED_REQUESTED_BY_LABEL_PREFIX ++ u)
    with (String "C" ("hanges-requested-By-" ++ u)).
  rewrite strip_cons_nonspace by reflexivity.
  change (APPROVED_BY_LABEL_PREFIX ++ v) with (String "A" ("pproved-By-" ++ v)).
  discriminate.
Qed.

Lemma strip_reviewer_label (pfx v : string) :
  Py.nospace pfx = true -> Py.nospace v = true ->
  Py.strip (pfx ++ v) = pfx ++ v.
Proof.
  intros Hp Hv. apply strip_nospace. rewrite nospace_app, Hp, Hv. reflexivity.
Qed.

(** One review keeps the two labels of every reviewer apart. *)
Lemma manage_reviewed_by_label_exclusive
    `{K : Constants} (self : GitHubApi) (st : string) (act : action)
    (v : string) (w : world) :
  labels (pull_request self) = pr_labels w ->
  Py.nospace v = true ->
  exclusive (pr_labels w) ->
  exists w',
    manage_reviewed_by_label self st act v w = (Return tt, w')
    /\ exclusive (pr_labels w').
Proof.
  intros Hfresh Hv Hex.
  destruct (manage_reviewed_by_label_run self st act v w Hfresh) as (w' & Hrun & Hl).
  exists w'. split; [exact Hrun|]. rewrite Hl. clear Hrun Hl.
  destruct (bool_decide (st ∈ ["approved"; LGTM_STR])).
  { destruct (String.eqb (hook_data_user_login self) v); [exact Hex|].
    intros u [Ha Hc].
    pose proof (labels_after_review_inv _ _ _ _ _ _ Ha) as [Ha'|[-> Ha']];
      pose proof (labels_after_review_inv _ _ _ _ _ _ Hc) as [Hc'|[_ Hc']].
    - exact (Hex u (conj Ha' Hc')).
    - symmetry in Hc'. exact (strip_approved_is_not_changes_requested _ _ Hc').
    - rewrite strip_reviewer_label in Ha' by (reflexivity || exact Hv).
      apply append_inv_head in Ha'. subst u.
      rewrite (bool_decide_eq_true_2 _ Hc') in Hc.
      revert Hc. apply labels_after_review_removed; [exact Hc' | discriminate].
    - symmetry in Hc'. exact (strip_approved_is_not_changes_requested _ _ Hc'). }
  destruct (String.eqb st "changes_requested").
  { intros u [Ha Hc].
    pose proof (labels_after_review_inv _ _ _ _ _ _ Ha) as [Ha'|[_ Ha']];
      pose proof (labels_after_review_inv _ _ _ _ _ _ Hc) as [Hc'|[-> Hc']].
    - exact (Hex u (conj Ha' Hc')).
    - rewrite strip_reviewer_label in Hc' by (reflexivity || exact Hv).
      apply append_inv_head in Hc'. subst u.
      rewrite (bool_decide_eq_true_2 _ Ha') in Ha.
      revert Ha. apply labels_after_review_removed; [exact Ha' | discriminate].
    - symmetry in Ha'. exact (strip_changes_requested_is_not_approved _ _ Ha').
    - symmetry in Ha'. exact (strip_changes_requested_is_not_approved _ _ Ha'). }
  destruct (String.eqb st "commented"); [|exact Hex].
  intros u [Ha Hc].
  pose proof (labels_after_review_inv _ _ _ _ _ _ Ha) as [Ha'|[_ Ha']];
    pose proof (labels_after_review_inv _ _ _ _ _ _ Hc) as [Hc'|[_ Hc']].
  - exact (Hex u (conj Ha' Hc')).
  - rewrite strip_reviewer_label in Hc' by (reflexivity || exact Hv).
    symmetry in Hc'. exact (commented_is_not_changes_requested _ _ Hc').
  - rewrite strip_reviewer_label in Ha' by (reflexivity || exact Hv).
    symmetry in Ha'. exact (commented_is_not_approved _ _ Ha').
  - rewrite strip_reviewer_label in Ha' by (reflexivity || exact Hv).
    symmetry in Ha'. exact (commented_is_not_approved _ _ Ha').
Qed.

Lemma deliver_reviews_exclusive
    `{K : Constants} (self : GitHubApi)
    (events : list (string * action * string)) (w : world) :
  Forall (fun ev => Py.nospace ev.2 = true) events ->
  exclusive (pr_labels w) ->
  exists w',
    deliver_reviews self events w = (Return tt, w')
    /\ exclusive (pr_labels w').
Proof.
  intros Hevs. revert w. induction Hevs as [|[[st act] v] events Hv _ IH];
    intros w Hex.
  { exists w. split; [reflexivity | exact Hex]. }
  cbn [deliver_reviews]. unfold _get_pull_request. unfold bind at 1.
  destruct (manage_reviewed_by_label_exclusive
              (with_labels self (pr_labels w)) st act v w eq_refl Hv Hex)
    as (w1 & Hrun & Hex1).
  unfold bind at 1. rewrite Hrun. apply IH. exact Hex1.
Qed.

Lemma deliver_one_review
    `{K : Constants} (self : GitHubApi) (st : string) (act : action)
    (v : string) (w w' : world) :
  manage_reviewed_by_label (with_labels self (pr_labels w)) st act v w
  = (Return tt, w') ->
  forall rest, deliver_reviews self ((st, act, v) :: rest) w
               = deliver_reviews self rest w'.
Proof.
  intros Hrun rest. cbn [deliver_reviews]. unfold _get_pull_request.
  unfold bind at 1. unfold bind at 1. rewrite Hrun. reflexivity.
Qed.

Lemma changes_requested_is_no_approval :
  bool_decide ("changes_requested" ∈ ["approved"; LGTM_STR]) = false.
Proof. reflexivity. Qed.

(** After a request for changes by [u] the approval of [u] is gone. *)
Lemma changes_requested_removes_approval
    (L : list string) (u : string) :
  (APPROVED_BY_LABEL_PREFIX ++ u)
  ∉ labels_after_review L ADD_STR u CHANGED_REQUESTED_BY_LABEL_PREFIX
      (if bool_decide ((APPROVED_BY_LABEL_PREFIX ++ u) ∈ L)
       then Some (APPROVED_BY_LABEL_PREFIX ++ u) else None).
Proof.
  destruct (bool_decide ((APPROVED_BY_LABEL_PREFIX ++ u) ∈ L)) eqn:Hin.
  - apply bool_decide_eq_true in Hin.
    apply labels_after_review_removed; [exact Hin | discriminate].
  - apply bool_decide_eq_false in Hin.
    intros [Ha | [_ Ha]]%labels_after_review_inv; [contradiction|].
    symmetry in Ha. exact (strip_changes_requested_is_not_approved _ _ Ha).
Qed.

(** After an approval by [u] the request for changes of [u] is gone. *)
Lemma approval_removes_changes_requested
    (L : list string) (u : string) :
  (CHANGED_REQUESTED_BY_LABEL_PREFIX ++ u)
  ∉ labels_after_review L ADD_STR u APPROVED_BY_LABEL_PREFIX
      (if bool_decide ((CHANGED_REQUESTED_BY_LABEL_PREFIX ++ u) ∈ L)
       then Some (CHANGED_REQUESTED_BY_LABEL_PREFIX ++ u) else None).
Proof.
  destruct (bool_decide ((CHANGED_REQUESTED_BY_LABEL_PREFIX ++ u) ∈ L)) eqn:Hin.
  - apply bool_decide_eq_true in Hin.
    apply labels_after_review_removed; [exact Hin | discriminate].
  - apply bool_decide_eq_false in Hin.
    intros [Hc | [_ Hc]]%labels_after_review_inv; [contradiction|].
    symmetry in Hc. exact (strip_approved_is_not_changes_requested _ _ Hc).
Qed.

(** C3 (as amended).  Review events are delivered one after another, each to
    an instance that fetches the pull request.  (1) If no reviewer holds both
    labels before, and the reviewers' names contain no whitespace, then no
    reviewer holds both labels after any sequence of events.  (2) After an
    approval or lgtm added by a reviewer other than the author, that
    reviewer's Changes-requested-By label is absent; after a request for
    changes, that reviewer's Approved-By label is absent.  (3) For a reviewer
    U whose name has no whitespace and whose Changes-requested-By-U label has
    at most 49 characters, an approval followed by a request for changes
    leaves Changes-requested-By-U present and Approved-By-U absent. *)
Theorem C3_reviewer_labels_stay_exclusive
    `{K : Constants} (self : GitHubApi) (w : world) :
  (forall events,
      Forall (fun ev => Py.nospace ev.2 = true) events ->
      exclusive (pr_labels w) ->
      let r := deliver_reviews self events w in
      r.1 = Return tt /\ exclusive (pr_labels r.2))
  /\ (forall st u,
        st = "approved" \/ st = LGTM_STR ->
        hook_data_user_login self <> u ->
        let r := deliver_reviews self [(st, ADD_STR, u)] w in
        r.1 = Return tt
        /\ (CHANGED_REQUESTED_BY_LABEL_PREFIX ++ u) ∉ pr_labels r.2)
  /\ (forall u,
        let r := deliver_reviews self [("changes_requested", ADD_STR, u)] w in
        r.1 = Return tt
        /\ (APPROVED_BY_LABEL_PREFIX ++ u) ∉ pr_labels r.2)
  /\ (forall U,
        Py.nospace U = true ->
        (String.length (CHANGED_REQUESTED_BY_LABEL_PREFIX ++ U) <= 49)%nat ->
        let r := deliver_reviews self
                   [("approved", ADD_STR, U); ("changes_requested", ADD_STR, U)]
                   w in
        r.1 = Return tt
        /\ (CHANGED_REQUESTED_BY_LABEL_PREFIX ++ U) ∈ pr_labels r.2
        /\ (APPROVED_BY_LABEL_PREFIX ++ U) ∉ pr_labels r.2).
Proof.
  split; [|split; [|split]].
  - intros events Hevs Hex.
    destruct (deliver_reviews_exclusive self events w Hevs Hex) as (w' & -> & Hex').
    split; [reflexivity | exact Hex'].
  - intros st u Hst Hu.
    destruct (manage_reviewed_by_label_run (with_labels self (pr_labels w))
                st ADD_STR u w eq_refl) as (w' & Hrun & Hl).
    rewrite (deliver_one_review self st ADD_STR u w w' Hrun). cbn [deliver_reviews].
    unfold ret. cbn [fst snd]. split; [reflexivity|]. rewrite Hl.
    assert (bool_decide (st ∈ ["approved"; LGTM_STR]) = true) as ->.
    { apply bool_decide_eq_true. destruct Hst as [-> | ->]; rewrite !elem_of_cons; auto. }
    cbn [with_labels hook_data_user_login].
    destruct (String.eqb_spec (hook_data_user_login self) u) as [|_]; [contradiction|].
    apply approval_removes_changes_requested.
  - intros u.
    destruct (manage_reviewed_by_label_run (with_labels self (pr_labels w))
                "changes_requested" ADD_STR u w eq_refl) as (w' & Hrun & Hl).
    rewrite (deliver_one_review self _ ADD_STR u w w' Hrun). cbn [deliver_reviews].
    unfold ret. cbn [fst snd]. split; [reflexivity|]. rewrite Hl.
    rewrite changes_requested_is_no_approval.
    change (String.eqb "changes_requested" "changes_requested") with true.
    apply changes_requested_removes_approval.
  - intros U HU Hlen.
    destruct (manage_reviewed_by_label_run (with_labels self (pr_labels w))
                "approved" ADD_STR U w eq_refl) as (w1 & Hrun1 & _).
    rewrite (deliver_one_review self _ ADD_STR U w w1 Hrun1).
    destruct (manage_reviewed_by_label_run (with_labels self (pr_labels w1))
                "changes_requested" ADD_STR U w1 eq_refl) as (w2 & Hrun2 & Hl).
    rewrite (deliver_one_review self _ ADD_STR U w1 w2 Hrun2). cbn [deliver_reviews].
    unfold ret. cbn [fst snd]. split; [reflexivity|]. rewrite Hl.
    rewrite changes_requested_is_no_approval.
    change (String.eqb "changes_requested" "changes_requested") with true.
    split; [|apply changes_requested_removes_approval].
    assert (Py.strip (CHANGED_REQUESTED_BY_LABEL_PREFIX ++ U)
            = CHANGED_REQUESTED_BY_LABEL_PREFIX ++ U) as Hstrip
      by (apply strip_reviewer_label; [reflexivity | exact HU]).
    rewrite <- Hstrip at 1. apply labels_after_review_added.
    + rewrite Hstrip. exact Hlen.
    + rewrite Hstrip. discriminate.
    + rewrite Hstrip.
      destruct (bool_decide ((APPROVED_BY_LABEL_PREFIX ++ U) ∈ pr_labels w1));
        [|intros Heq; discriminate Heq].
      intros Heq. apply (approved_is_not_changes_requested U U). congruence.
Qed.

Lemma C3_reviewer_labels_witness :
  let r := deliver_reviews (K := example_constants) (example_self [])
             [("approved", ADD_STR, "bob"); ("changes_requested", ADD_STR, "bob")]
             (example_world ["verified"]) in
  r.1 = Return tt
  /\ "Changes-requested-By-bob" ∈ pr_labels r.2
  /\ "Approved-By-bob" ∉ pr_labels r.2.
Proof.
  destruct (C3_reviewer_labels_stay_exclusive (K := example_constants)
              (example_self []) (example_world ["verified"]))
    as (_ & _ & _ & Hlast).
  apply (Hlast "bob"); [reflexivity | vm_compute; lia].
Defined.

(** C3 (as stated) fails for a reviewer with a name of 30 characters: the
    Changes-requested-By label would have 51 characters and is not added,
    while the Approved-By label is still removed, so neither is present. *)
Lemma C3_long_reviewer_name_loses_both_labels :
  let U := "a-reviewer-with-a-30-char-name" in
  let r := deliver_reviews (K := example_constants) (example_self [])
             [("approved", ADD_STR, U); ("changes_requested", ADD_STR, U)]
             (example_world []) in
  String.length U = 30%nat
  /\ r.1 = Return tt
  /\ pr_labels r.2 = []
  /\ (CHANGED_REQUESTED_BY_LABEL_PREFIX ++ U) ∉ pr_labels r.2.
Proof.
  cbn zeta. split; [reflexivity|]. split; [reflexivity|].
  split; [reflexivity|].
  change (pr_labels _) with (@nil string). apply not_elem_of_nil.
Qed.

(** ** Comment commands that toggle a label *)

Lemma label_by_user_comment_run
    `{K : Constants} (self : GitHubApi) (name : string) (remove : bool)
    (user : string) (id : Z) (w : world) :
  labels (pull_request self) = pr_labels w ->
  exists w',
    label_by_user_comment self name remove user id w = (Return tt, w')
    /\ if existsb (fun kv => Py.startswith name kv.1) USER_LABELS_DICT then
         if remove then name <> "" -> name ∉ pr_labels w'
         else (String.length (Py.strip name) <= 49)%nat ->
              Py.strip name ∈ pr_labels w'
       else
         (exists body, calls w' = (calls w ++ [create_issue_comment body])%list)
         /\ pr_labels w' = pr_labels w.
Proof.
  intros Hfresh. unfold label_by_user_comment.
  destruct (existsb (fun kv => Py.startswith name kv.1) USER_LABELS_DICT);
    cbn [negb].
  2:{ run. eexists; split; [reflexivity|]. unfold remote. run.
      split; [eexists; reflexivity | reflexivity]. }
  unfold bind at 1. unfold logger at 1. unfold bind at 1.
  unfold create_comment_reaction, request at 1. cbn [remote].
  set (w0 := push_call _ (push_log _ _ w)).
  assert (labels (pull_request self) = pr_labels w0) as Hfresh0 by exact Hfresh.
  assert (exists w1,
            (if String.eqb name LGTM_STR
             then manage_reviewed_by_label self LGTM_STR
                    (if remove then DELETE_STR else ADD_STR) user
             else ret tt) w0 = (Return tt, w1)
            /\ (remove = true -> forall l, l ∈ pr_labels w1 -> l ∈ pr_labels w)
            /\ (remove = false -> Py.strip name ∈ pr_labels w ->
                Py.strip name ∈ pr_labels w1)) as (w1 & Hrun1 & Hdel & Hadd).
  { destruct (String.eqb_spec name LGTM_STR) as [->|_].
    2:{ exists w0. split; [reflexivity|]. split; auto. }
    destruct (manage_reviewed_by_label_run self LGTM_STR
                (if remove then DELETE_STR else ADD_STR) user w0 Hfresh0)
      as (w1 & Hrun & Hl).
    exists w1. split; [exact Hrun|]. rewrite Hl.
    change (bool_decide (LGTM_STR ∈ ["approved"; LGTM_STR])) with true.
    change (pr_labels w0) with (pr_labels w).
    destruct (String.eqb (hook_data_user_login self) user); [split; auto|].
    split.
    - intros -> l [Hl'|[Hact _]]%labels_after_review_inv;
        [exact Hl' | discriminate Hact].
    - intros -> Hin. change (Py.strip LGTM_STR) with LGTM_STR in *.
      apply labels_after_review_keep; [exact Hin | | intros Hact; discriminate Hact].
      destruct (bool_decide
                  ((CHANGED_REQUESTED_BY_LABEL_PREFIX ++ user) ∈ pr_labels w));
        intros Heq; [|discriminate Heq].
      apply (f_equal (default "")) in Heq.
      change (default "" (Some ?x)) with x in Heq.
      cbv [CHANGED_REQUESTED_BY_LABEL_PREFIX LGTM_STR String.append] in Heq.
      discriminate Heq. }
  unfold bind at 1. rewrite Hrun1. destruct remove.
  - destruct (_remove_label_run self name w1) as (w' & -> & _ & _ & _ & Hrem).
    exists w'. split; [reflexivity|]. intros Hne.
    rewrite label_exists_in_pull_request_spec, Hfresh in Hrem.
    destruct (String.eqb_spec name "") as [|_]; [contradiction|].
    rewrite andb_true_r in Hrem.
    destruct (bool_decide (name ∈ pr_labels w)) eqn:Hin;
      destruct Hrem as [Hl _]; rewrite Hl.
    + intros [Hnn _]%list_elem_of_filter. apply Hnn. reflexivity.
    + apply bool_decide_eq_false in Hin. intros Hin1. apply Hin.
      apply Hdel; [reflexivity | exact Hin1].
  - destruct (_add_label_run self name w1) as (w' & -> & _ & _ & Heff).
    exists w'. split; [reflexivity|]. intros Hlen.
    assert ((49 <? Z.of_nat (String.length (Py.strip name))) = false) as Hshort
      by (apply Z.ltb_ge; lia).
    rewrite Hshort, label_exists_in_pull_request_spec, Hfresh in Heff.
    cbn [orb] in Heff.
    destruct (bool_decide (Py.strip name ∈ pr_labels w)
              && negb (String.eqb (Py.strip name) "")) eqn:Hex.
    + destruct Heff as (Hl & _). rewrite Hl.
      apply andb_true_iff in Hex as [Hin _]. apply bool_decide_eq_true in Hin.
      apply Hadd; [reflexivity | exact Hin].
    + destruct Heff as (Hl & _). rewrite Hl. apply elem_of_add_if_absent.
Qed.

(** X26.  A command that is not an action is a label request.  For a
    command that does not contain [sonarsource.github.io] and whose name is
    none of retest, cherry-pick, build-and-push-container and wip, handled on
    a pull request fetched from the current state, [user_commands] returns;
    when no key of the user-label table is a prefix of the name, the only
    request sent is one comment and the labels are unchanged; when some key
    is a prefix of the name, the name is absent afterwards if the argument is
    exactly [cancel], and otherwise the stripped name is present afterwards
    provided it has at most 49 characters. *)
Theorem unknown_command_toggles_label
    `{K : Constants} `{H : Helpers} (self : GitHubApi)
    (command reviewed_user : string) (issue_comment_id : Z) (w : world) :
  let command_and_args := Py.split1 " " command in
  let name := nth 0 command_and_args "" in
  let negated :=
    (1 <? length command_and_args)%nat
    && String.eqb (nth 1 command_and_args "") "cancel" in
  let r := user_commands self command reviewed_user issue_comment_id w in
  labels (pull_request self) = pr_labels w ->
  Py.contains "sonarsource.github.io" command = false ->
  name ∉ ["retest"; "cherry-pick"; "build-and-push-container"; WIP_STR] ->
  r.1 = Return tt
  /\ if existsb (fun kv => Py.startswith name kv.1) USER_LABELS_DICT then
       if negated then name <> "" -> name ∉ pr_labels r.2
       else (String.length (Py.strip name) <= 49)%nat ->
            Py.strip name ∈ pr_labels r.2
     else
       (exists body, new_calls w r.2 = [create_issue_comment body])
       /\ pr_labels r.2 = pr_labels w.
Proof.
  intros command_and_args name negated r Hfresh Hsonar Hname. subst r.
  assert (exists w',
    user_commands self command reviewed_user issue_comment_id w = (Return tt, w')
    /\ if existsb (fun kv => Py.startswith name kv.1) USER_LABELS_DICT then
         if negated then name <> "" -> name ∉ pr_labels w'
         else (String.length (Py.strip name) <= 49)%nat ->
              Py.strip name ∈ pr_labels w'
       else
         (exists body, new_calls w w' = [create_issue_comment body])
         /\ pr_labels w' = pr_labels w) as (w' & -> & Heff);
    [|split; [reflexivity | exact Heff]].
  unfold user_commands. rewrite Hsonar.
  fold command_and_args. fold name.
  assert (bool_decide (name ∈ ["retest"; "cherry-pick"]) = false) as Hav.
  { apply bool_decide_eq_false. intros Hin. apply Hname.
    rewrite !elem_of_cons in Hin. rewrite !elem_of_cons. tauto. }
  assert (String.eqb name "build-and-push-container" = false) as Hbp.
  { apply String.eqb_neq. intros Heq. apply Hname. rewrite Heq, !elem_of_cons. tauto. }
  assert (String.eqb name WIP_STR = false) as Hwip.
  { apply String.eqb_neq. intros Heq. apply Hname. rewrite Heq, !elem_of_cons. tauto. }
  unfold bind at 1. unfold logger at 1.
  unfold bind at 1.
  match goal with
  | |- context [(if ?b then logger INFO ?m else ret tt) ?v] =>
      assert (exists v', (if b then logger INFO m else ret tt) v = (Return tt, v')
                         /\ pr_labels v' = pr_labels w /\ calls v' = calls w)
        as (w0 & -> & Hl0 & Hc0)
        by (destruct b; eexists; split; try reflexivity; split; reflexivity)
  end.
  rewrite Hav, Hbp, Hwip.
  rewrite <- Hl0 in Hfresh.
  destruct (label_by_user_comment_run self name
              ((1 <? length command_and_args)%nat
               && String.eqb
                    (if (1 <? length command_and_args)%nat
                     then nth 1 command_and_args "" else "") "cancel")
              reviewed_user issue_comment_id w0 Hfresh) as (w' & -> & Heff).
  exists w'. split; [reflexivity|].
  assert (((1 <? length command_and_args)%nat
           && String.eqb
                (if (1 <? length command_and_args)%nat
                 then nth 1 command_and_args "" else "") "cancel") = negated) as Hneg.
  { unfold negated. destruct (1 <? length command_and_args)%nat; reflexivity. }
  rewrite Hneg in Heff.
  destruct (existsb (fun kv => Py.startswith name kv.1) USER_LABELS_DICT);
    [exact Heff|].
  destruct Heff as ((body & Hc) & Hl). rewrite Hl, Hl0. split; [|reflexivity].
  exists body. apply new_calls_app. rewrite Hc, Hc0. reflexivity.
Qed.

Lemma unknown_command_toggles_label_witness :
  let w := example_world ["verified"; "hold"] in
  let self := example_self ["verified"; "hold"] in
  let r := user_commands (K := example_constants) (H := example_helpers)
             self "hold cancel" "bob" 11 w in
  labels (pull_request self) = pr_labels w
  /\ Py.contains "sonarsource.github.io" "hold cancel" = false
  /\ r.1 = Return tt
  /\ pr_labels r.2 = ["verified"].
Proof.
  cbn zeta. split; [reflexivity|]. split; [reflexivity|].
  destruct (unknown_command_toggles_label (K := example_constants)
              (H := example_helpers) (example_self ["verified"; "hold"])
              "hold cancel" "bob" 11 (example_world ["verified"; "hold"]))
    as (Hret & _).
  - reflexivity.
  - reflexivity.
  - rewrite !elem_of_cons, elem_of_nil.
    intros [Heq|[Heq|[Heq|[Heq|[]]]]]; discriminate Heq.
  - split; [exact Hret | reflexivity].
Defined.

(** X28.  The ignore list.  A command that contains [sonarsource.github.io]
    is dropped: [user_commands] returns after one log record, no request is
    sent, no command is run and no label changes; nothing is posted to the
    pull request, whatever the name of the command. *)
Theorem ignored_command_is_dropped
    `{K : Constants} `{H : Helpers} (self : GitHubApi)
    (command reviewed_user : string) (issue_comment_id : Z) (w : world) :
  Py.contains "sonarsource.github.io" command = true ->
  let r := user_commands self command reviewed_user issue_comment_id w in
  r.1 = Return tt
  /\ calls r.2 = calls w
  /\ pr_labels r.2 = pr_labels w
  /\ ran r.2 = ran w
  /\ log r.2
     = (log w ++ [(INFO, (log_prefix self ++ " command is in ignore list")%string)])%list.
Proof.
  intros Hsonar r. subst r. unfold user_commands. rewrite Hsonar.
  repeat split.
Qed.

Lemma ignored_command_is_dropped_witness :
  let w := example_world ["verified"] in
  let r := user_commands (K := example_constants) (H := example_helpers)
             (example_self ["verified"])
             "hold https://sonarsource.github.io/rspec" "bob" 11 w in
  Py.contains "sonarsource.github.io" "hold https://sonarsource.github.io/rspec"
  = true
  /\ r.1 = Return tt
  /\ calls r.2 = []
  /\ pr_labels r.2 = ["verified"].
Proof.
  cbn zeta. split; [reflexivity|].
  destruct (ignored_command_is_dropped (K := example_constants)
              (H := example_helpers) (example_self ["verified"])
              "hold https://sonarsource.github.io/rspec" "bob" 11
              (example_world ["verified"]))
    as (Hret & Hcalls & Hlabels & _); [reflexivity|].
  split; [exact Hret|]. split; [exact Hcalls | exact Hlabels].
Defined.

(** C8.  The code at the failing inputs.  The name [hold-for-review] is not
    in the user-label table, yet the command is not refused: a key of the
    table, [hold], is a prefix of it, so no comment is posted and the label
    [hold-for-review] is created and attached.  And a negated command does
    not remove a label that an earlier command of the same comment attached:
    the comment [/hold /hold cancel] leaves [hold] on the pull request, for
    the removal looks the label up in the object fetched before the first
    command. *)
Theorem C8_label_name_is_matched_by_prefix :
  let w := example_world ["verified"] in
  let self := example_self ["verified"] in
  let r := user_commands (K := example_constants) (H := example_helpers)
             self "hold-for-review" "bob" 12 w in
  let r' := process_comment_webhook_data (K := example_constants)
              (H := example_helpers) self "created" 7 "/hold /hold cancel"
              "bob" 12 w in
  labels (pull_request self) = pr_labels w
  /\ ("hold-for-review" ∉ map fst (@USER_LABELS_DICT example_constants))
  /\ (r.1 = Return tt
      /\ calls r.2
         = [create_reaction 12 "+1"; create_label "hold-for-review" "D4C5F9";
            add_to_labels "hold-for-review"]
      /\ comments_of (calls r.2) = []
      /\ pr_labels r.2 = ["verified"; "hold-for-review"])
  /\ "hold" ∈ map fst (@USER_LABELS_DICT example_constants)
  /\ (r'.1 = Return tt
      /\ calls r'.2
         = [create_reaction 12 "+1"; add_to_labels "hold";
            create_reaction 12 "+1";
            create_status "pending" "Cannot be merged" "can-be-merged"]
      /\ pr_labels r'.2 = ["verified"; "hold"]).
Proof.
  cbn zeta. split; [reflexivity|]. split.
  { cbn. rewrite !elem_of_cons, elem_of_nil.
    intros [Heq|[Heq|[Heq|[Heq|[]]]]]; discriminate Heq. }
  split; [repeat split|].
  split; [cbn; apply elem_of_cons; left; reflexivity|].
  repeat split.
Qed.

(** ** The cherry-pick workflow *)

Lemma string_append_assoc (a b c : string) : (a ++ b) ++ c = a ++ b ++ c.
Proof.
  induction a as [|x a IH]; [reflexivity|].
  change ((String x a ++ b) ++ c) with (String x ((a ++ b) ++ c)).
  rewrite IH. reflexivity.
Qed.

Lemma prefix_app_r (p s t : string) :
  String.prefix p s = true -> String.prefix p (s ++ t) = true.
Proof.
  revert s. induction p as [|a p IH]; intros s Hp; [apply prefix_nil_l|].
  destruct s as [|b s]; [discriminate Hp|].
  change (String b s ++ t) with (String b (s ++ t)).
  apply prefix_cons in Hp as [-> Hp]. apply prefix_cons. auto.
Qed.

Lemma contains_app_extend (x s t : string) :
  Py.contains x s = true -> Py.contains x (s ++ t) = true.
Proof.
  induction s as [|b s IH].
  - cbn [Py.contains]. rewrite orb_false_r. intros Hp.
    apply prefix_nil_r in Hp. subst x.
    change ("" ++ t) with t. destruct t; reflexivity.
  - rewrite contains_cons. change (String b s ++ t) with (String b (s ++ t)).
    rewrite contains_cons. intros [Hp|Hc]%orb_true_iff.
    + change (String b (s ++ t)) with (String b s ++ t).
      rewrite (prefix_app_r _ _ t Hp). reflexivity.
    + rewrite (IH Hc). apply orb_true_r.
Qed.

Lemma contains_app_r (x a s : string) :
  Py.contains x s = true -> Py.contains x (a ++ s) = true.
Proof.
  intros Hc. induction a as [|b a IH]; [exact Hc|].
  change (String b a ++ s) with (String b (a ++ s)).
  rewrite contains_cons, IH. apply orb_true_r.
Qed.

(** A piece of a text is contained in it. *)
Lemma contains_infix (a x b : string) : Py.contains x (a ++ x ++ b) = true.
Proof. apply contains_app_r, contains_app_l. Qed.

Ltac step_command out err ex :=
  match goal with
  | |- context [run_command_outcome ?h ?c] =>
      destruct (run_command_outcome h c) as [[|] out err|ex]
  end.

Lemma run_command_completed
    `{H : Helpers} (cmd : string) (w : world) :
  (forall hist c ex, run_command_outcome hist c = Failed ex -> is_step c = true) ->
  is_step cmd = false ->
  exists r, run_command cmd w = (Return r, push_ran cmd w).
Proof.
  intros Hsetup Hcmd. unfold run_command.
  destruct (run_command_outcome (ran w) cmd) as [rc out err|ex] eqn:Hout.
  - eexists. reflexivity.
  - apply Hsetup in Hout. congruence.
Qed.

(** [_cherry_pick] always returns: with [True] and no comment, or with
    [False] and the recovery comment as its only request. *)
Lemma _cherry_pick_run
    `{H : Helpers} (self : GitHubApi) (target new_branch_name : string)
    (w : world) :
  credential_free self w ->
  exists (picked : bool) (w' : world),
    _cherry_pick self target new_branch_name w = (Return picked, w')
    /\ credential_free self w'
    /\ cwd w' = cwd w
    /\ calls w'
       = (calls w
            ++ if picked then []
               else [create_issue_comment
                       (recovery_comment (merge_commit_sha (pull_request self))
                          target
                          (head_ref (pull_request self) ++ "-" ++ target))])%list.
Proof.
  intros Hfree. unfold credential_free in Hfree.
  assert (forall v, credential_free self (set_environ None v)) as Hnone
    by (intros v; reflexivity).
  assert (forall v, credential_free self (set_environ (Some (token self)) v)) as Hsome.
  { intros v. unfold credential_free. cbn [environ_GITHUB_TOKEN set_environ].
    rewrite bool_decide_eq_true_2 by reflexivity. apply andb_false_r. }
  unfold _cherry_pick, try_except, _issue_from_err, set_os_env_github_token,
    run_command, recovery_comment.
  run.
  step_command out1 err1 exn1; run; cbn [negb]; run.
  2:{ exists false. eexists. split; [reflexivity|]. unfold remote. run.
      split; [exact Hfree | split; reflexivity]. }
  2:{ exists false. eexists. split; [reflexivity|]. unfold remote. run.
      split; [exact Hfree | split; reflexivity]. }
  step_command out2 err2 exn2; run; cbn [negb]; run.
  2:{ exists false. eexists. split; [reflexivity|]. unfold remote. run.
      split; [exact Hfree | split; reflexivity]. }
  2:{ exists false. eexists. split; [reflexivity|]. unfold remote. run.
      split; [exact Hfree | split; reflexivity]. }
  rewrite Hfree.
  step_command out3 err3 exn3; run; cbn [negb]; run.
  - exists true. eexists. split; [reflexivity|]. run.
    split; [apply Hnone | split; [reflexivity | rewrite app_nil_r; reflexivity]].
  - exists false. eexists. split; [reflexivity|]. unfold remote. run.
    split; [apply Hnone | split; reflexivity].
  - exists false. eexists. split; [reflexivity|]. unfold remote. run.
    split; [apply Hsome | split; reflexivity].
Qed.

Ltac setup_command Hsetup :=
  match goal with
  | |- context [run_command ?c ?v] =>
      let r := fresh "r" in
      destruct (run_command_completed c v Hsetup eq_refl) as (r & ->)
  end.

(** A clone that can neither raise nor report a failure succeeds. *)
Lemma run_command_cloned
    `{H : Helpers} (cmd : string) (w : world) :
  (forall hist c ex, run_command_outcome hist c = Failed ex -> is_step c = true) ->
  (forall hist c out err,
      run_command_outcome hist c = Completed false out err ->
      Py.startswith c "git clone " = false) ->
  is_step cmd = false ->
  Py.startswith cmd "git clone " = true ->
  exists out err, run_command cmd w = (Return (true, out, err), push_ran cmd w).
Proof.
  intros Hsetup Hclone Hcmd Hstart. unfold run_command.
  destruct (run_command_outcome (ran w) cmd) as [[|] out err|ex] eqn:Hout.
  - eexists _, _. reflexivity.
  - apply Hclone in Hout. congruence.
  - apply Hsetup in Hout. congruence.
Qed.

(** A target whose clone succeeds is handled to the end, with one comment,
    whatever becomes of its three steps. *)
Lemma cherry_pick_run
    `{H : Helpers} (self : GitHubApi) (target : string)
    (reviewed_user : option string) (w : world) :
  (forall hist c ex, run_command_outcome hist c = Failed ex -> is_step c = true) ->
  (forall hist c out err,
      run_command_outcome hist c = Completed false out err ->
      Py.startswith c "git clone " = false) ->
  credential_free self w ->
  exists w',
    cherry_pick self target reviewed_user w = (Return tt, w')
    /\ credential_free self w'
    /\ cwd w' = cwd w
    /\ exists body, calls w' = (calls w ++ [create_issue_comment body])%list.
Proof.
  intros Hsetup Hclone Hfree. unfold cherry_pick, uuid, is_branch_exists. run.
  destruct (bool_decide (target ∈ branches w)); cbn [negb]; run.
  2:{ eexists. split; [reflexivity|]. unfold remote. run.
      split; [exact Hfree | split; [reflexivity | eexists; reflexivity]]. }
  unfold _clone_repository, change_directory, _checkout_new_branch. run.
  match goal with
  | |- context [run_command ?c ?v] =>
      destruct (run_command_cloned c v Hsetup Hclone eq_refl (prefix_app _ _))
        as (out0 & err0 & ->)
  end.
  unfold os_chdir. run.
  setup_command Hsetup. run.
  setup_command Hsetup. run.
  setup_command Hsetup. run.
  setup_command Hsetup. run.
  setup_command Hsetup. run.
  setup_command Hsetup. run.
  setup_command Hsetup. run.
  match goal with
  | |- context [_cherry_pick self target ?nb ?v] =>
      destruct (_cherry_pick_run self target nb v Hfree)
        as (picked & w1 & -> & Hfree1 & Hcwd1 & Hcalls)
  end.
  run. destruct picked; run.
  - eexists. split; [reflexivity|]. unfold remote. run.
    split; [exact Hfree1|]. split; [reflexivity|].
    rewrite Hcalls, app_nil_r. run. eexists. reflexivity.
  - eexists. split; [reflexivity|]. run.
    split; [exact Hfree1|]. split; [reflexivity|].
    rewrite Hcalls. run. eexists. reflexivity.
Qed.

(** Every cherry-pick label gets its comment. *)
Lemma process_pull_request_webhook_data_cherry_pick_run
    `{H : Helpers} (self : GitHubApi) (_labels : list string) (w : world) :
  (forall hist c ex, run_command_outcome hist c = Failed ex -> is_step c = true) ->
  (forall hist c out err,
      run_command_outcome hist c = Completed false out err ->
      Py.startswith c "git clone " = false) ->
  credential_free self w ->
  exists w' bodies,
    process_pull_request_webhook_data_cherry_pick self _labels w = (Return tt, w')
    /\ credential_free self w'
    /\ cwd w' = cwd w
    /\ calls w' = (calls w ++ map create_issue_comment bodies)%list
    /\ length bodies
       = length (List.filter
                   (fun l => Py.startswith l CHERRY_PICK_LABEL_PREFIX) _labels).
Proof.
  intros Hsetup Hclone. revert w.
  induction _labels as [|l ls IH]; intros w Hfree.
  { exists w, []. repeat split; [exact Hfree | symmetry; apply app_nil_r]. }
  cbn [process_pull_request_webhook_data_cherry_pick List.filter].
  unfold bind at 1.
  destruct (Py.startswith l CHERRY_PICK_LABEL_PREFIX).
  - destruct (cherry_pick_run self (Py.replace l CHERRY_PICK_LABEL_PREFIX "")
                None w Hsetup Hclone Hfree)
      as (w1 & -> & Hfree1 & Hcwd1 & body & Hc1).
    destruct (IH w1 Hfree1) as (w' & bodies & -> & Hfree' & Hcwd & Hc & Hn).
    exists w', (body :: bodies). split; [reflexivity|]. split; [exact Hfree'|].
    split; [congruence|].
    split; [|cbn [length]; rewrite Hn; reflexivity].
    rewrite Hc, Hc1, <- app_assoc. reflexivity.
  - unfold ret. destruct (IH w Hfree) as (w' & bodies & -> & Hfree' & Hcwd & Hc & Hn).
    exists w', bodies. auto.
Qed.

Lemma recovery_comment_contains (commit_hash target local_branch : string) :
  Py.contains commit_hash (recovery_comment commit_hash target local_branch) = true
  /\ Py.contains target (recovery_comment commit_hash target local_branch) = true
  /\ Forall (fun cmd =>
               Py.contains cmd
                 (recovery_comment commit_hash target local_branch) = true)
            (recovery_recipe commit_hash target local_branch).
Proof.
  unfold recovery_comment, recovery_recipe.
  split; [|split].
  - do 3 apply contains_app_r. apply contains_app_l.
  - do 5 apply contains_app_r. apply contains_app_l.
  - repeat constructor.
    + do 12 apply contains_app_r.
      rewrite <- (string_append_assoc "git checkout " target).
      apply contains_app_l.
    + do 15 apply contains_app_r.
      rewrite <- (string_append_assoc "git pull origin " target).
      apply contains_app_l.
    + do 18 apply contains_app_r.
      rewrite <- (string_append_assoc "git checkout -b " local_branch).
      apply contains_app_l.
    + do 21 apply contains_app_r.
      rewrite <- (string_append_assoc "git cherry-pick " commit_hash).
      apply contains_app_l.
    + do 24 apply contains_app_r.
      rewrite <- (string_append_assoc "git push origin " local_branch).
      apply contains_app_l.
Qed.

Lemma comments_of_comments (bodies : list string) :
  comments_of (map create_issue_comment bodies) = bodies.
Proof.
  induction bodies as [|b bodies IH]; [reflexivity|].
  change (comments_of (map create_issue_comment (b :: bodies)))
    with (b :: comments_of (map create_issue_comment bodies)).
  rewrite IH. reflexivity.
Qed.

(** X1.  While no other token holds the credential variable, [_cherry_pick]
    never raises, whatever its three commands do: it returns [True] and
    sends nothing, or it returns [False] and sends one request, the recovery
    comment, which names the merge-commit hash and the target branch and
    carries the five commands of the manual recipe. *)
Theorem _cherry_pick_fails_with_the_recovery_comment
    `{H : Helpers} (self : GitHubApi) (target new_branch_name : string)
    (w : world) :
  credential_free self w ->
  let r := _cherry_pick self target new_branch_name w in
  let commit_hash := merge_commit_sha (pull_request self) in
  let local_branch := head_ref (pull_request self) ++ "-" ++ target in
  let body := recovery_comment commit_hash target local_branch in
  (r.1 = Return true /\ new_calls w r.2 = [])
  \/ (r.1 = Return false
      /\ new_calls w r.2 = [create_issue_comment body]
      /\ Py.contains commit_hash body = true
      /\ Py.contains target body = true
      /\ Forall (fun cmd => Py.contains cmd body = true)
                (recovery_recipe commit_hash target local_branch)).
Proof.
  intros Hfree.
  destruct (_cherry_pick_run self target new_branch_name w Hfree)
    as (picked & w' & Hrun & _ & _ & Hcalls).
  cbn zeta. rewrite Hrun. cbn [fst snd].
  rewrite (new_calls_app _ _ _ Hcalls). destruct picked.
  - left. split; reflexivity.
  - right. split; [reflexivity|]. split; [reflexivity|].
    destruct (recovery_comment_contains (merge_commit_sha (pull_request self))
                target (head_ref (pull_request self) ++ "-" ++ target))
      as (Hh & Ht & Hr).
    repeat (split; [assumption|]). exact Hr.
Qed.

Lemma _cherry_pick_fails_with_the_recovery_comment_witness :
  let self := example_self ["cherry-pick-release-1.0"] in
  let w := example_world ["cherry-pick-release-1.0"] in
  let r := _cherry_pick (H := example_helpers) self "release-1.0"
             "cherry-picked-fix-parser-uuid0" w in
  credential_free self w
  /\ r.1 = Return false
  /\ length (comments_of (new_calls w r.2)) = 1%nat.
Proof.
  assert (credential_free (example_self ["cherry-pick-release-1.0"])
            (example_world ["cherry-pick-release-1.0"])) as Hfree
    by reflexivity.
  split; [exact Hfree|].
  destruct (_cherry_pick_fails_with_the_recovery_comment (H := example_helpers)
              (example_self ["cherry-pick-release-1.0"]) "release-1.0"
              "cherry-picked-fix-parser-uuid0"
              (example_world ["cherry-pick-release-1.0"]) Hfree)
    as [[Hret _] | (Hret & Hcalls & _)].
  - discriminate Hret.
  - split; [exact Hret|]. cbn zeta. rewrite Hcalls. reflexivity.
Defined.

(** X2.  When every [git clone] succeeds, only the three steps of
    [_cherry_pick] can raise, and no other token holds the credential
    variable, the loop over the labels of a merged pull request handles
    every target to the end: it returns, posts as many comments as there
    are cherry-pick labels and sends nothing else, and leaves the working
    directory and the credential variable as free as it found them. *)
Theorem cherry_pick_loop_handles_every_label
    `{H : Helpers} (self : GitHubApi) (_labels : list string) (w : world) :
  (forall hist c out err,
      run_command_outcome hist c = Completed false out err ->
      Py.startswith c "git clone " = false) ->
  (forall hist c ex, run_command_outcome hist c = Failed ex -> is_step c = true) ->
  credential_free self w ->
  let r := process_pull_request_webhook_data_cherry_pick self _labels w in
  r.1 = Return tt
  /\ map create_issue_comment (comments_of (new_calls w r.2)) = new_calls w r.2
  /\ length (comments_of (new_calls w r.2))
     = length (List.filter (fun l => Py.startswith l CHERRY_PICK_LABEL_PREFIX)
                           _labels)
  /\ cwd r.2 = cwd w
  /\ credential_free self r.2.
Proof.
  intros Hclone Hsetup Hfree.
  destruct (process_pull_request_webhook_data_cherry_pick_run
              self _labels w Hsetup Hclone Hfree)
    as (w' & bodies & Hrun & Hfree' & Hcwd & Hc & Hn).
  cbn zeta. rewrite Hrun. cbn [fst snd]. split; [reflexivity|].
  rewrite (new_calls_app _ _ _ Hc), comments_of_comments.
  repeat split; assumption.
Qed.

Lemma cherry_pick_loop_handles_every_label_witness :
  let self := example_self ["cherry-pick-release-1.0"; "cherry-pick-main"] in
  let w := example_world ["cherry-pick-release-1.0"; "cherry-pick-main"] in
  let r := process_pull_request_webhook_data_cherry_pick
             (H := example_helpers) self (labels (pull_request self)) w in
  r.1 = Return tt /\ length (comments_of (new_calls w r.2)) = 2%nat.
Proof.
  destruct (cherry_pick_loop_handles_every_label (H := example_helpers)
              (example_self ["cherry-pick-release-1.0"; "cherry-pick-main"])
              ["cherry-pick-release-1.0"; "cherry-pick-main"]
              (example_world ["cherry-pick-release-1.0"; "cherry-pick-main"]))
    as (Hret & _ & Hn & _).
  - intros hist c out err. cbn.
    destruct (Py.startswith c "git cherry-pick ") eqn:Hpick;
      [|intros Hno; discriminate Hno].
    intros _. unfold Py.startswith in *.
    destruct c as [|c0 c]; [discriminate Hpick|].
    apply prefix_cons in Hpick as [<- Hpick].
    destruct c as [|c1 c]; [discriminate Hpick|].
    apply prefix_cons in Hpick as [<- Hpick].
    destruct c as [|c2 c]; [discriminate Hpick|].
    apply prefix_cons in Hpick as [<- Hpick].
    destruct c as [|c3 c]; [discriminate Hpick|].
    apply prefix_cons in Hpick as [<- Hpick].
    destruct c as [|c4 c]; [discriminate Hpick|].
    apply prefix_cons in Hpick as [<- Hpick].
    destruct c as [|c5 c]; [discriminate Hpick|].
    apply prefix_cons in Hpick as [<- Hpick].
    apply not_true_is_false. intros Hclone.
    do 5 (apply prefix_cons in Hclone as [_ Hclone]).
    apply prefix_cons in Hclone as [Hne _]. discriminate Hne.
  - intros hist c ex. cbn.
    destruct (Py.startswith c "git cherry-pick "); discriminate.
  - reflexivity.
  - split; [exact Hret | exact Hn].
Defined.

(** A clone that reports a failure: [os.chdir] raises before any step. *)
Lemma cherry_pick_clone_fails
    `{H : Helpers} (self : GitHubApi) (target : string)
    (reviewed_user : option string) (w : world) :
  (forall hist c, Py.startswith c "git clone " = true ->
     exists out err, run_command_outcome hist c = Completed false out err) ->
  target ∈ branches w ->
  exists ex w',
    cherry_pick self target reviewed_user w = (Raise ex, w')
    /\ Py.startswith ex "[Errno 2] No such file or directory: '/tmp/" = true
    /\ calls w' = calls w
    /\ length (ran w') = S (length (ran w))
    /\ cwd w' = cwd w.
Proof.
  intros Hfails Hin. unfold cherry_pick, uuid, is_branch_exists. run.
  rewrite (bool_decide_eq_true_2 _ Hin). cbn [negb]. run.
  unfold _clone_repository, change_directory. run.
  unfold run_command at 1. run.
  match goal with
  | |- context [run_command_outcome ?h ?c] =>
      destruct (Hfails h c (prefix_app _ _)) as (out & err & ->)
  end.
  unfold os_chdir. run.
  eexists _, _. split; [reflexivity|]. run.
  split; [|split; [reflexivity|split; [|reflexivity]]].
  - unfold Py.startswith, clone_repository_path.
    match goal with
    | |- String.prefix ?p (_ ++ (_ ++ (_ ++ ?x) ++ ?y) ++ ?z) = true =>
        change (String.prefix p (p ++ (x ++ y) ++ z) = true)
    end.
    apply prefix_app.
  - rewrite length_app. cbn [length]. lia.
Qed.

(** X29.  A clone that fails ends the loop.  The result of [git clone] is
    not looked at, so when it reports a failure, the directory is not there
    and the change of directory raises.  Nothing catches it: for a label of
    the merged pull request whose target branch exists, the loop over the
    labels raises at that label, having run the clone command only; no
    comment is posted, for this target or for the labels that follow. *)
Theorem failed_clone_ends_the_cherry_pick_loop
    `{H : Helpers} (self : GitHubApi) (_label_name : string)
    (rest : list string) (w : world) :
  (forall hist c, Py.startswith c "git clone " = true ->
     exists out err, run_command_outcome hist c = Completed false out err) ->
  Py.startswith _label_name CHERRY_PICK_LABEL_PREFIX = true ->
  Py.replace _label_name CHERRY_PICK_LABEL_PREFIX "" ∈ branches w ->
  let r := process_pull_request_webhook_data_cherry_pick
             self (_label_name :: rest) w in
  (exists ex,
      r.1 = Raise ex
      /\ Py.startswith ex "[Errno 2] No such file or directory: '/tmp/" = true)
  /\ new_calls w r.2 = []
  /\ length (ran r.2) = S (length (ran w))
  /\ cwd r.2 = cwd w.
Proof.
  intros Hfails Hlabel Hin. cbn zeta.
  destruct (cherry_pick_clone_fails self _ None w Hfails Hin)
    as (ex & w' & Hrun & Hex & Hcalls & Hran & Hcwd).
  assert (process_pull_request_webhook_data_cherry_pick
            self (_label_name :: rest) w = (Raise ex, w')) as ->.
  { cbn [process_pull_request_webhook_data_cherry_pick]. rewrite Hlabel.
    unfold bind. rewrite Hrun. reflexivity. }
  cbn [fst snd].
  split; [exists ex; split; [reflexivity | exact Hex]|].
  split; [exact (new_calls_same _ _ Hcalls)|].
  split; [exact Hran | exact Hcwd].
Qed.

Lemma failed_clone_ends_the_cherry_pick_loop_witness :
  let ls := ["cherry-pick-main"; "cherry-pick-release-1.0"] in
  let self := example_self ls in
  let w := example_world ls in
  let r := process_pull_request_webhook_data_cherry_pick
             (H := unreachable_helpers) self ls w in
  "main" ∈ branches w
  /\ (exists ex, r.1 = Raise ex)
  /\ comments_of (new_calls w r.2) = []
  /\ ran r.2
     = ["git clone https://t0k3n@github.com/org/repo.git /tmp/repo-uuid1"].
Proof.
  cbn zeta.
  assert ("main" ∈ branches
            (example_world ["cherry-pick-main"; "cherry-pick-release-1.0"]))
    as Hin.
  { unfold example_world. cbn [branches]. rewrite !elem_of_cons. auto. }
  split; [exact Hin|].
  destruct (failed_clone_ends_the_cherry_pick_loop (H := unreachable_helpers)
              (example_self ["cherry-pick-main"; "cherry-pick-release-1.0"])
              "cherry-pick-main" ["cherry-pick-release-1.0"]
              (example_world ["cherry-pick-main"; "cherry-pick-release-1.0"]))
    as ((ex & Hret & _) & Hcalls & _).
  - intros hist c Hc. cbn. rewrite Hc. eexists _, _. reflexivity.
  - reflexivity.
  - exact Hin.
  - split; [exists ex; exact Hret|]. split; [rewrite Hcalls|]; reflexivity.
Defined.





(** X3.  A cherry-pick to a branch the repository does not have is refused
    with one comment: no command is run, nothing is cloned, and the working
    directory and the credential variable are not touched. *)
Theorem cherry_pick_refuses_a_missing_branch
    `{H : Helpers} (self : GitHubApi) (target_branch : string)
    (reviewed_user : option string) (w : world) :
  target_branch ∉ branches w ->
  let r := cherry_pick self target_branch reviewed_user w in
  r.1 = Return tt
  /\ new_calls w r.2
     = [create_issue_comment
          ("cherry-pick failed: " ++ target_branch ++ " does not exists")]
  /\ ran r.2 = ran w
  /\ cwd r.2 = cwd w
  /\ environ_GITHUB_TOKEN r.2 = environ_GITHUB_TOKEN w.
Proof.
  intros Hmissing. cbn zeta.
  unfold cherry_pick, uuid, is_branch_exists. run.
  rewrite bool_decide_eq_false_2 by exact Hmissing. cbn [negb]. run.
  unfold remote. run. split; [reflexivity|].
  split; [apply new_calls_app; reflexivity|]. repeat split.
Qed.

Lemma cherry_pick_refuses_a_missing_branch_witness :
  let w := example_world [] in
  let r := cherry_pick (H := example_helpers) (example_self []) "release-9"
             (Some "bob") w in
  r.1 = Return tt /\ ran r.2 = [].
Proof.
  destruct (cherry_pick_refuses_a_missing_branch (H := example_helpers)
              (example_self []) "release-9" (Some "bob") (example_world []))
    as (Hret & _ & Hran & _).
  - unfold example_world. cbn [branches]. rewrite !elem_of_cons, elem_of_nil.
    intros [Heq|[Heq|[]]]; discriminate Heq.
  - split; [exact Hret | exact Hran].
Defined.

(** X4.  The credential variable after [_cherry_pick], when the cherry-pick
    and the push succeed: it is unset when [hub pull-request] completes, with
    whatever return code, and it still holds the token of this repository
    when [hub pull-request] raises, there being no [finally] in
    [set_os_env_github_token]; the exception itself is caught and answered
    with the recovery comment. *)
Theorem _cherry_pick_leaves_the_token_when_hub_raises
    `{H : Helpers} (self : GitHubApi) (target new_branch_name : string)
    (w : world) (hub : cmd_outcome) :
  credential_free self w ->
  (forall hist c,
      Py.startswith c "hub pull-request " = false ->
      exists out err, run_command_outcome hist c = Completed true out err) ->
  (forall hist c,
      Py.startswith c "hub pull-request " = true ->
      run_command_outcome hist c = hub) ->
  let r := _cherry_pick self target new_branch_name w in
  match hub with
  | Completed rc _ _ =>
      r.1 = Return rc /\ environ_GITHUB_TOKEN r.2 = None
  | Failed _ =>
      r.1 = Return false
      /\ environ_GITHUB_TOKEN r.2 = Some (token self)
      /\ length (comments_of (new_calls w r.2)) = 1%nat
  end.
Proof.
  intros Hfree Hother Hhub. unfold credential_free in Hfree. cbn zeta.
  unfold _cherry_pick, try_except, _issue_from_err, set_os_env_github_token,
    run_command.
  run.
  match goal with
  | |- context [run_command_outcome ?h ?c] =>
      destruct (Hother h c eq_refl) as (out1 & err1 & ->)
  end.
  run; cbn [negb]; run.
  match goal with
  | |- context [run_command_outcome ?h ?c] =>
      destruct (Hother h c eq_refl) as (out2 & err2 & ->)
  end.
  run; cbn [negb]; run.
  rewrite Hfree. run.
  match goal with
  | |- context [run_command_outcome ?h ?c] =>
      rewrite (Hhub h c eq_refl)
  end.
  destruct hub as [[|] out3 err3|ex]; run; cbn [negb]; run.
  - split; reflexivity.
  - unfold remote. run. split; reflexivity.
  - unfold remote. run. split; [reflexivity|]. split; [reflexivity|].
    erewrite new_calls_app by reflexivity. reflexivity.
Qed.

Lemma _cherry_pick_leaves_the_token_when_hub_raises_witness :
  let H := {| run_command_outcome := fun _ cmd =>
                if Py.startswith cmd "hub pull-request "
                then Failed "hub: command not found"
                else Completed true "" "";
              shortuuid_uuid := fun n => "uuid" ++ Py.str_of_int (Z.of_nat n);
              available_command := fun _ _ _ _ _ => ret tt;
              build_and_push_container_command := fun _ _ => ret tt |} in
  let r := _cherry_pick (H := H) (example_self []) "release-1.0"
             "cherry-picked-fix-parser-uuid0" (example_world []) in
  r.1 = Return false /\ environ_GITHUB_TOKEN r.2 = Some "t0k3n".
Proof.
  cbn zeta.
  destruct (_cherry_pick_leaves_the_token_when_hub_raises
              (H := {| run_command_outcome := fun _ cmd =>
                         if Py.startswith cmd "hub pull-request "
                         then Failed "hub: command not found"
                         else Completed true "" "";
                       shortuuid_uuid :=
                         fun n => "uuid" ++ Py.str_of_int (Z.of_nat n);
                       available_command := fun _ _ _ _ _ => ret tt;
                       build_and_push_container_command := fun _ _ => ret tt |})
              (example_self []) "release-1.0" "cherry-picked-fix-parser-uuid0"
              (example_world []) (Failed "hub: command not found"))
    as (Hret & Henv & _).
  - reflexivity.
  - intros hist c Hc. cbn. rewrite Hc. eexists _, _. reflexivity.
  - intros hist c Hc. cbn. rewrite Hc. reflexivity.
  - split; [exact Hret | exact Henv].
Defined.

(** ** One label at a time *)

Lemma elem_of_filter_ne (l x : string) (ls : list string) :
  l ∈ filter (fun y => y ≠ x) ls <-> l <> x /\ l ∈ ls.
Proof. rewrite list_elem_of_filter. reflexivity. Qed.

(** X5.  [_remove_label] returns and touches no label but the one it is
    given.  When the pull request object lists that label, and the name is
    not empty, one removal is requested and the label is gone; when it does
    not, or the name is empty, nothing is requested and a warning is
    logged. *)
Theorem _remove_label_removes_only_that_label
    (self : GitHubApi) (label : string) (w : world) :
  let r := _remove_label self label w in
  r.1 = Return tt
  /\ (forall l, l <> label -> (l ∈ pr_labels r.2 <-> l ∈ pr_labels w))
  /\ (label ∈ labels (pull_request self) -> label <> "" ->
      new_calls w r.2 = [remove_from_labels label]
      /\ (label ∉ pr_labels r.2))
  /\ ((label ∉ labels (pull_request self)) \/ label = "" ->
      r.2 = push_log WARNING
              (log_prefix self ++ " Label " ++ label
                 ++ " not found and cannot be removed") w).
Proof.
  cbn zeta. unfold _remove_label.
  rewrite label_exists_in_pull_request_spec.
  destruct (bool_decide (label ∈ labels (pull_request self))) eqn:Hin;
    [apply bool_decide_eq_true in Hin | apply bool_decide_eq_false in Hin];
    (destruct (String.eqb_spec label "") as [Hempty|Hne]); cbn [andb negb];
    run; unfold remote; run.
  - split; [reflexivity|]. split; [tauto|]. split; [tauto|]. reflexivity.
  - split; [reflexivity|]. split.
    { intros l Hl. rewrite elem_of_filter_ne. tauto. }
    split.
    { intros _ _. split; [apply new_calls_app; reflexivity|].
      rewrite elem_of_filter_ne. intros [Hl _]. apply Hl. reflexivity. }
    intros [Hnot | Heq]; contradiction.
  - split; [reflexivity|]. split; [tauto|]. split; [tauto|]. reflexivity.
  - split; [reflexivity|]. split; [tauto|]. split; [tauto|]. reflexivity.
Qed.

Lemma _remove_label_removes_only_that_label_witness :
  let r := _remove_label (example_self ["verified"; "hold"]) "hold"
             (example_world ["verified"; "hold"]) in
  r.1 = Return tt /\ ("hold" ∉ pr_labels r.2) /\ "verified" ∈ pr_labels r.2.
Proof.
  destruct (_remove_label_removes_only_that_label
              (example_self ["verified"; "hold"]) "hold"
              (example_world ["verified"; "hold"]))
    as (Hret & Hothers & Hgone & _).
  split; [exact Hret|]. split.
  - apply Hgone.
    + unfold example_self, example_instance, example_pull_request.
      cbn [pull_request labels]. rewrite !elem_of_cons. auto.
    + discriminate.
  - apply Hothers; [discriminate|].
    unfold example_world. cbn [pr_labels]. rewrite !elem_of_cons. auto.
Defined.

(** X6.  [_add_label] returns and removes nothing; the only label it can
    add is the stripped name.  When the pull request object lists the
    stripped name already, nothing is requested.  When it does not, and the
    name is not empty and has at most 49 characters, the name is on the pull
    request afterwards, the last request attaches it, and the requests
    before that one edit or create the repository label. *)
Theorem _add_label_only_adds
    `{K : Constants} (self : GitHubApi) (label : string) (w : world) :
  let r := _add_label self label w in
  let name := Py.strip label in
  r.1 = Return tt
  /\ (forall l, l ∈ pr_labels w -> l ∈ pr_labels r.2)
  /\ (forall l, l ∈ pr_labels r.2 -> l ∈ pr_labels w \/ l = name)
  /\ (name ∈ labels (pull_request self) -> name <> "" ->
      new_calls w r.2 = [])
  /\ ((name ∉ labels (pull_request self)) -> name <> "" ->
      (String.length name <= 49)%nat ->
      name ∈ pr_labels r.2
      /\ exists pre,
           new_calls w r.2 = (pre ++ [add_to_labels name])%list
           /\ Forall (fun c => exists n col,
                        c = get_label_edit n col \/ c = create_label n col) pre).
Proof.
  cbn zeta.
  destruct (_add_label_run self label w) as (w' & Hrun & _ & _ & Heff).
  rewrite Hrun. cbn [fst snd]. split; [reflexivity|].
  rewrite label_exists_in_pull_request_spec in Heff.
  destruct (49 <? Z.of_nat (String.length (Py.strip label))) eqn:Hlen;
    [apply Z.ltb_lt in Hlen | apply Z.ltb_ge in Hlen]; cbn [orb] in Heff.
  { destruct Heff as (Hl & Hc & _). rewrite Hl.
    split; [auto|]. split; [auto|]. split.
    - intros _ _. apply new_calls_same. exact Hc.
    - intros _ _ Hshort. lia. }
  destruct (bool_decide (Py.strip label ∈ labels (pull_request self))) eqn:Hin;
    [apply bool_decide_eq_true in Hin | apply bool_decide_eq_false in Hin];
    (destruct (String.eqb_spec (Py.strip label) "") as [Hempty|Hne]);
    cbn [andb negb] in Heff.
  - destruct Heff as (Hl & pre & Hc & Hpre). rewrite Hl.
    split; [intros l; apply elem_of_add_if_absent_keep|].
    split; [intros l; apply elem_of_add_if_absent_inv|].
    split; [intros _ Hno; contradiction | intros Hno; contradiction].
  - destruct Heff as (Hl & Hc & _). rewrite Hl.
    split; [auto|]. split; [auto|]. split.
    + intros _ _. apply new_calls_same. exact Hc.
    + intros Hno. contradiction.
  - destruct Heff as (Hl & pre & Hc & Hpre). rewrite Hl.
    split; [intros l; apply elem_of_add_if_absent_keep|].
    split; [intros l; apply elem_of_add_if_absent_inv|].
    split; [intros Hyes; contradiction | intros _ Hno; contradiction].
  - destruct Heff as (Hl & pre & Hc & Hpre). rewrite Hl.
    split; [intros l; apply elem_of_add_if_absent_keep|].
    split; [intros l; apply elem_of_add_if_absent_inv|].
    split; [intros Hyes; contradiction|].
    intros _ _ _. split; [apply elem_of_add_if_absent|].
    exists pre. split; [apply new_calls_app; exact Hc | exact Hpre].
Qed.

Lemma _add_label_only_adds_witness :
  let r := _add_label (K := example_constants) (example_self ["verified"])
             "  Approved-By-alice " (example_world ["verified"]) in
  r.1 = Return tt
  /\ "Approved-By-alice" ∈ pr_labels r.2
  /\ "verified" ∈ pr_labels r.2.
Proof.
  destruct (_add_label_only_adds (K := example_constants)
              (example_self ["verified"]) "  Approved-By-alice "
              (example_world ["verified"]))
    as (Hret & Hkeep & _ & _ & Hadd).
  split; [exact Hret|]. split.
  - apply Hadd.
    + unfold example_self, example_instance, example_pull_request.
      cbn [pull_request labels]. rewrite !elem_of_cons, elem_of_nil.
      intros [Heq|[]]; discriminate Heq.
    + discriminate.
    + vm_compute. lia.
  - apply Hkeep. unfold example_world. cbn [pr_labels].
    rewrite !elem_of_cons. auto.
Defined.

(** ** What one evaluation sends *)

Lemma statuses_of_label_calls (cs : list call) :
  Forall (fun c => is_label_call c = true) cs -> statuses_of cs = [].
Proof.
  induction 1 as [|c cs Hc _ IH]; [reflexivity|].
  destruct c; try discriminate Hc; exact IH.
Qed.

Lemma comments_of_label_calls (cs : list call) :
  Forall (fun c => is_label_call c = true) cs -> comments_of cs = [].
Proof.
  induction 1 as [|c cs Hc _ IH]; [reflexivity|].
  destruct c; try discriminate Hc; exact IH.
Qed.

Lemma statuses_of_app (a b : list call) :
  statuses_of (a ++ b) = (statuses_of a ++ statuses_of b)%list.
Proof. apply omap_app. Qed.

Lemma comments_of_app (a b : list call) :
  comments_of (a ++ b) = (comments_of a ++ comments_of b)%list.
Proof. apply omap_app. Qed.

(** One evaluation: label requests on can-be-merged, then one status. *)
Lemma check_if_can_be_merged_requests
    `{K : Constants} (self : GitHubApi) (w : world) :
  exists w' pre st description,
    check_if_can_be_merged self w = (Return tt, w')
    /\ calls w'
       = (calls w ++ pre ++ [create_status st description CAN_BE_MERGED_STR])%list
    /\ Forall (fun c => is_label_call c = true) pre
    /\ (st = SUCCESS_STR \/ st = PENDING_STR)
    /\ (forall l, l <> CAN_BE_MERGED_STR ->
          (l ∈ pr_labels w' <-> l ∈ pr_labels w)).
Proof.
  assert (forall l, l <> CAN_BE_MERGED_STR ->
            (l ∈ add_if_absent CAN_BE_MERGED_STR (pr_labels w)
             <-> l ∈ pr_labels w)) as Hadd.
  { intros l Hl. split; [|apply elem_of_add_if_absent_keep].
    intros [Hin | Heq]%elem_of_add_if_absent_inv; [exact Hin | contradiction]. }
  assert (forall l, l <> CAN_BE_MERGED_STR ->
            (l ∈ filter (fun x => x ≠ CAN_BE_MERGED_STR) (pr_labels w)
             <-> l ∈ pr_labels w)) as Hrem.
  { intros l Hl. rewrite elem_of_filter_ne. tauto. }
  assert (forall v,
            exists w' pre,
              bind (_remove_label self CAN_BE_MERGED_STR)
                   (fun _ => set_merge_check_pending self) v = (Return tt, w')
              /\ calls w'
                 = (calls v ++ pre
                      ++ [create_status PENDING_STR "Cannot be merged"
                            CAN_BE_MERGED_STR])%list
              /\ Forall (fun c => is_label_call c = true) pre
              /\ (pr_labels w' = pr_labels v
                  \/ pr_labels w'
                     = filter (fun x => x ≠ CAN_BE_MERGED_STR) (pr_labels v)))
    as Hpending.
  { intros v. unfold bind at 1.
    destruct (_remove_label_run self CAN_BE_MERGED_STR v)
      as (w1 & -> & _ & _ & _ & Heff).
    unfold set_merge_check_pending. run. unfold remote. run.
    destruct (label_exists_in_pull_request self CAN_BE_MERGED_STR);
      destruct Heff as (Hl & Hc).
    - eexists _, [_]. split; [reflexivity|]. run. rewrite Hl, Hc.
      split; [rewrite <- app_assoc; reflexivity|].
      split; [repeat constructor | right; reflexivity].
    - eexists _, []. split; [reflexivity|]. run. rewrite Hl, Hc.
      split; [reflexivity|].
      split; [constructor | left; reflexivity]. }
  unfold check_if_can_be_merged, pull_request_labels_names.
  run.
  set (cond := bool_decide (VERIFIED_LABEL_STR ∈ labels (pull_request self))
               && negb (String.eqb (mergeable_state (pull_request self)) "behind")
               && forallb (fun c => bool_decide (c = Some SUCCESS_STR)) (check_runs w)
               && bool_decide (map_Forall (fun _ d => d.2 = SUCCESS_STR)
                                 (_final_statuses (commit_statuses w)))
               && negb (bool_decide (HOLD_LABEL_STR ∈ labels (pull_request self)))).
  assert (forall (A : Type) (b : bool) (x y : M A) (v : world),
            (if b then x else y) v = if b then x v else y v) as Hif
    by (intros A [] x y v; reflexivity).
  rewrite Hif, check_if_can_be_merged_loop_run.
  set (v := push_log INFO _ w).
  assert (pr_labels v = pr_labels w /\ calls v = calls w) as (Hlv & Hcv)
    by (split; reflexivity).
  assert (exists w' pre,
            bind (_remove_label self CAN_BE_MERGED_STR)
              (fun _ => set_merge_check_pending self) v = (Return tt, w')
            /\ calls w'
               = (calls w ++ pre
                    ++ [create_status PENDING_STR "Cannot be merged"
                          CAN_BE_MERGED_STR])%list
            /\ Forall (fun c => is_label_call c = true) pre
            /\ (forall l, l <> CAN_BE_MERGED_STR ->
                  (l ∈ pr_labels w' <-> l ∈ pr_labels w))) as Hpend.
  { destruct (Hpending v) as (w' & pre & Hrun & Hc & Hpre & Hl).
    exists w', pre. split; [exact Hrun|]. rewrite Hc, Hcv.
    split; [reflexivity|]. split; [exact Hpre|].
    intros l Hne. destruct Hl as [-> | ->]; rewrite Hlv; [reflexivity | auto]. }
  destruct Hpend as (wp & prep & Hrunp & Hcp & Hprep & Hlp).
  unfold bind in Hrunp.
  destruct cond; cbn [andb].
  2:{ cbn [negb]. exists wp, prep, PENDING_STR, "Cannot be merged".
      split; [exact Hrunp|]. auto. }
  destruct (loop_result (approvers self) (labels (pull_request self))).
  2:{ cbn [negb]. exists wp, prep, PENDING_STR, "Cannot be merged".
      split; [exact Hrunp|]. auto. }
  unfold bind at 1.
  destruct (_add_label_run self CAN_BE_MERGED_STR v)
    as (w1 & -> & _ & _ & Heff).
  change (Py.strip CAN_BE_MERGED_STR) with CAN_BE_MERGED_STR in Heff.
  change (49 <? Z.of_nat (String.length CAN_BE_MERGED_STR)) with false in Heff.
  cbn [orb] in Heff. unfold set_merge_check_success. run. unfold remote. run.
  destruct (label_exists_in_pull_request self CAN_BE_MERGED_STR).
  - destruct Heff as (Hl & Hc & _).
    eexists _, [], SUCCESS_STR, "Can be merged". split; [reflexivity|]. run.
    rewrite Hl, Hc, Hlv, Hcv. split; [reflexivity|]. split; [constructor|].
    split; [auto|]. reflexivity.
  - destruct Heff as (Hl & pre & Hc & Hpre).
    eexists _, (pre ++ [add_to_labels CAN_BE_MERGED_STR])%list,
      SUCCESS_STR, "Can be merged".
    split; [reflexivity|]. run. rewrite Hl, Hc, Hlv, Hcv.
    split; [rewrite <- !app_assoc; reflexivity|].
    split.
    { apply Forall_app. split; [|repeat constructor].
      eapply Forall_impl; [exact Hpre|].
      intros c (n & col & [-> | ->]); reflexivity. }
    split; [auto|]. exact Hadd.
Qed.

(** X7.  One evaluation, whatever the pull request object lists: it
    returns; the only label it can add or remove is can-be-merged; and among
    its requests there is exactly one status write, the last request, for
    the context can-be-merged with the state success or pending, and no
    comment. *)
Theorem check_if_can_be_merged_writes_one_status
    `{K : Constants} (self : GitHubApi) (w : world) :
  let r := check_if_can_be_merged self w in
  r.1 = Return tt
  /\ (forall l, l <> CAN_BE_MERGED_STR ->
        (l ∈ pr_labels r.2 <-> l ∈ pr_labels w))
  /\ (exists st description,
        List.last (new_calls w r.2) (create_label "" "")
        = create_status st description CAN_BE_MERGED_STR
        /\ statuses_of (new_calls w r.2) = [(CAN_BE_MERGED_STR, st)]
        /\ (st = SUCCESS_STR \/ st = PENDING_STR))
  /\ comments_of (new_calls w r.2) = [].
Proof.
  cbn zeta.
  destruct (check_if_can_be_merged_requests self w)
    as (w' & pre & st & description & -> & Hc & Hpre & Hst & Hl).
  cbn [fst snd]. split; [reflexivity|]. split; [exact Hl|].
  rewrite (new_calls_app _ _ _ Hc). split.
  - exists st, description. split; [apply last_last|].
    rewrite statuses_of_app, (statuses_of_label_calls _ Hpre).
    split; [reflexivity | exact Hst].
  - rewrite comments_of_app, (comments_of_label_calls _ Hpre). reflexivity.
Qed.

(** ** Reviews, one at a time *)

Lemma only_label_requests_ret : only_label_requests (ret tt).
Proof.
  intros w. exists w, []. split; [reflexivity|].
  split; [symmetry; apply app_nil_r | constructor].
Qed.

Lemma only_label_requests_logger (l : level) (msg : string) :
  only_label_requests (logger l msg).
Proof.
  intros w. eexists _, []. split; [reflexivity|].
  split; [symmetry; apply app_nil_r | constructor].
Qed.

Lemma only_label_requests_bind (m : M unit) (k : unit -> M unit) :
  only_label_requests m -> only_label_requests (k tt) ->
  only_label_requests (bind m k).
Proof.
  intros Hm Hk w. unfold bind.
  destruct (Hm w) as (w1 & cs1 & -> & Hc1 & Hl1).
  destruct (Hk w1) as (w2 & cs2 & -> & Hc2 & Hl2).
  exists w2, (cs1 ++ cs2)%list. split; [reflexivity|].
  split; [rewrite Hc2, Hc1, app_assoc; reflexivity|].
  apply Forall_app. auto.
Qed.

Lemma only_label_requests_remove (self : GitHubApi) (label : string) :
  only_label_requests (_remove_label self label).
Proof.
  intros w. destruct (_remove_label_run self label w) as (w' & -> & _ & _ & _ & Heff).
  destruct (label_exists_in_pull_request self label); destruct Heff as (_ & Hc).
  - exists w', [remove_from_labels label]. repeat split; [exact Hc|].
    repeat constructor.
  - exists w', []. split; [reflexivity|].
    split; [rewrite Hc, app_nil_r; reflexivity | constructor].
Qed.

Lemma only_label_requests_add
    `{K : Constants} (self : GitHubApi) (label : string) :
  only_label_requests (_add_label self label).
Proof.
  intros w. destruct (_add_label_run self label w) as (w' & -> & _ & _ & Heff).
  destruct (_ || _).
  - destruct Heff as (_ & Hc & _). exists w', []. split; [reflexivity|].
    split; [rewrite Hc, app_nil_r; reflexivity | constructor].
  - destruct Heff as (_ & pre & Hc & Hpre).
    exists w', (pre ++ [add_to_labels (Py.strip label)])%list.
    split; [reflexivity|]. split; [exact Hc|].
    apply Forall_app. split; [|repeat constructor].
    eapply Forall_impl; [exact Hpre|].
    intros c (n & col & [-> | ->]); reflexivity.
Qed.

Lemma only_label_requests_manage_reviewed_by_label
    `{K : Constants} (self : GitHubApi) (st : string) (act : action)
    (v : string) :
  only_label_requests (manage_reviewed_by_label self st act v).
Proof.
  assert (forall pfx rm,
            only_label_requests
              (manage_reviewed_by_label_tail self st act v pfx rm)) as Htail.
  { intros pfx rm. unfold manage_reviewed_by_label_tail.
    destruct (truthy pfx); [|apply only_label_requests_logger].
    destruct act; [|apply only_label_requests_remove].
    apply only_label_requests_bind; [apply only_label_requests_add|].
    destruct (truthy rm);
      [apply only_label_requests_remove | apply only_label_requests_ret]. }
  unfold manage_reviewed_by_label.
  apply only_label_requests_bind; [apply only_label_requests_logger|].
  destruct (bool_decide (st ∈ ["approved"; LGTM_STR])).
  { destruct (String.eqb (hook_data_user_login self) v);
      [apply only_label_requests_logger | apply Htail]. }
  destruct (String.eqb st "changes_requested"); [apply Htail|].
  destruct (String.eqb st "commented"); apply Htail.
Qed.

(** X8.  A review whose state is none of approved, lgtm, changes_requested
    and commented, a dismissed one for instance, changes nothing:
    [manage_reviewed_by_label] sends no request, leaves the labels as they
    are, and logs a warning that names the state. *)
Theorem manage_reviewed_by_label_ignores_other_states
    `{K : Constants} (self : GitHubApi) (review_state : string) (act : action)
    (reviewed_user : string) (w : world) :
  review_state ∉ ["approved"; LGTM_STR; "changes_requested"; "commented"] ->
  let r := manage_reviewed_by_label self review_state act reviewed_user w in
  r.1 = Return tt
  /\ calls r.2 = calls w
  /\ pr_labels r.2 = pr_labels w
  /\ List.last (log r.2) (INFO, "")
     = (WARNING,
        log_prefix self ++ " PR " ++ Py.str_of_int (number (pull_request self))
          ++ " got unsupported review state: " ++ review_state).
Proof.
  intros Hst. cbn zeta. unfold manage_reviewed_by_label.
  rewrite bool_decide_eq_false_2.
  2:{ intros Hin. apply Hst. rewrite !elem_of_cons in Hin.
      rewrite !elem_of_cons. tauto. }
  destruct (String.eqb_spec review_state "changes_requested") as [Heq|_].
  { exfalso. apply Hst. rewrite Heq, !elem_of_cons. tauto. }
  destruct (String.eqb_spec review_state "commented") as [Heq|_].
  { exfalso. apply Hst. rewrite Heq, !elem_of_cons. tauto. }
  unfold manage_reviewed_by_label_tail. cbn [truthy]. run.
  repeat split. apply last_last.
Qed.

Lemma manage_reviewed_by_label_ignores_other_states_witness :
  let ls := ["verified"; "Approved-By-bob"] in
  let r := manage_reviewed_by_label (K := example_constants) (example_self ls)
             "dismissed" ADD_STR "bob" (example_world ls) in
  r.1 = Return tt /\ calls r.2 = [] /\ pr_labels r.2 = ls.
Proof.
  destruct (manage_reviewed_by_label_ignores_other_states
              (K := example_constants)
              (example_self ["verified"; "Approved-By-bob"]) "dismissed"
              ADD_STR "bob" (example_world ["verified"; "Approved-By-bob"]))
    as (Hret & Hcalls & Hlabels & _).
  - rewrite !elem_of_cons, elem_of_nil.
    intros [Heq|[Heq|[Heq|[Heq|[]]]]]; discriminate Heq.
  - split; [exact Hret|]. split; [exact Hcalls | exact Hlabels].
Defined.

(** X9.  A review that only comments adds and never removes: on a pull
    request fetched from the current state every label stays, the
    reviewer's approval or request for changes included, and the only label
    that can appear is Commented-By-reviewer, which is there afterwards
    when the reviewer's name has no whitespace and the label has at most
    49 characters. *)
Theorem commented_review_only_adds
    `{K : Constants} (self : GitHubApi) (reviewed_user : string) (w : world) :
  labels (pull_request self) = pr_labels w ->
  let r := manage_reviewed_by_label self "commented" ADD_STR reviewed_user w in
  let commented := COMMENTED_BY_LABEL_PREFIX ++ reviewed_user in
  r.1 = Return tt
  /\ (forall l, l ∈ pr_labels w -> l ∈ pr_labels r.2)
  /\ (forall l, l ∈ pr_labels r.2 -> l ∈ pr_labels w \/ l = Py.strip commented)
  /\ (Py.nospace reviewed_user = true ->
      (String.length commented <= 49)%nat ->
      commented ∈ pr_labels r.2).
Proof.
  intros Hfresh. cbn zeta.
  destruct (manage_reviewed_by_label_run self "commented" ADD_STR reviewed_user
              w Hfresh) as (w' & -> & Hl).
  cbn [fst snd]. split; [reflexivity|]. rewrite Hl.
  change (bool_decide ("commented" ∈ ["approved"; LGTM_STR])) with false.
  change (String.eqb "commented" "changes_requested") with false.
  change (String.eqb "commented" "commented") with true. cbv iota.
  split; [|split].
  - intros l Hin. apply labels_after_review_keep;
      [exact Hin | discriminate | discriminate].
  - intros l [Hin | [_ Heq]]%labels_after_review_inv; auto.
  - intros Hu Hlen.
    assert (Py.strip (COMMENTED_BY_LABEL_PREFIX ++ reviewed_user)
            = COMMENTED_BY_LABEL_PREFIX ++ reviewed_user) as Hstrip
      by (apply strip_reviewer_label; [reflexivity | exact Hu]).
    rewrite <- Hstrip at 1. apply labels_after_review_added.
    + rewrite Hstrip. exact Hlen.
    + rewrite Hstrip. discriminate.
    + discriminate.
Qed.

Lemma commented_review_only_adds_witness :
  let ls := ["verified"; "Approved-By-bob"] in
  let r := manage_reviewed_by_label (K := example_constants) (example_self ls)
             "commented" ADD_STR "bob" (example_world ls) in
  r.1 = Return tt
  /\ "Commented-By-bob" ∈ pr_labels r.2
  /\ "Approved-By-bob" ∈ pr_labels r.2.
Proof.
  destruct (commented_review_only_adds (K := example_constants)
              (example_self ["verified"; "Approved-By-bob"]) "bob"
              (example_world ["verified"; "Approved-By-bob"]))
    as (Hret & Hkeep & _ & Hadd).
  - reflexivity.
  - split; [exact Hret|]. split.
    + apply Hadd; [reflexivity | vm_compute; lia].
    + apply Hkeep. unfold example_world. cbn [pr_labels].
      rewrite !elem_of_cons. auto.
Defined.

(** X10.  Withdrawing an approval, as [/lgtm cancel] does: for a reviewer
    other than the author, on a pull request fetched from the current
    state, [manage_reviewed_by_label] with the action [DELETE_STR] leaves
    Approved-By-reviewer absent and every other label, the reviewer's
    request for changes included, as it was. *)
Theorem withdrawn_approval_removes_one_label
    `{K : Constants} (self : GitHubApi) (review_state reviewed_user : string)
    (w : world) :
  labels (pull_request self) = pr_labels w ->
  review_state = "approved" \/ review_state = LGTM_STR ->
  hook_data_user_login self <> reviewed_user ->
  let r := manage_reviewed_by_label self review_state DELETE_STR reviewed_user w in
  let approved := APPROVED_BY_LABEL_PREFIX ++ reviewed_user in
  r.1 = Return tt
  /\ (approved ∉ pr_labels r.2)
  /\ (forall l, l <> approved -> (l ∈ pr_labels r.2 <-> l ∈ pr_labels w)).
Proof.
  intros Hfresh Hst Huser. cbn zeta.
  destruct (manage_reviewed_by_label_run self review_state DELETE_STR
              reviewed_user w Hfresh) as (w' & -> & Hl).
  cbn [fst snd]. split; [reflexivity|]. rewrite Hl.
  rewrite bool_decide_eq_true_2
    by (destruct Hst as [-> | ->]; rewrite !elem_of_cons; auto).
  destruct (String.eqb_spec (hook_data_user_login self) reviewed_user)
    as [|_]; [contradiction|].
  unfold labels_after_review.
  destruct (bool_decide
              ((APPROVED_BY_LABEL_PREFIX ++ reviewed_user) ∈ pr_labels w))
    eqn:Hin; [apply bool_decide_eq_true in Hin
             | apply bool_decide_eq_false in Hin].
  - assert (String.eqb (APPROVED_BY_LABEL_PREFIX ++ reviewed_user) "" = false)
      as -> by reflexivity.
    cbn [andb negb]. split.
    + rewrite elem_of_filter_ne. intros [Hne _]. apply Hne. reflexivity.
    + intros l Hne. rewrite elem_of_filter_ne. tauto.
  - cbn [andb]. split; [exact Hin | tauto].
Qed.

Lemma withdrawn_approval_removes_one_label_witness :
  let ls := ["Approved-By-bob"; "Changes-requested-By-bob"] in
  let r := manage_reviewed_by_label (K := example_constants) (example_self ls)
             "lgtm" DELETE_STR "bob" (example_world ls) in
  r.1 = Return tt
  /\ ("Approved-By-bob" ∉ pr_labels r.2)
  /\ "Changes-requested-By-bob" ∈ pr_labels r.2.
Proof.
  destruct (withdrawn_approval_removes_one_label (K := example_constants)
              (example_self ["Approved-By-bob"; "Changes-requested-By-bob"])
              "lgtm" "bob"
              (example_world ["Approved-By-bob"; "Changes-requested-By-bob"]))
    as (Hret & Hgone & Hothers).
  - reflexivity.
  - right. reflexivity.
  - discriminate.
  - split; [exact Hret|]. split; [exact Hgone|].
    apply Hothers; [discriminate|].
    unfold example_world. cbn [pr_labels]. rewrite !elem_of_cons. auto.
Defined.

Lemma process_pull_request_review_webhook_data_run
    `{K : Constants} (self : GitHubApi)
    (hook_action review_state review_user_login : string) (w : world) :
  exists w' cs st description,
    process_pull_request_review_webhook_data self hook_action review_state
      review_user_login w = (Return tt, w')
    /\ calls w'
       = (calls w ++ cs ++ [create_status st description CAN_BE_MERGED_STR])%list
    /\ Forall (fun c => is_label_call c = true) cs
    /\ (hook_action <> "submitted" ->
        forall l, l <> CAN_BE_MERGED_STR ->
          (l ∈ pr_labels w' <-> l ∈ pr_labels w)).
Proof.
  unfold process_pull_request_review_webhook_data, _get_pull_request.
  unfold bind at 1. unfold bind at 1.
  set (fetched := with_labels self (pr_labels w)).
  assert (exists w1 cs,
            (if String.eqb hook_action "submitted"
             then manage_reviewed_by_label fetched review_state ADD_STR
                    review_user_login
             else ret tt) w = (Return tt, w1)
            /\ calls w1 = (calls w ++ cs)%list
            /\ Forall (fun c => is_label_call c = true) cs
            /\ (hook_action <> "submitted" -> pr_labels w1 = pr_labels w))
    as (w1 & cs & -> & Hc1 & Hcs & Hl1).
  { destruct (String.eqb_spec hook_action "submitted") as [Heq|Hne].
    - destruct (only_label_requests_manage_reviewed_by_label fetched
                  review_state ADD_STR review_user_login w)
        as (w1 & cs & Hrun & Hc & Hcs).
      exists w1, cs. repeat split; try assumption. intros Hno. contradiction.
    - exists w, []. split; [reflexivity|].
      split; [symmetry; apply app_nil_r|]. split; [constructor | reflexivity]. }
  destruct (check_if_can_be_merged_requests fetched w1)
    as (w' & pre & st & description & -> & Hc & Hpre & _ & Hl).
  exists w', (cs ++ pre)%list, st, description. split; [reflexivity|].
  split; [rewrite Hc, Hc1, <- !app_assoc; reflexivity|].
  split; [apply Forall_app; auto|].
  intros Hne l Hcbm. rewrite (Hl l Hcbm), (Hl1 Hne). reflexivity.
Qed.

(** X11.  The review handler, whatever the action and the state of the
    review: it returns, it posts no comment, and it writes exactly one
    status, as its last request, for the context can-be-merged.  For an
    action other than [submitted], a dismissed or edited review for
    instance, no label but can-be-merged changes: the labels of the
    reviewer stay. *)
Theorem review_handler_ends_with_one_status
    `{K : Constants} (self : GitHubApi)
    (hook_action review_state review_user_login : string) (w : world) :
  let r := process_pull_request_review_webhook_data self hook_action
             review_state review_user_login w in
  r.1 = Return tt
  /\ comments_of (new_calls w r.2) = []
  /\ (exists st description,
        List.last (new_calls w r.2) (create_label "" "")
        = create_status st description CAN_BE_MERGED_STR
        /\ statuses_of (new_calls w r.2) = [(CAN_BE_MERGED_STR, st)])
  /\ (hook_action <> "submitted" ->
      forall l, l <> CAN_BE_MERGED_STR ->
        (l ∈ pr_labels r.2 <-> l ∈ pr_labels w)).
Proof.
  cbn zeta.
  destruct (process_pull_request_review_webhook_data_run self hook_action
              review_state review_user_login w)
    as (w' & cs & st & description & -> & Hc & Hcs & Hl).
  cbn [fst snd]. split; [reflexivity|].
  rewrite (new_calls_app _ _ _ Hc).
  split; [|split; [|exact Hl]].
  - rewrite comments_of_app, (comments_of_label_calls _ Hcs). reflexivity.
  - exists st, description. split; [apply last_last|].
    rewrite statuses_of_app, (statuses_of_label_calls _ Hcs). reflexivity.
Qed.

Lemma review_handler_ends_with_one_status_witness :
  let ls := ["verified"; "Approved-By-alice"] in
  let r := process_pull_request_review_webhook_data (K := example_constants)
             (example_self ls) "dismissed" "approved" "alice"
             (example_world ls) in
  r.1 = Return tt /\ "Approved-By-alice" ∈ pr_labels r.2.
Proof.
  destruct (review_handler_ends_with_one_status (K := example_constants)
              (example_self ["verified"; "Approved-By-alice"]) "dismissed"
              "approved" "alice"
              (example_world ["verified"; "Approved-By-alice"]))
    as (Hret & _ & _ & Hlabels).
  split; [exact Hret|]. apply Hlabels; [discriminate | discriminate|].
  unfold example_world. cbn [pr_labels]. rewrite !elem_of_cons. auto.
Defined.

(** ** Comment commands *)

(** Where [old] does not occur, [replace] changes nothing. *)
Lemma replace_scan_absent (old new s : string) :
  Py.contains old s = false -> Py.replace_scan old new s = s.
Proof.
  funelim (Py.replace_scan old new s); intros Hc.
  - reflexivity.
  - rewrite contains_cons, Heq in Hc. discriminate Hc.
  - rewrite contains_cons, Heq in Hc. cbn [orb] in Hc.
    f_equal. auto.
Qed.

Lemma replace_wip_prefix (t : string) :
  Py.contains "WIP:" t = false ->
  Py.replace ("WIP: " ++ t) "WIP:" "" = " " ++ t.
Proof.
  intros Hc. unfold Py.replace.
  change (String.eqb "WIP:" "") with false. cbv iota.
  change ("WIP: " ++ t)
    with (String "W" (String "I" (String "P" (String ":" (String " " t))))).
  simp replace_scan.
  change (Py.drop (String.length "WIP:" - 1)
            (String "I" (String "P" (String ":" (String " " t)))))
    with (String " " t).
  simp replace_scan. rewrite (replace_scan_absent _ _ _ Hc). reflexivity.
Qed.

Lemma user_commands_lgtm
    `{K : Constants} `{H : Helpers} (self : GitHubApi) (reviewed_user : string)
    (issue_comment_id : Z) (w : world) :
  user_commands self "lgtm" reviewed_user issue_comment_id w
  = label_by_user_comment self "lgtm" false reviewed_user issue_comment_id
      (push_log INFO
         (log_prefix self ++ " Processing label/user command " ++ "lgtm"
            ++ " by user " ++ reviewed_user) w).
Proof. reflexivity. Qed.

(** X12.  When the author of a pull request comments [/lgtm], and lgtm is
    among the user labels, the approval is ignored but the label is not: on
    a pull request fetched from the current state the handler returns, the
    label lgtm is on the pull request afterwards, and no other label
    changes, so that no Approved-By label appears. *)
Theorem author_lgtm_adds_the_label_without_approval
    `{K : Constants} `{H : Helpers} (self : GitHubApi) (reviewed_user : string)
    (issue_comment_id : Z) (w : world) :
  labels (pull_request self) = pr_labels w ->
  hook_data_user_login self = reviewed_user ->
  existsb (fun kv => Py.startswith LGTM_STR kv.1) USER_LABELS_DICT = true ->
  let r := user_commands self "lgtm" reviewed_user issue_comment_id w in
  r.1 = Return tt
  /\ LGTM_STR ∈ pr_labels r.2
  /\ (forall l, l <> LGTM_STR -> (l ∈ pr_labels r.2 <-> l ∈ pr_labels w)).
Proof.
  intros Hfresh Hauthor Hkey. cbn zeta. rewrite user_commands_lgtm.
  set (w0 := push_log _ _ w).
  assert (labels (pull_request self) = pr_labels w0) as Hfresh0 by exact Hfresh.
  change (pr_labels w) with (pr_labels w0). clearbody w0. clear Hfresh w.
  assert (exists w',
            label_by_user_comment self "lgtm" false reviewed_user
              issue_comment_id w0 = (Return tt, w')
            /\ LGTM_STR ∈ pr_labels w'
            /\ (forall l, l <> LGTM_STR ->
                  (l ∈ pr_labels w' <-> l ∈ pr_labels w0)))
    as (w' & -> & Hres); [|split; [reflexivity | exact Hres]].
  unfold label_by_user_comment.
  change (existsb (fun kv => Py.startswith "lgtm" kv.1) USER_LABELS_DICT)
    with (existsb (fun kv => Py.startswith LGTM_STR kv.1) USER_LABELS_DICT).
  rewrite Hkey. cbn [negb].
  change (String.eqb "lgtm" LGTM_STR) with true. cbv iota.
  unfold bind at 1. unfold logger at 1.
  unfold bind at 1. unfold create_comment_reaction, request at 1. cbn [remote].
  set (w1 := push_call _ (push_log _ _ w0)).
  assert (labels (pull_request self) = pr_labels w1) as Hfresh1 by exact Hfresh0.
  change (pr_labels w0) with (pr_labels w1). clearbody w1.
  unfold bind at 1.
  destruct (manage_reviewed_by_label_run self LGTM_STR ADD_STR reviewed_user
              w1 Hfresh1) as (w2 & -> & Hl2).
  change (bool_decide (LGTM_STR ∈ ["approved"; LGTM_STR])) with true in Hl2.
  rewrite Hauthor, String.eqb_refl in Hl2.
  destruct (_add_label_run self "lgtm" w2) as (w3 & -> & _ & _ & Heff).
  exists w3. split; [reflexivity|].
  change (Py.strip "lgtm") with LGTM_STR in Heff.
  change (49 <? Z.of_nat (String.length LGTM_STR)) with false in Heff.
  rewrite label_exists_in_pull_request_spec, Hfresh1 in Heff.
  change (String.eqb LGTM_STR "") with false in Heff.
  cbn [orb negb] in Heff. rewrite andb_true_r in Heff.
  destruct (bool_decide (LGTM_STR ∈ pr_labels w1)) eqn:Hin.
  - destruct Heff as (Hl3 & _). rewrite Hl3, Hl2.
    apply bool_decide_eq_true in Hin. split; [exact Hin | reflexivity].
  - destruct Heff as (Hl3 & _). rewrite Hl3, Hl2.
    split; [apply elem_of_add_if_absent|].
    intros l Hne. split; [|apply elem_of_add_if_absent_keep].
    intros [Hl | Heq]%elem_of_add_if_absent_inv; [exact Hl | contradiction].
Qed.

Lemma author_lgtm_adds_the_label_without_approval_witness :
  let r := user_commands (K := example_constants) (H := example_helpers)
             (example_self ["verified"]) "lgtm" "carol" 11
             (example_world ["verified"]) in
  r.1 = Return tt /\ pr_labels r.2 = ["verified"; "lgtm"].
Proof.
  destruct (author_lgtm_adds_the_label_without_approval
              (K := example_constants) (H := example_helpers)
              (example_self ["verified"]) "carol" 11
              (example_world ["verified"]))
    as (Hret & _).
  - reflexivity.
  - reflexivity.
  - reflexivity.
  - split; [exact Hret | reflexivity].
Defined.

Lemma user_commands_wip
    `{K : Constants} `{H : Helpers} (self : GitHubApi) (reviewed_user : string)
    (issue_comment_id : Z) (w : world) :
  user_commands self "wip" reviewed_user issue_comment_id w
  = bind (create_comment_reaction issue_comment_id REACTIONS_ok)
      (fun _ =>
         bind (_add_label self WIP_STR)
           (fun _ =>
              request (pull_request_edit
                         ("WIP: " ++ title (pull_request self)))))
      (push_log INFO
         (log_prefix self ++ " Processing label/user command " ++ "wip"
            ++ " by user " ++ reviewed_user) w).
Proof. reflexivity. Qed.

Lemma user_commands_wip_cancel
    `{K : Constants} `{H : Helpers} (self : GitHubApi) (reviewed_user : string)
    (issue_comment_id : Z) (w : world) :
  user_commands self "wip cancel" reviewed_user issue_comment_id w
  = bind (create_comment_reaction issue_comment_id REACTIONS_ok)
      (fun _ =>
         bind (_remove_label self WIP_STR)
           (fun _ =>
              request (pull_request_edit
                         (Py.replace (title (pull_request self)) "WIP:" ""))))
      (push_log INFO
         (log_prefix self ++ " User requested 'cancel' for command " ++ "wip")
         (push_log INFO
            (log_prefix self ++ " Processing label/user command "
               ++ "wip cancel" ++ " by user " ++ reviewed_user) w)).
Proof. reflexivity. Qed.

(** X13.  [/wip] and [/wip cancel] do not undo each other on the title.
    [/wip] attaches the label wip and edits the title to [WIP: ] followed
    by the title; [/wip cancel], on the pull request as it is then, removes
    the label and edits the title to the first title with a space before
    it, the prefix being removed without the space that came with it.  The
    first title is taken not to contain [WIP:], and both pull request
    objects to be fetched from the current state. *)
Theorem wip_cancel_leaves_a_space_in_the_title
    `{K : Constants} `{H : Helpers} (self self' : GitHubApi)
    (reviewed_user : string) (id id' : Z) (w w' : world) :
  Py.contains "WIP:" (title (pull_request self)) = false ->
  title (pull_request self') = "WIP: " ++ title (pull_request self) ->
  labels (pull_request self) = pr_labels w ->
  labels (pull_request self') = pr_labels w' ->
  let r := user_commands self "wip" reviewed_user id w in
  let r' := user_commands self' "wip cancel" reviewed_user id' w' in
  r.1 = Return tt
  /\ List.last (calls r.2) (create_label "" "")
     = pull_request_edit ("WIP: " ++ title (pull_request self))
  /\ WIP_STR ∈ pr_labels r.2
  /\ r'.1 = Return tt
  /\ List.last (calls r'.2) (create_label "" "")
     = pull_request_edit (" " ++ title (pull_request self))
  /\ (WIP_STR ∉ pr_labels r'.2).
Proof.
  intros Htitle Htitle' Hfresh Hfresh'. cbn zeta.
  assert (exists v,
            user_commands self "wip" reviewed_user id w = (Return tt, v)
            /\ List.last (calls v) (create_label "" "")
               = pull_request_edit ("WIP: " ++ title (pull_request self))
            /\ WIP_STR ∈ pr_labels v) as (v & -> & Hlast & Hin).
  { rewrite user_commands_wip.
    unfold bind at 1. unfold create_comment_reaction, request at 1.
    cbn [remote]. set (w0 := push_call _ (push_log _ _ w)).
    assert (labels (pull_request self) = pr_labels w0) as Hfresh0
      by exact Hfresh.
    unfold bind.
    destruct (_add_label_run self WIP_STR w0) as (w1 & -> & _ & _ & Heff).
    eexists. split; [reflexivity|]. unfold request, remote. run.
    split; [apply last_last|].
    change (Py.strip WIP_STR) with WIP_STR in Heff.
    change (49 <? Z.of_nat (String.length WIP_STR)) with false in Heff.
    rewrite label_exists_in_pull_request_spec, Hfresh0 in Heff.
    cbn [orb] in Heff.
    destruct (bool_decide (WIP_STR ∈ pr_labels w0)) eqn:Hin;
      cbn [andb negb] in Heff; change (String.eqb WIP_STR "") with false in Heff;
      cbn [andb negb] in Heff.
    - destruct Heff as (-> & _). apply bool_decide_eq_true in Hin. exact Hin.
    - destruct Heff as (-> & _). apply elem_of_add_if_absent. }
  assert (exists v',
            user_commands self' "wip cancel" reviewed_user id' w' = (Return tt, v')
            /\ List.last (calls v') (create_label "" "")
               = pull_request_edit (" " ++ title (pull_request self))
            /\ (WIP_STR ∉ pr_labels v')) as (v' & -> & Hlast' & Hout).
  { rewrite user_commands_wip_cancel.
    unfold bind at 1. unfold create_comment_reaction, request at 1.
    cbn [remote]. set (w0 := push_call _ (push_log _ _ (push_log _ _ w'))).
    assert (labels (pull_request self') = pr_labels w0) as Hfresh0
      by exact Hfresh'.
    unfold bind.
    destruct (_remove_label_run self' WIP_STR w0) as (w1 & -> & _ & _ & _ & Heff).
    eexists. split; [reflexivity|]. unfold request, remote. run.
    split; [rewrite Htitle', (replace_wip_prefix _ Htitle); apply last_last|].
    rewrite label_exists_in_pull_request_spec, Hfresh0 in Heff.
    change (String.eqb WIP_STR "") with false in Heff.
    cbn [negb] in Heff. rewrite andb_true_r in Heff.
    destruct (bool_decide (WIP_STR ∈ pr_labels w0)) eqn:Hwip.
    - destruct Heff as (-> & _). rewrite elem_of_filter_ne.
      intros [Hne _]. apply Hne. reflexivity.
    - destruct Heff as (-> & _). apply bool_decide_eq_false in Hwip. exact Hwip. }
  cbn [fst snd]. repeat split; assumption.
Qed.

Lemma wip_cancel_leaves_a_space_in_the_title_witness :
  let self := example_self [] in
  let self' :=
    {| repository_name := "repo"; repository_full_name := "org/repo";
       repository_dot_name := "repo";
       clone_url := "https://github.com/org/repo.git";
       owner_login := "org"; owner_email := "org@example.com";
       token := "t0k3n"; verified_job := true; approvers := ["alice"];
       hook_data_user_login := "carol";
       pull_request :=
         {| number := 7; title := "WIP: Fix parser"; labels := ["wip"];
            mergeable_state := "clean"; additions := 12; deletions := 3;
            merge_commit_sha := "0a1b2c3"; head_ref := "fix-parser";
            html_url := "https://github.com/org/repo/pull/7";
            user_login := "carol" |} |} in
  let r' := user_commands (K := example_constants) (H := example_helpers)
              self' "wip cancel" "carol" 12 (example_world ["wip"]) in
  title (pull_request self) = "Fix parser"
  /\ List.last (calls r'.2) (create_label "" "") = pull_request_edit " Fix parser".
Proof.
  cbn zeta. split; [reflexivity|].
  destruct (wip_cancel_leaves_a_space_in_the_title
              (K := example_constants) (H := example_helpers)
              (example_self [])
              {| repository_name := "repo"; repository_full_name := "org/repo";
                 repository_dot_name := "repo";
                 clone_url := "https://github.com/org/repo.git";
                 owner_login := "org"; owner_email := "org@example.com";
                 token := "t0k3n"; verified_job := true; approvers := ["alice"];
                 hook_data_user_login := "carol";
                 pull_request :=
                   {| number := 7; title := "WIP: Fix parser"; labels := ["wip"];
                      mergeable_state := "clean"; additions := 12; deletions := 3;
                      merge_commit_sha := "0a1b2c3"; head_ref := "fix-parser";
                      html_url := "https://github.com/org/repo/pull/7";
                      user_login := "carol" |} |}
              "carol" 11 12 (example_world []) (example_world ["wip"]))
    as (_ & _ & _ & _ & Hlast & _).
  - reflexivity.
  - reflexivity.
  - reflexivity.
  - reflexivity.
  - exact Hlast.
Defined.

(** X14.  [retest] and [cherry-pick] without an argument are refused: for
    the command [retest] or [cherry-pick], alone or followed by one space,
    the handler returns after one comment that asks for an argument; it
    sends no reaction, changes no label, runs no command, and starts none
    of the test, build or cherry-pick workflows, whatever these are. *)
Theorem command_without_argument_is_refused
    `{K : Constants} `{H : Helpers} (self : GitHubApi)
    (command reviewed_user : string) (issue_comment_id : Z) (w : world) :
  command ∈ ["retest"; "cherry-pick"; "retest "; "cherry-pick "] ->
  let r := user_commands self command reviewed_user issue_comment_id w in
  r.1 = Return tt
  /\ new_calls w r.2
     = [create_issue_comment
          (log_prefix self ++ " retest/cherry-pick requires an argument")]
  /\ pr_labels r.2 = pr_labels w
  /\ ran r.2 = ran w.
Proof.
  rewrite !elem_of_cons, elem_of_nil. cbn zeta.
  intros [-> | [-> | [-> | [-> | []]]]];
    (split; [reflexivity|]);
    (split; [apply new_calls_app; reflexivity|]);
    split; reflexivity.
Qed.

Lemma command_without_argument_is_refused_witness :
  let r := user_commands (K := example_constants) (H := example_helpers)
             (example_self []) "retest" "bob" 11 (example_world []) in
  r.1 = Return tt
  /\ calls r.2
     = [create_issue_comment "repo[PR 7]: retest/cherry-pick requires an argument"].
Proof.
  destruct (command_without_argument_is_refused (K := example_constants)
              (H := example_helpers) (example_self []) "retest" "bob" 11
              (example_world []))
    as (Hret & Hcalls & _).
  - rewrite !elem_of_cons. auto.
  - split; [exact Hret | exact Hcalls].
Defined.

(** ** The effect of one label request on the labels *)

Lemma _add_label_effect
    `{K : Constants} (self : GitHubApi) (label : string) (w : world) :
  exists w' cs,
    _add_label self label w = (Return tt, w')
    /\ calls w' = (calls w ++ cs)%list
    /\ Forall (fun c => is_label_call c = true) cs
    /\ forall l,
         l ∈ pr_labels w'
         <-> l ∈ pr_labels w
             \/ (l = Py.strip label
                 /\ (49 <? Z.of_nat (String.length (Py.strip label)))
                    || label_exists_in_pull_request self (Py.strip label)
                    = false).
Proof.
  destruct (only_label_requests_add self label w) as (w' & cs & Hrun & Hc & Hcs).
  destruct (_add_label_run self label w) as (w2 & Hrun2 & _ & _ & Heff).
  rewrite Hrun in Hrun2. injection Hrun2 as <-.
  exists w', cs. split; [exact Hrun|]. split; [exact Hc|]. split; [exact Hcs|].
  intros l. destruct (_ || _).
  - destruct Heff as (-> & _). split; [auto|].
    intros [Hin | [_ Hno]]; [exact Hin | discriminate Hno].
  - destruct Heff as (-> & _). split.
    + intros [Hin | ->]%elem_of_add_if_absent_inv; auto.
    + intros [Hin | [-> _]];
        [apply elem_of_add_if_absent_keep; exact Hin
        | apply elem_of_add_if_absent].
Qed.

Lemma _remove_label_effect (self : GitHubApi) (label : string) (w : world) :
  exists w' cs,
    _remove_label self label w = (Return tt, w')
    /\ calls w' = (calls w ++ cs)%list
    /\ Forall (fun c => is_label_call c = true) cs
    /\ forall l,
         l ∈ pr_labels w'
         <-> l ∈ pr_labels w
             /\ (l <> label \/ label_exists_in_pull_request self label = false).
Proof.
  destruct (only_label_requests_remove self label w)
    as (w' & cs & Hrun & Hc & Hcs).
  destruct (_remove_label_run self label w) as (w2 & Hrun2 & _ & _ & _ & Heff).
  rewrite Hrun in Hrun2. injection Hrun2 as <-.
  exists w', cs. split; [exact Hrun|]. split; [exact Hc|]. split; [exact Hcs|].
  intros l. destruct (label_exists_in_pull_request self label).
  - destruct Heff as (-> & _). rewrite elem_of_filter_ne. split.
    + intros [Hne Hin]. auto.
    + intros [Hin [Hne | Hno]]; [auto | discriminate Hno].
  - destruct Heff as (-> & _). split; [auto | intros [Hin _]; exact Hin].
Qed.

(** ** The verified label *)

(** X15.  [_process_verified] on a pull request fetched from the current
    state.  It returns and touches no label but verified.  When the
    repository has no verified job it does nothing at all.  Otherwise, for a
    committer that is the API user or [pre-commit-ci[bot]] the label
    verified is on the pull request afterwards and the status of the
    context verified is written once, as success; for any other committer
    the label is absent afterwards and the status is written once, as
    pending. *)
Theorem _process_verified_sets_label_and_status
    `{K : Constants} (self : GitHubApi) (api_user parent_committer : string)
    (w : world) :
  labels (pull_request self) = pr_labels w ->
  let r := _process_verified self api_user parent_committer w in
  let trusted := parent_committer ∈ [api_user; "pre-commit-ci[bot]"] in
  r.1 = Return tt
  /\ (forall l, l <> VERIFIED_LABEL_STR ->
        (l ∈ pr_labels r.2 <-> l ∈ pr_labels w))
  /\ (verified_job self = false -> r.2 = w)
  /\ (verified_job self = true -> trusted ->
      VERIFIED_LABEL_STR ∈ pr_labels r.2
      /\ statuses_of (new_calls w r.2) = [(VERIFIED_LABEL_STR, SUCCESS_STR)])
  /\ (verified_job self = true -> ~ trusted ->
      (VERIFIED_LABEL_STR ∉ pr_labels r.2)
      /\ statuses_of (new_calls w r.2) = [(VERIFIED_LABEL_STR, PENDING_STR)]).
Proof.
  intros Hfresh. cbn zeta.
  assert (label_exists_in_pull_request self VERIFIED_LABEL_STR
          = bool_decide (VERIFIED_LABEL_STR ∈ pr_labels w)) as Hex.
  { rewrite label_exists_in_pull_request_spec, Hfresh. apply andb_true_r. }
  unfold _process_verified. destruct (verified_job self); cbn [negb].
  2:{ unfold ret. cbn [fst snd]. split; [reflexivity|]. split; [tauto|].
      split; [reflexivity|]. split; intros Hvj; discriminate Hvj. }
  destruct (bool_decide (parent_committer ∈ [api_user; "pre-commit-ci[bot]"]))
    eqn:Htrusted;
    [apply bool_decide_eq_true in Htrusted
    | apply bool_decide_eq_false in Htrusted].
  - assert (exists w',
              bind (logger INFO
                      (log_prefix self ++ " Committer " ++ parent_committer
                         ++ " == API user " ++ parent_committer
                         ++ ", Setting verified label"))
                (fun _ => bind (_add_label self VERIFIED_LABEL_STR)
                            (fun _ => set_verify_check_success self)) w
              = (Return tt, w')
              /\ (forall l, l <> VERIFIED_LABEL_STR ->
                    (l ∈ pr_labels w' <-> l ∈ pr_labels w))
              /\ VERIFIED_LABEL_STR ∈ pr_labels w'
              /\ statuses_of (new_calls w w')
                 = [(VERIFIED_LABEL_STR, SUCCESS_STR)])
      as (w' & -> & Hothers & Hin & Hst).
    { unfold bind at 1. unfold logger at 1. unfold bind.
      set (w0 := push_log _ _ w).
      destruct (_add_label_effect self VERIFIED_LABEL_STR w0)
        as (w1 & cs & -> & Hc & Hcs & Hl).
      change (Py.strip VERIFIED_LABEL_STR) with VERIFIED_LABEL_STR in Hl.
      change (49 <? Z.of_nat (String.length VERIFIED_LABEL_STR)) with false in Hl.
      cbn [orb] in Hl. rewrite Hex in Hl.
      unfold set_verify_check_success. run. unfold remote. run.
      eexists. split; [reflexivity|]. run. split; [|split].
      - intros l Hne. rewrite Hl. change (pr_labels w0) with (pr_labels w).
        tauto.
      - apply Hl. change (pr_labels w0) with (pr_labels w).
        destruct (bool_decide (VERIFIED_LABEL_STR ∈ pr_labels w)) eqn:Hv;
          [left; apply bool_decide_eq_true in Hv; exact Hv | right; auto].
      - erewrite new_calls_app
          by (run; rewrite Hc; change (calls w0) with (calls w);
              rewrite <- app_assoc; reflexivity).
        rewrite statuses_of_app, (statuses_of_label_calls _ Hcs). reflexivity. }
    cbn [fst snd]. split; [reflexivity|]. split; [exact Hothers|].
    split; [intros Hvj; discriminate Hvj|]. split; [auto|].
    intros _ Hno. contradiction.
  - assert (exists w',
              bind (reset_verify_label self)
                (fun _ => set_verify_check_pending self) w = (Return tt, w')
              /\ (forall l, l <> VERIFIED_LABEL_STR ->
                    (l ∈ pr_labels w' <-> l ∈ pr_labels w))
              /\ (VERIFIED_LABEL_STR ∉ pr_labels w')
              /\ statuses_of (new_calls w w')
                 = [(VERIFIED_LABEL_STR, PENDING_STR)])
      as (w' & -> & Hothers & Hout & Hst).
    { unfold reset_verify_label. unfold bind at 1. unfold bind at 1.
      unfold logger at 1. set (w0 := push_log _ _ w).
      destruct (_remove_label_effect self VERIFIED_LABEL_STR w0)
        as (w1 & cs & -> & Hc & Hcs & Hl).
      rewrite Hex in Hl.
      unfold set_verify_check_pending. run. unfold remote. run.
      eexists. split; [reflexivity|]. run. split; [|split].
      - intros l Hne. rewrite Hl. change (pr_labels w0) with (pr_labels w).
        tauto.
      - rewrite Hl. change (pr_labels w0) with (pr_labels w).
        intros [Hin [Hne | Hno]]; [apply Hne; reflexivity|].
        apply bool_decide_eq_false in Hno. contradiction.
      - erewrite new_calls_app
          by (run; rewrite Hc; change (calls w0) with (calls w);
              rewrite <- app_assoc; reflexivity).
        rewrite statuses_of_app, (statuses_of_label_calls _ Hcs). reflexivity. }
    cbn [fst snd]. split; [reflexivity|]. split; [exact Hothers|].
    split; [intros Hvj; discriminate Hvj|]. split; [|auto].
    intros _ Hyes. contradiction.
Qed.

Lemma _process_verified_sets_label_and_status_witness :
  let r := _process_verified (K := example_constants)
             (example_self ["verified"; "hold"]) "webhook-bot" "carol"
             (example_world ["verified"; "hold"]) in
  r.1 = Return tt
  /\ ("verified" ∉ pr_labels r.2)
  /\ statuses_of (new_calls (example_world ["verified"; "hold"]) r.2)
     = [("verified", "pending")].
Proof.
  destruct (_process_verified_sets_label_and_status (K := example_constants)
              (example_self ["verified"; "hold"]) "webhook-bot" "carol"
              (example_world ["verified"; "hold"]))
    as (Hret & _ & _ & _ & Hother).
  - reflexivity.
  - split; [exact Hret|]. apply Hother; [reflexivity|].
    rewrite !elem_of_cons, elem_of_nil.
    intros [Heq|[Heq|[]]]; discriminate Heq.
Defined.

(** ** The needs-rebase label *)

Lemma needs_rebase_run
    `{K : Constants} (self : GitHubApi) (pulls : list string) (w : world) :
  exists w',
    needs_rebase self pulls w = (Return tt, w')
    /\ forall l,
         l ∈ pr_labels w'
         <-> if label_exists_in_pull_request self NEEDS_REBASE_LABEL_STR
             then l ∈ pr_labels w
                  /\ (l <> NEEDS_REBASE_LABEL_STR
                      \/ forallb (fun m => String.eqb m "behind") pulls = true)
             else l ∈ pr_labels w
                  \/ (l = NEEDS_REBASE_LABEL_STR
                      /\ existsb (fun m => String.eqb m "behind") pulls = true).
Proof.
  revert w. induction pulls as [|m rest IH]; intros w.
  { exists w. split; [reflexivity|]. intros l.
    destruct (label_exists_in_pull_request self NEEDS_REBASE_LABEL_STR);
      cbn [forallb existsb]; [tauto|].
    split; [auto | intros [Hin | [_ Hno]]; [exact Hin | discriminate Hno]]. }
  cbn [needs_rebase forallb existsb].
  unfold bind at 1. unfold logger at 1.
  unfold bind at 1. unfold logger at 1.
  set (w0 := push_log _ _ (push_log _ _ w)).
  change (pr_labels w) with (pr_labels w0). clearbody w0.
  unfold bind at 1.
  destruct (String.eqb m "behind"); cbn [andb orb].
  - destruct (_add_label_effect self NEEDS_REBASE_LABEL_STR w0)
      as (w1 & cs & -> & _ & _ & Hl).
    change (Py.strip NEEDS_REBASE_LABEL_STR) with NEEDS_REBASE_LABEL_STR in Hl.
    change (49 <? Z.of_nat (String.length NEEDS_REBASE_LABEL_STR)) with false
      in Hl.
    cbn [orb] in Hl.
    destruct (IH w1) as (w' & -> & Hl').
    exists w'. split; [reflexivity|]. intros l. rewrite Hl'.
    destruct (label_exists_in_pull_request self NEEDS_REBASE_LABEL_STR);
      rewrite Hl.
    + split.
      * intros [[Hin | [_ Hno]] Hrest]; [auto | discriminate Hno].
      * intros [Hin Hrest]. auto.
    + split.
      * intros [[Hin | [-> _]] | [-> _]]; auto.
      * intros [Hin | [-> _]]; auto.
  - destruct (_remove_label_effect self NEEDS_REBASE_LABEL_STR w0)
      as (w1 & cs & -> & _ & _ & Hl).
    destruct (IH w1) as (w' & -> & Hl').
    exists w'. split; [reflexivity|]. intros l. rewrite Hl'.
    destruct (label_exists_in_pull_request self NEEDS_REBASE_LABEL_STR);
      rewrite Hl.
    + split.
      * intros [[Hin [Hne | Hno]] _]; [auto | discriminate Hno].
      * intros [Hin [Hne | Hno]]; [auto | discriminate Hno].
    + split.
      * intros [[Hin _] | Hnew]; auto.
      * intros [Hin | Hnew]; auto.
Qed.

(** X16.  [needs_rebase] labels this pull request by the state of the pull
    requests that the repository lists.  On a pull request fetched from the
    current state it returns and touches no label but needs-rebase; a pull
    request that has the label keeps it exactly when every listed pull
    request is behind, and one that does not have it gets it exactly when
    some listed pull request is behind. *)
Theorem needs_rebase_follows_the_listed_pull_requests
    `{K : Constants} (self : GitHubApi) (pulls : list string) (w : world) :
  labels (pull_request self) = pr_labels w ->
  let r := needs_rebase self pulls w in
  r.1 = Return tt
  /\ (forall l, l <> NEEDS_REBASE_LABEL_STR ->
        (l ∈ pr_labels r.2 <-> l ∈ pr_labels w))
  /\ (NEEDS_REBASE_LABEL_STR ∈ pr_labels w ->
      (NEEDS_REBASE_LABEL_STR ∈ pr_labels r.2
       <-> Forall (fun m => m = "behind") pulls))
  /\ ((NEEDS_REBASE_LABEL_STR ∉ pr_labels w) ->
      (NEEDS_REBASE_LABEL_STR ∈ pr_labels r.2
       <-> Exists (fun m => m = "behind") pulls)).
Proof.
  intros Hfresh. cbn zeta.
  destruct (needs_rebase_run self pulls w) as (w' & -> & Hl).
  cbn [fst snd]. split; [reflexivity|].
  rewrite label_exists_in_pull_request_spec, Hfresh in Hl.
  change (String.eqb NEEDS_REBASE_LABEL_STR "") with false in Hl.
  cbn [negb] in Hl. rewrite andb_true_r in Hl.
  assert (forallb (fun m => String.eqb m "behind") pulls = true
          <-> Forall (fun m => m = "behind") pulls) as Hall.
  { rewrite forallb_forall, Forall_forall. split; intros Hx m Hm.
    - apply String.eqb_eq, Hx, list_elem_of_In, Hm.
    - apply String.eqb_eq, Hx, list_elem_of_In, Hm. }
  assert (existsb (fun m => String.eqb m "behind") pulls = true
          <-> Exists (fun m => m = "behind") pulls) as Hsome.
  { rewrite existsb_exists, Exists_exists. split; intros (m & Hm & Hb);
      exists m.
    - split; [apply list_elem_of_In, Hm | apply String.eqb_eq, Hb].
    - split; [apply list_elem_of_In, Hm | apply String.eqb_eq, Hb]. }
  destruct (bool_decide (NEEDS_REBASE_LABEL_STR ∈ pr_labels w)) eqn:Hin;
    [apply bool_decide_eq_true in Hin | apply bool_decide_eq_false in Hin].
  - split; [intros l Hne; rewrite Hl; tauto|]. split; [|intros Hno; contradiction].
    intros _. rewrite Hl, <- Hall. tauto.
  - split; [intros l Hne; rewrite Hl; tauto|]. split; [intros Hyes; contradiction|].
    intros _. rewrite Hl, <- Hsome. tauto.
Qed.

Lemma needs_rebase_follows_the_listed_pull_requests_witness :
  let r := needs_rebase (K := example_constants) (example_self ["verified"])
             ["clean"; "behind"; "clean"] (example_world ["verified"]) in
  r.1 = Return tt /\ "needs-rebase" ∈ pr_labels r.2.
Proof.
  destruct (needs_rebase_follows_the_listed_pull_requests
              (K := example_constants) (example_self ["verified"])
              ["clean"; "behind"; "clean"] (example_world ["verified"]))
    as (Hret & _ & _ & Hnew).
  - reflexivity.
  - split; [exact Hret|]. apply Hnew.
    + unfold example_world. cbn [pr_labels].
      rewrite !elem_of_cons, elem_of_nil. intros [Heq|[]]; discriminate Heq.
    + apply Exists_cons_tl, Exists_cons_hd. reflexivity.
Defined.

(** ** New commits reset the reviews *)

Lemma process_pull_request_webhook_data_remove_labels_run
    (self : GitHubApi) (reviewed_by_labels : list string) (w : world) :
  exists w',
    process_pull_request_webhook_data_remove_labels self reviewed_by_labels w
    = (Return tt, w')
    /\ forall l,
         l ∈ pr_labels w'
         <-> l ∈ pr_labels w
             /\ ~ (l ∈ reviewed_by_labels
                   /\ label_exists_in_pull_request self l = true).
Proof.
  revert w. induction reviewed_by_labels as [|x rest IH]; intros w.
  { exists w. split; [reflexivity|]. intros l. rewrite elem_of_nil. tauto. }
  cbn [process_pull_request_webhook_data_remove_labels]. unfold bind.
  destruct (_remove_label_effect self x w) as (w1 & cs & -> & _ & _ & Hl).
  destruct (IH w1) as (w' & -> & Hl').
  exists w'. split; [reflexivity|]. intros l.
  rewrite Hl', Hl, elem_of_cons. split.
  - intros [[Hin Hx] Hrest]. split; [exact Hin|].
    intros [[-> | Hr] Hex]; [|tauto].
    destruct Hx as [Hne | Hno]; [apply Hne; reflexivity | congruence].
  - intros [Hin Hno]. split; [split; [exact Hin|] | tauto].
    destruct (decide (l = x)) as [-> | Hne]; [|auto].
    right. destruct (label_exists_in_pull_request self x); [|reflexivity].
    exfalso. apply Hno. auto.
Qed.

Lemma elem_of_List_filter (f : string -> bool) (l : string) (L : list string) :
  l ∈ List.filter f L <-> l ∈ L /\ f l = true.
Proof. rewrite !list_elem_of_In. apply filter_In. Qed.

Lemma contains_nonempty (sub s : string) :
  sub <> "" -> Py.contains sub s = true -> s <> "".
Proof.
  intros Hsub Hc ->. cbn in Hc. rewrite orb_false_r in Hc.
  apply prefix_nil_r in Hc. contradiction.
Qed.

(** X17.  The loop that a [synchronize] event runs over the reviewers'
    labels, on a pull request fetched from the current state: it returns,
    and afterwards the pull request has exactly the labels it had whose
    name does not contain [By-].  So every Approved-By, Changes-requested-By
    and Commented-By label is gone after a new commit, and so is any other
    label with [By-] in its name. *)
Theorem synchronize_removes_the_reviewers_labels
    (self : GitHubApi) (w : world) :
  labels (pull_request self) = pr_labels w ->
  let r := process_pull_request_webhook_data_reviewed_by self w in
  r.1 = Return tt
  /\ (forall l, l ∈ pr_labels r.2
                <-> l ∈ pr_labels w /\ Py.contains "By-" l = false)
  /\ (forall u,
        ((APPROVED_BY_LABEL_PREFIX ++ u) ∉ pr_labels r.2)
        /\ ((CHANGED_REQUESTED_BY_LABEL_PREFIX ++ u) ∉ pr_labels r.2)
        /\ ((COMMENTED_BY_LABEL_PREFIX ++ u) ∉ pr_labels r.2)).
Proof.
  intros Hfresh. cbn zeta. unfold process_pull_request_webhook_data_reviewed_by.
  destruct (process_pull_request_webhook_data_remove_labels_run self
              (List.filter (fun name => Py.contains "By-" name)
                           (labels (pull_request self))) w)
    as (w' & -> & Hl).
  cbn [fst snd]. split; [reflexivity|].
  assert (forall l, l ∈ pr_labels w'
                    <-> l ∈ pr_labels w /\ Py.contains "By-" l = false) as Hres.
  { intros l. rewrite Hl, label_exists_in_pull_request_spec, Hfresh.
    rewrite elem_of_List_filter.
    split.
    - intros [Hin Hno]. split; [exact Hin|].
      destruct (Py.contains "By-" l) eqn:Hby; [|reflexivity].
      exfalso. apply Hno. split; [auto|].
      rewrite (bool_decide_eq_true_2 _ Hin).
      destruct (String.eqb_spec l "") as [Hempty|_]; [|reflexivity].
      exfalso. exact (contains_nonempty "By-" l ltac:(discriminate) Hby Hempty).
    - intros [Hin Hby]. split; [exact Hin|].
      intros [[_ Hyes] _]. congruence. }
  split; [exact Hres|]. intros u. rewrite !Hres.
  assert (forall p, Py.contains "By-" p = true ->
            Py.contains "By-" (p ++ u) = true) as Hext
    by (intros p; apply contains_app_extend).
  repeat split; intros [_ Hno];
    rewrite Hext in Hno by reflexivity; discriminate Hno.
Qed.

Lemma synchronize_removes_the_reviewers_labels_witness :
  let ls := ["verified"; "Approved-By-alice"; "Commented-By-bob"] in
  let r := process_pull_request_webhook_data_reviewed_by (example_self ls)
             (example_world ls) in
  r.1 = Return tt /\ ("Approved-By-alice" ∉ pr_labels r.2).
Proof.
  destruct (synchronize_removes_the_reviewers_labels
              (example_self ["verified"; "Approved-By-alice"; "Commented-By-bob"])
              (example_world ["verified"; "Approved-By-alice"; "Commented-By-bob"]))
    as (Hret & _ & Hgone).
  - reflexivity.
  - split; [exact Hret|]. apply (Hgone "alice").
Defined.

(** ** Label events *)

Lemma process_pull_request_webhook_data_labeled_run
    `{K : Constants} (self : GitHubApi) (hook_action label_name : string)
    (w : world) :
  hook_action ∈ ["labeled"; "unlabeled"] ->
  let labeled := Py.lower label_name in
  let verified :=
    if verified_job self && String.eqb labeled VERIFIED_LABEL_STR
    then [(VERIFIED_LABEL_STR,
           if String.eqb hook_action "labeled" then SUCCESS_STR else PENDING_STR)]
    else [] in
  exists w',
    process_pull_request_webhook_data_labeled self hook_action label_name w
    = (Return tt, w')
    /\ if negb (bool_decide (CAN_BE_MERGED_STR ∈ labels (pull_request self)))
          || negb (String.eqb labeled CAN_BE_MERGED_STR)
       then exists st,
              statuses_of (new_calls w w')
              = (verified ++ [(CAN_BE_MERGED_STR, st)])%list
              /\ forall l, l <> CAN_BE_MERGED_STR ->
                   (l ∈ pr_labels w' <-> l ∈ pr_labels w)
       else calls w' = calls w /\ pr_labels w' = pr_labels w.
Proof.
  intros Haction. cbn zeta. unfold process_pull_request_webhook_data_labeled.
  rewrite (bool_decide_eq_true_2 _ Haction).
  unfold pull_request_labels_names.
  unfold bind at 1. unfold logger at 1. set (w0 := push_log _ _ w).
  unfold bind at 1.
  assert (exists w1,
            (if verified_job self
                && String.eqb (Py.lower label_name) VERIFIED_LABEL_STR
             then bind (if String.eqb hook_action "labeled"
                        then set_verify_check_success self else ret tt)
                    (fun _ => if String.eqb hook_action "unlabeled"
                              then set_verify_check_pending self else ret tt)
             else ret tt) w0 = (Return tt, w1)
            /\ pr_labels w1 = pr_labels w
            /\ exists cs,
                 calls w1 = (calls w ++ cs)%list
                 /\ (verified_job self
                     && String.eqb (Py.lower label_name) VERIFIED_LABEL_STR
                     = false -> cs = [])
                 /\ statuses_of cs
                    = if verified_job self
                         && String.eqb (Py.lower label_name) VERIFIED_LABEL_STR
                      then [(VERIFIED_LABEL_STR,
                             if String.eqb hook_action "labeled"
                             then SUCCESS_STR else PENDING_STR)]
                      else [])
    as (w1 & -> & Hl1 & cs & Hc1 & Hnil & Hst1).
  { destruct (verified_job self
              && String.eqb (Py.lower label_name) VERIFIED_LABEL_STR).
    2:{ exists w0. split; [reflexivity|]. split; [reflexivity|].
        exists []. split; [symmetry; apply app_nil_r | split; reflexivity]. }
    rewrite !elem_of_cons, elem_of_nil in Haction.
    destruct Haction as [-> | [-> | []]].
    - eexists. split; [reflexivity|].
      unfold set_verify_check_success. run. unfold remote. run.
      split; [reflexivity|]. eexists [_]. split; [reflexivity|].
      split; [intros Hno; discriminate Hno | reflexivity].
    - eexists. split; [reflexivity|].
      unfold set_verify_check_pending. run. unfold remote. run.
      split; [reflexivity|]. eexists [_]. split; [reflexivity|].
      split; [intros Hno; discriminate Hno | reflexivity]. }
  destruct (negb (bool_decide (CAN_BE_MERGED_STR ∈ labels (pull_request self)))
            || negb (String.eqb (Py.lower label_name) CAN_BE_MERGED_STR))
    eqn:Hguard.
  - destruct (check_if_can_be_merged_requests self w1)
      as (w' & pre & st & description & -> & Hc & Hpre & _ & Hl).
    exists w'. split; [reflexivity|]. exists st. split.
    + erewrite new_calls_app
        by (rewrite Hc, Hc1, <- app_assoc; reflexivity).
      rewrite !statuses_of_app, Hst1, (statuses_of_label_calls _ Hpre).
      reflexivity.
    + intros l Hne. rewrite (Hl l Hne), Hl1. reflexivity.
  - unfold ret. exists w1. split; [reflexivity|].
    apply orb_false_elim in Hguard as [_ Hcbm].
    apply negb_false_iff in Hcbm.
    split; [|exact Hl1]. rewrite Hc1.
    assert (String.eqb (Py.lower label_name) VERIFIED_LABEL_STR = false) as Hv.
    { apply String.eqb_eq in Hcbm. rewrite Hcbm. reflexivity. }
    rewrite Hnil by (rewrite Hv; apply andb_false_r). apply app_nil_r.
Qed.

(** X18.  A label event, for a pull request that is not merged on the spot.
    An event for the label can-be-merged, in any letter case, on a pull
    request whose object lists that label, sends no request and changes no
    label: the label that the evaluation attaches does not start another
    evaluation.  Any other [labeled] or [unlabeled] event ends with one
    evaluation: one status for the context can-be-merged is written, after
    the status for the context verified when the label is verified and the
    repository has a verified job (success when the label was added, pending
    when it was removed), and no label but can-be-merged changes. *)
Theorem label_event_of_the_evaluation_is_not_evaluated
    `{K : Constants} (self : GitHubApi) (hook_action label_name : string)
    (w : world) :
  hook_action ∈ ["labeled"; "unlabeled"] ->
  let r := process_pull_request_webhook_data_labeled self hook_action
             label_name w in
  let labeled := Py.lower label_name in
  r.1 = Return tt
  /\ (labeled = CAN_BE_MERGED_STR ->
      CAN_BE_MERGED_STR ∈ labels (pull_request self) ->
      calls r.2 = calls w /\ pr_labels r.2 = pr_labels w)
  /\ (labeled <> CAN_BE_MERGED_STR
      \/ (CAN_BE_MERGED_STR ∉ labels (pull_request self)) ->
      (forall l, l <> CAN_BE_MERGED_STR ->
         (l ∈ pr_labels r.2 <-> l ∈ pr_labels w))
      /\ exists st,
           statuses_of (new_calls w r.2)
           = ((if verified_job self && String.eqb labeled VERIFIED_LABEL_STR
               then [(VERIFIED_LABEL_STR,
                      if String.eqb hook_action "labeled"
                      then SUCCESS_STR else PENDING_STR)]
               else []) ++ [(CAN_BE_MERGED_STR, st)])%list).
Proof.
  intros Haction. cbn zeta.
  destruct (process_pull_request_webhook_data_labeled_run self hook_action
              label_name w Haction) as (w' & -> & Heff).
  cbn [fst snd]. split; [reflexivity|]. split.
  - intros Hlabel Hin. rewrite Hlabel, String.eqb_refl in Heff.
    rewrite (bool_decide_eq_true_2 _ Hin) in Heff. exact Heff.
  - intros Hother.
    assert (negb (bool_decide (CAN_BE_MERGED_STR ∈ labels (pull_request self)))
            || negb (String.eqb (Py.lower label_name) CAN_BE_MERGED_STR) = true)
      as Hguard.
    { destruct Hother as [Hne | Hno].
      - apply String.eqb_neq in Hne. rewrite Hne. apply orb_true_r.
      - rewrite (bool_decide_eq_false_2 _ Hno). reflexivity. }
    rewrite Hguard in Heff. destruct Heff as (st & Hst & Hl).
    split; [exact Hl | exists st; exact Hst].
Qed.

Lemma label_event_of_the_evaluation_is_not_evaluated_witness :
  let ls := ["verified"; "Approved-By-alice"; "can-be-merged"] in
  let r := process_pull_request_webhook_data_labeled (K := example_constants)
             (example_self ls) "labeled" "can-be-merged" (example_world ls) in
  r.1 = Return tt /\ calls r.2 = [].
Proof.
  destruct (label_event_of_the_evaluation_is_not_evaluated
              (K := example_constants)
              (example_self ["verified"; "Approved-By-alice"; "can-be-merged"])
              "labeled" "can-be-merged"
              (example_world ["verified"; "Approved-By-alice"; "can-be-merged"]))
    as (Hret & Hquiet & _).
  - rewrite !elem_of_cons. auto.
  - split; [exact Hret|]. apply Hquiet; [reflexivity|].
    unfold example_self, example_instance, example_pull_request.
    cbn [pull_request labels]. rewrite !elem_of_cons. auto.
Defined.

(** ** Comments *)



(** ** What the log and the comments carry *)

(** X20.  The record of a failed cherry-pick step is logged as it is: when
    the cherry-pick succeeds and [git push] reports a failure, [_cherry_pick]
    returns [False] and its last log record is an error record made of the
    output and the error output of the command, without [hash_token]; so an
    error output that shows the token, as the address of the clone does,
    puts the token in the log. *)
Theorem cherry_pick_failure_is_logged_unmasked
    `{H : Helpers} (self : GitHubApi) (target new_branch_name : string)
    (w : world) (out1 err1 out err : string) :
  run_command_outcome (ran w)
    ("git cherry-pick " ++ merge_commit_sha (pull_request self))
  = Completed true out1 err1 ->
  run_command_outcome
    (ran w ++ ["git cherry-pick " +:+ merge_commit_sha (pull_request self)])%list
    ("git push origin " ++ new_branch_name)
  = Completed false out err ->
  let r := _cherry_pick self target new_branch_name w in
  let record := List.last (log r.2) (INFO, "") in
  r.1 = Return false
  /\ record
     = (ERROR,
        log_prefix self ++ " [git push] Cherry pick failed: " ++ out
          ++ " --- " ++ err)
  /\ (Py.contains (token self) err = true ->
      Py.contains (token self) record.2 = true).
Proof.
  intros Hpick Hpush. cbn zeta.
  assert (exists w',
            _cherry_pick self target new_branch_name w = (Return false, w')
            /\ List.last (log w') (INFO, "")
               = (ERROR,
                  log_prefix self ++ " [git push] Cherry pick failed: " ++ out
                    ++ " --- " ++ err)) as (w' & -> & Hlast).
  { unfold _cherry_pick, try_except, _issue_from_err, run_command. run.
    rewrite Hpick. run. cbn [negb]. run. rewrite Hpush. run. cbn [negb].
    eexists. split; [reflexivity|]. unfold remote. run. apply last_last. }
  cbn [fst snd]. split; [reflexivity|]. split; [exact Hlast|].
  intros Herr. rewrite Hlast. cbn [snd].
  do 4 apply contains_app_r. exact Herr.
Qed.

Lemma cherry_pick_failure_is_logged_unmasked_witness :
  let H := {| run_command_outcome := fun _ cmd =>
                if Py.startswith cmd "git push origin "
                then Completed false ""
                       "fatal: unable to access 'https://t0k3n@github.com/org/repo.git/'"
                else Completed true "" "";
              shortuuid_uuid := fun n => "uuid" ++ Py.str_of_int (Z.of_nat n);
              available_command := fun _ _ _ _ _ => ret tt;
              build_and_push_container_command := fun _ _ => ret tt |} in
  let r := _cherry_pick (H := H) (example_self []) "release-1.0"
             "cherry-picked-fix-parser-uuid0" (example_world []) in
  Py.contains "t0k3n" (List.last (log r.2) (INFO, "")).2 = true.
Proof.
  cbn zeta.
  destruct (cherry_pick_failure_is_logged_unmasked
              (H := {| run_command_outcome := fun _ cmd =>
                         if Py.startswith cmd "git push origin "
                         then Completed false ""
                                "fatal: unable to access 'https://t0k3n@github.com/org/repo.git/'"
                         else Completed true "" "";
                       shortuuid_uuid :=
                         fun n => "uuid" ++ Py.str_of_int (Z.of_nat n);
                       available_command := fun _ _ _ _ _ => ret tt;
                       build_and_push_container_command := fun _ _ => ret tt |})
              (example_self []) "release-1.0" "cherry-picked-fix-parser-uuid0"
              (example_world []) "" "" ""
              "fatal: unable to access 'https://t0k3n@github.com/org/repo.git/'")
    as (_ & _ & Hleak).
  - reflexivity.
  - reflexivity.
  - apply Hleak. reflexivity.
Defined.

Lemma string_length_app (a b : string) :
  String.length (a ++ b) = (String.length a + String.length b)%nat.
Proof.
  induction a as [|c a IH]; [reflexivity|].
  change (String c a ++ b) with (String c (a ++ b)).
  cbn [String.length]. rewrite IH. reflexivity.
Qed.

Lemma string_app_nil_r (a : string) : a ++ "" = a.
Proof.
  induction a as [|c a IH]; [reflexivity|].
  change (String c a ++ "") with (String c (a ++ "")). rewrite IH. reflexivity.
Qed.

Lemma replace_empty_length (new s : string) :
  String.length (Py.replace_empty new s)
  = (String.length s * S (String.length new) + String.length new)%nat.
Proof.
  induction s as [|c t IH]; [reflexivity|].
  cbn [Py.replace_empty]. rewrite string_length_app.
  cbn [String.length]. rewrite IH. lia.
Qed.

(** X21.  [hash_token] on the two sides of its use.  A message that does
    not contain the token, the token not being empty, comes out unchanged.
    With an empty token every message is garbled: five stars go before each
    character and at the end, so that the result has six times the length
    of the message plus five. *)
Theorem hash_token_keeps_other_messages
    (self : GitHubApi) (message : string) :
  (token self <> "" -> Py.contains (token self) message = false ->
   hash_token self message = message)
  /\ (token self = "" ->
      hash_token self message = Py.replace_empty "*****" message
      /\ String.length (hash_token self message)
         = (6 * String.length message + 5)%nat).
Proof.
  unfold hash_token, Py.replace. split.
  - intros Hne Hc.
    destruct (String.eqb_spec (token self) "") as [|_]; [contradiction|].
    apply replace_scan_absent. exact Hc.
  - intros ->. cbn [String.eqb]. split; [reflexivity|].
    rewrite replace_empty_length. cbn [String.length]. lia.
Qed.

Lemma hash_token_keeps_other_messages_witness :
  hash_token (example_self []) "repo[PR 7]: Set merge check to pending"
  = "repo[PR 7]: Set merge check to pending".
Proof.
  apply (hash_token_keeps_other_messages (example_self [])
           "repo[PR 7]: Set merge check to pending").
  - discriminate.
  - reflexivity.
Defined.

(** X22.  [add_size_label] only adds: it returns, every label of the pull
    request stays, and none of its requests removes a label.  So a pull
    request whose size moves to another tier carries the size label of the
    old tier together with the new one. *)
Theorem add_size_label_keeps_the_old_size_label
    `{K : Constants} (self : GitHubApi) (w : world) :
  let r := add_size_label self w in
  r.1 = Return tt
  /\ (forall l, l ∈ pr_labels w -> l ∈ pr_labels r.2)
  /\ Forall (fun c => forall l, c <> remove_from_labels l) (new_calls w r.2).
Proof.
  cbn zeta. unfold add_size_label.
  match goal with
  | |- context [_add_label self ?lbl w] =>
      destruct (_add_label_run self lbl w) as (w' & -> & _ & _ & Heff)
  end.
  cbn [fst snd]. split; [reflexivity|].
  destruct (_ || _).
  - destruct Heff as (-> & Hc & _). split; [auto|].
    rewrite (new_calls_same _ _ Hc). constructor.
  - destruct Heff as (-> & pre & Hc & Hpre).
    split; [intros l; apply elem_of_add_if_absent_keep|].
    rewrite (new_calls_app _ _ _ Hc). apply Forall_app. split.
    + eapply Forall_impl; [exact Hpre|].
      intros c (n & col & [-> | ->]) l; discriminate.
    + repeat constructor. intros l; discriminate.
Qed.

Lemma supported_user_labels_str_lists
    `{K : Constants} (k : string) :
  k ∈ map fst USER_LABELS_DICT ->
  Py.contains (" * " ++ k ++ LF) supported_user_labels_str = true.
Proof.
  unfold supported_user_labels_str.
  induction USER_LABELS_DICT as [|kv d IH]; cbn [map].
  - intros Hin. apply elem_of_nil in Hin as [].
  - rewrite elem_of_cons. intros [-> | Hin].
    + destruct d as [|kv' d'].
      * cbn [map Py.join].
        rewrite <- (string_app_nil_r (" * " ++ kv.1 ++ LF)) at 2.
        apply contains_app_l.
      * cbn [map Py.join]. apply contains_app_l.
    + destruct d as [|kv' d']; [apply elem_of_nil in Hin as []|].
      specialize (IH Hin). cbn [map Py.join] in *.
      do 2 apply contains_app_r. exact IH.
Qed.

(** X23.  The refusal of a label that is not a user label tells what is
    allowed: when no key of the user-label table is a prefix of the
    requested name, [label_by_user_comment] returns after one request, a
    comment that contains the requested name and, for every key of the
    table, the line that lists it; no reaction is sent and the labels stay
    as they are. *)
Theorem refused_label_comment_lists_the_user_labels
    `{K : Constants} (self : GitHubApi) (user_request : string) (remove : bool)
    (reviewed_user : string) (issue_comment_id : Z) (w : world) :
  existsb (fun kv => Py.startswith user_request kv.1) USER_LABELS_DICT = false ->
  let r := label_by_user_comment self user_request remove reviewed_user
             issue_comment_id w in
  r.1 = Return tt
  /\ pr_labels r.2 = pr_labels w
  /\ exists body,
       new_calls w r.2 = [create_issue_comment body]
       /\ Py.contains user_request body = true
       /\ forall k, k ∈ map fst USER_LABELS_DICT ->
            Py.contains (" * " ++ k ++ LF) body = true.
Proof.
  intros Hkey. cbn zeta. unfold label_by_user_comment. rewrite Hkey.
  cbn [negb]. run. unfold remote. run.
  split; [reflexivity|]. split; [reflexivity|].
  eexists. split; [apply new_calls_app; reflexivity|]. split.
  - do 2 apply contains_app_r. apply contains_app_l.
  - intros k Hk. do 8 apply contains_app_r.
    apply contains_app_extend, supported_user_labels_str_lists, Hk.
Qed.

Lemma refused_label_comment_lists_the_user_labels_witness :
  let r := label_by_user_comment (K := example_constants) (example_self [])
             "urgent" false "bob" 11 (example_world []) in
  r.1 = Return tt
  /\ exists body,
       calls r.2 = [create_issue_comment body]
       /\ Py.contains " * hold" body = true.
Proof.
  destruct (refused_label_comment_lists_the_user_labels
              (K := example_constants) (example_self []) "urgent" false "bob"
              11 (example_world []))
    as (Hret & _ & body & Hcalls & _ & _).
  - reflexivity.
  - split; [exact Hret|]. exists body. split; [exact Hcalls|].
    cbn in Hcalls. injection Hcalls as <-. reflexivity.
Defined.

(** ** The cherry-pick command *)

Lemma split_whitespace_cons (c : ascii) (t : string) :
  split_whitespace (String c t)
  = if Py.isspace c then split_whitespace t
    else
      match t with
      | EmptyString => [String c EmptyString]
      | String d _ =>
          if Py.isspace d then String c EmptyString :: split_whitespace t
          else
            match split_whitespace t with
            | x :: xs => String c x :: xs
            | [] => [String c EmptyString]
            end
      end.
Proof. reflexivity. Qed.

(** The pieces that [split] gives hold no whitespace. *)
Lemma split_whitespace_nospace (s x : string) :
  x ∈ split_whitespace s -> Py.nospace x = true.
Proof.
  revert x. induction s as [|c t IH]; intros x.
  { intros Hin. apply elem_of_nil in Hin as []. }
  rewrite split_whitespace_cons.
  destruct (Py.isspace c) eqn:Hc; [apply IH|].
  assert (Py.nospace (String c "") = true) as Hone
    by (cbn [Py.nospace]; rewrite Hc; reflexivity).
  destruct t as [|d t'].
  { intros ->%list_elem_of_singleton. exact Hone. }
  destruct (Py.isspace d).
  { rewrite elem_of_cons. intros [-> | Hin]; [exact Hone | apply IH, Hin]. }
  destruct (split_whitespace (String d t')) as [|y ys].
  { intros ->%list_elem_of_singleton. exact Hone. }
  rewrite elem_of_cons. intros [-> | Hin].
  - cbn [Py.nospace]. rewrite Hc. cbn [negb andb]. apply IH.
    rewrite elem_of_cons. auto.
  - apply IH. rewrite elem_of_cons. auto.
Qed.

Lemma user_commands_cherry_pick_lookup_run
    (targets : list string) (msg : string) (w : world) :
  exists msg',
    user_commands_cherry_pick_lookup targets msg w = (Return msg', w)
    /\ (forall sub, Py.contains sub msg = true -> Py.contains sub msg' = true)
    /\ forall t, t ∈ targets -> t ∉ branches w ->
         Py.contains ("Target branch `" ++ t ++ "` does not exist") msg' = true.
Proof.
  revert msg. induction targets as [|t0 rest IH]; intros msg.
  { exists msg. split; [reflexivity|]. split; [auto|].
    intros t Hin. apply elem_of_nil in Hin as []. }
  cbn [user_commands_cherry_pick_lookup]. unfold bind, is_branch_exists.
  destruct (bool_decide (t0 ∈ branches w)) eqn:Hfound.
  - destruct (IH msg) as (msg' & -> & Hkeep & Hmiss).
    exists msg'. split; [reflexivity|]. split; [exact Hkeep|].
    intros t [-> | Hin]%elem_of_cons Hno; [|auto].
    apply bool_decide_eq_true in Hfound. contradiction.
  - destruct (IH (msg ++ "Target branch `" ++ t0 ++ "` does not exist" ++ LF))
      as (msg' & -> & Hkeep & Hmiss).
    exists msg'. split; [reflexivity|]. split.
    + intros sub Hsub. apply Hkeep, contains_app_extend, Hsub.
    + intros t [-> | Hin]%elem_of_cons Hno; [|auto].
      apply Hkeep, contains_app_r.
      rewrite <- (string_append_assoc t0 "` does not exist" LF).
      rewrite <- (string_append_assoc "Target branch `"
                    (t0 ++ "` does not exist") LF).
      apply contains_app_l.
Qed.

Lemma user_commands_cherry_pick_add_labels_run
    `{K : Constants} (self : GitHubApi) (cp_labels : list string) (w : world) :
  (forall l, l ∈ labels (pull_request self) -> l ∈ pr_labels w) ->
  exists w' cs,
    user_commands_cherry_pick_add_labels self cp_labels w = (Return tt, w')
    /\ calls w' = (calls w ++ cs)%list
    /\ Forall (fun c => is_label_call c = true) cs
    /\ (forall l, l ∈ pr_labels w -> l ∈ pr_labels w')
    /\ forall x, x ∈ cp_labels ->
         (String.length (Py.strip x) <= 49)%nat -> Py.strip x ∈ pr_labels w'.
Proof.
  revert w. induction cp_labels as [|x0 rest IH]; intros w Hsnap.
  { exists w, []. split; [reflexivity|].
    split; [symmetry; apply app_nil_r|]. split; [constructor|].
    split; [auto|]. intros x Hin. apply elem_of_nil in Hin as []. }
  cbn [user_commands_cherry_pick_add_labels]. unfold bind.
  destruct (_add_label_effect self x0 w) as (w1 & cs1 & -> & Hc1 & Hcs1 & Hl1).
  assert (forall l, l ∈ pr_labels w -> l ∈ pr_labels w1) as Hmono1
    by (intros l Hin; apply Hl1; auto).
  destruct (IH w1) as (w' & cs & -> & Hc & Hcs & Hmono & Hadded);
    [intros l Hin; apply Hmono1, Hsnap, Hin|].
  exists w', (cs1 ++ cs)%list. split; [reflexivity|].
  split; [rewrite Hc, Hc1, app_assoc; reflexivity|].
  split; [apply Forall_app; auto|]. split; [auto|].
  intros x [-> | Hin]%elem_of_cons Hlen; [|auto].
  apply Hmono, Hl1.
  assert ((49 <? Z.of_nat (String.length (Py.strip x0))) = false) as ->
    by (apply Z.ltb_ge; lia).
  cbn [orb].
  destruct (label_exists_in_pull_request self (Py.strip x0)) eqn:Hex; [|auto].
  left. apply Hsnap.
  rewrite label_exists_in_pull_request_spec in Hex.
  apply andb_true_iff in Hex as [Hex _]. apply bool_decide_eq_true in Hex.
  exact Hex.
Qed.

(** X24.  The command [/cherry-pick] on a pull request that is not merged
    labels every target, found or not.  On a pull request fetched from the
    current state the handler returns and removes no label; for every
    target named in the argument whose cherry-pick label has at most 49
    characters that label is on the pull request afterwards; and when the
    repository has no branch of that name, a comment saying so is posted as
    well.  The order in which the set of targets is iterated does not
    matter. *)
Theorem cherry_pick_command_labels_missing_branches
    `{K : Constants} `{H : Helpers} `{S : PySet} (self : GitHubApi)
    (_args reviewed_user : string) (issue_comment_id : Z) (w : world) :
  labels (pull_request self) = pr_labels w ->
  let r := user_commands_cherry_pick self false _args reviewed_user
             issue_comment_id w in
  r.1 = Return tt
  /\ (forall l, l ∈ pr_labels w -> l ∈ pr_labels r.2)
  /\ forall t,
       t ∈ split_whitespace _args ->
       (String.length (CHERRY_PICK_LABEL_PREFIX ++ t) <= 49)%nat ->
       (CHERRY_PICK_LABEL_PREFIX ++ t) ∈ pr_labels r.2
       /\ (t ∉ branches w ->
           exists body,
             body ∈ comments_of (new_calls w r.2)
             /\ Py.contains ("Target branch `" ++ t ++ "` does not exist") body
                = true).
Proof.
  intros Hfresh. cbn zeta.
  assert (exists w' msg cs,
            user_commands_cherry_pick self false _args reviewed_user
              issue_comment_id w = (Return tt, w')
            /\ (forall l, l ∈ pr_labels w -> l ∈ pr_labels w')
            /\ (forall t, t ∈ split_whitespace _args ->
                  (String.length (CHERRY_PICK_LABEL_PREFIX ++ t) <= 49)%nat ->
                  (CHERRY_PICK_LABEL_PREFIX ++ t) ∈ pr_labels w')
            /\ new_calls w w'
               = (create_reaction issue_comment_id REACTIONS_ok
                    :: (if negb (String.eqb msg "")
                        then [create_issue_comment msg] else []) ++ cs)%list
            /\ forall t, t ∈ split_whitespace _args -> t ∉ branches w ->
                 Py.contains ("Target branch `" ++ t ++ "` does not exist") msg
                 = true)
    as (w' & msg & cs & -> & Hmono & Hadded & Hcalls & Hmsg).
  { unfold user_commands_cherry_pick.
    unfold bind at 1. unfold create_comment_reaction, request at 1.
    cbn [remote]. set (w0 := push_call _ w).
    unfold bind at 1.
    destruct (user_commands_cherry_pick_lookup_run (split_whitespace _args) "" w0)
      as (msg & -> & _ & Hmiss).
    unfold bind at 1.
    assert (exists w1,
              (if negb (String.eqb msg "")
               then bind (logger INFO (log_prefix self ++ " " ++ msg))
                      (fun _ => request (create_issue_comment msg))
               else ret tt) w0 = (Return tt, w1)
              /\ pr_labels w1 = pr_labels w
              /\ calls w1
                 = (calls w
                      ++ create_reaction issue_comment_id REACTIONS_ok
                      :: (if negb (String.eqb msg "")
                          then [create_issue_comment msg] else []))%list)
      as (w1 & -> & Hl1 & Hc1).
    { destruct (negb (String.eqb msg "")).
      - run. unfold remote. run. eexists. split; [reflexivity|]. run.
        split; [reflexivity|].
        subst w0. run. rewrite <- app_assoc. reflexivity.
      - exists w0. split; [reflexivity|]. split; reflexivity. }
    destruct (set_iter (split_whitespace _args)) as [|t0 ts] eqn:Hset.
    - exists w1, msg, []. split; [reflexivity|]. rewrite Hl1.
      split; [auto|]. split.
      { intros t Hin. apply set_iter_elem in Hin. rewrite Hset in Hin.
        apply elem_of_nil in Hin as []. }
      split; [apply new_calls_app; rewrite Hc1, app_nil_r; reflexivity|].
      exact Hmiss.
    - cbn [negb].
      unfold bind at 1. unfold logger at 1. unfold bind at 1.
      unfold request at 1. cbn [remote].
      match goal with
      | |- context [user_commands_cherry_pick_add_labels self ?ls ?v] =>
          destruct (user_commands_cherry_pick_add_labels_run self ls v)
            as (w' & cs & -> & Hc & Hcs & Hmono & Hadded)
      end.
      { intros l Hin. run. rewrite Hl1, <- Hfresh. exact Hin. }
      revert Hc Hmono Hadded. run. rewrite Hl1, Hc1. intros Hc Hmono Hadded.
      eexists w', msg, (_ :: cs). split; [reflexivity|]. split; [exact Hmono|].
      split.
      { intros t Hin Hlen.
        assert (Py.strip (CHERRY_PICK_LABEL_PREFIX ++ t)
                = CHERRY_PICK_LABEL_PREFIX ++ t) as Hstrip.
        { apply strip_reviewer_label; [reflexivity|].
          eapply split_whitespace_nospace, Hin. }
        rewrite <- Hstrip. apply Hadded; [|rewrite Hstrip; exact Hlen].
        apply list_elem_of_fmap. exists t. split; [reflexivity|].
        rewrite <- Hset. apply set_iter_elem, Hin. }
      split; [|exact Hmiss].
      apply new_calls_app. rewrite Hc, <- !app_assoc. reflexivity. }
  cbn [fst snd]. split; [reflexivity|]. split; [exact Hmono|].
  intros t Hin Hlen. split; [apply Hadded; assumption|].
  intros Hno. specialize (Hmsg t Hin Hno). exists msg. split; [|exact Hmsg].
  rewrite Hcalls.
  assert (msg <> "") as Hne
    by (eapply contains_nonempty; [|exact Hmsg]; discriminate).
  apply String.eqb_neq in Hne. rewrite Hne. cbn [negb].
  unfold comments_of. cbn [omap app]. apply elem_of_cons. left. reflexivity.
Qed.

Lemma cherry_pick_command_labels_missing_branches_witness :
  let r := user_commands_cherry_pick (K := example_constants)
             (H := example_helpers) (S := example_set) (example_self [])
             false "main release-9" "bob" 11 (example_world []) in
  r.1 = Return tt
  /\ "cherry-pick-release-9" ∈ pr_labels r.2
  /\ "release-9" ∉ branches (example_world []).
Proof.
  assert ("release-9" ∉ branches (example_world [])) as Hmissing.
  { unfold example_world. cbn [branches]. rewrite !elem_of_cons, elem_of_nil.
    intros [Heq|[Heq|[]]]; discriminate Heq. }
  destruct (cherry_pick_command_labels_missing_branches
              (K := example_constants) (H := example_helpers)
              (S := example_set) (example_self []) "main release-9" "bob" 11
              (example_world []))
    as (Hret & _ & Hlabels).
  - reflexivity.
  - split; [exact Hret|]. split; [|exact Hmissing].
    apply (Hlabels "release-9").
    + change (split_whitespace "main release-9") with ["main"; "release-9"].
      rewrite !elem_of_cons. auto.
    + vm_compute. lia.
Defined.
